(** * k8s-manifest-sigstore: the resolution-and-verification engine

    A shallow embedding of [pkg/k8smanifest/verify.go] and the properties
    its specification states about it.

    Go values are represented as follows.
    - [string] is a Go string; an [error] is identified with its [Error()]
      text and a nil-able error is an [option error].
    - [*int64] and [*string] are options; the pointee is never updated by
      this file, so the option carries the value read through the pointer.
    - [map[string]string] and [map[string][]byte] are [gmap]s.  A lookup
      with the comma-ok form is [!!]; the plain form is [!!!!] below, which
      yields the zero value on a missing key, and [!!] where the caller
      distinguishes the nil slice of a missing key.
    - [[]interface{}], the tuples of the result cache, are lists of
      [CacheValue]; a failed type assertion is a [Panic].
    - Methods with a pointer receiver run in a state monad over a
      [Machine], which holds the receiver, the shared result cache and the
      chronological trace of the calls made to external collaborators. *)

From Stdlib Require Import String Ascii List ZArith Lia Bool DecimalString.
From stdpp Require Import base option list strings gmap.

Local Open Scope string_scope.

(** ** Go values *)

Definition error := string.
Definition bytes := list Byte.byte.

(** A [(value, err)] pair of results: exactly one of them is meaningful. *)
Inductive GoResult (A : Type) : Type :=
| Ok (a : A)
| Err (e : error).
Arguments Ok {A} a.
Arguments Err {A} e.

(** The outcome of running Go code: it returns, or a run-time panic unwinds. *)
Inductive Result (A : Type) : Type :=
| Done (a : A)
| Panic (msg : string).
Arguments Done {A} a.
Arguments Panic {A} msg.

Definition errors_New (msg : string) : error := msg.
Definition errors_Wrap (e : error) (msg : string) : error := msg +:+ ": " +:+ e.

(** [%v] of an [int]. *)
Definition fmt_int (n : nat) : string := NilEmpty.string_of_uint (Nat.to_uint n).

(** [strings.Join]. *)
Definition strings_Join (l : list string) (sep : string) : string := String.concat sep l.

(** [strings.HasPrefix s prefix]. *)
Definition strings_HasPrefix (s prefix : string) : bool := String.prefix prefix s.

(** [[]byte(s)]. *)
Definition bytes_of_string (s : string) : bytes := list_byte_of_string s.

(** [m[k]] without the comma-ok form: the zero value on a missing key. *)
Definition lookup_or_zero (m : gmap string string) (k : string) : string :=
  default "" (m !! k).
Notation "m !!!! k" := (lookup_or_zero m k) (at level 20).

(** The values found in a cache tuple, by dynamic type. [VInt64Ptr None] is
    a typed nil pointer, which is not the nil interface [VNil]. *)
Inductive CacheValue : Type :=
| VNil
| VBool (b : bool)
| VString (s : string)
| VInt64Ptr (p : option Z)
| VError (e : error)
| VBytes (b : bytes).

Definition assert_bool (v : CacheValue) : Result bool :=
  match v with VBool b => Done b | _ => Panic "interface conversion: not bool" end.
Definition assert_string (v : CacheValue) : Result string :=
  match v with VString s => Done s | _ => Panic "interface conversion: not string" end.
Definition assert_int64ptr (v : CacheValue) : Result (option Z) :=
  match v with VInt64Ptr p => Done p | _ => Panic "interface conversion: not *int64" end.
Definition assert_error (v : CacheValue) : Result error :=
  match v with VError e => Done e | _ => Panic "interface conversion: not error" end.

(** An [error] stored as an [interface{}]: the nil error is the nil interface. *)
Definition value_of_error (e : option error) : CacheValue :=
  match e with Some e => VError e | None => VNil end.

(** [Verify() (bool, string, *int64, error)]. *)
Definition VerifyReturn : Type := bool * string * option Z * option error.

(** [Fetch(objYAMLBytes) ([][]byte, string, error)]; [None] is the nil slice. *)
Definition FetchReturn : Type := option (list bytes) * string * option error.

Definition SigType := string.

(** [AnnotationConfig] is consumed through its five key methods only. *)
Record AnnotationConfig : Type := {
  ImageRefAnnotationKey : string;
  MessageAnnotationKey : string;
  SignatureAnnotationKey : string;
  CertificateAnnotationKey : string;
  BundleAnnotationKey : string
}.

(** The part of [corev1.ConfigMap] that is read. *)
Record ConfigMap : Type := {
  GetName : string;
  Data : gmap string string
}.

Definition SigRefEmbeddedInAnnotation : string := "__embedded_in_annotation__".

(** Modelled from the spec: the constant [InClusterObjectPrefix] is declared
    outside [verify.go].  The spec's example reference
    [k8s://ConfigMap/ns1/sig-cm] and the message of
    [GetConfigMapFromK8sObjectRef] both give the prefix. *)
Definition InClusterObjectPrefix : string := "k8s://".

(** ** External collaborators

    Everything [verify.go] imports or uses from the rest of its package.
    The collaborators are functions of their arguments; the calls that
    reach the cache, a registry, the cluster or a signature scheme are
    recorded in the trace when made. *)
Record Externals : Type := {
  (* constants of package k8smanifest *)
  MessageAnnotationBaseName : string;
  SignatureAnnotationBaseName : string;
  CertificateAnnotationBaseName : string;
  BundleAnnotationBaseName : string;
  parseObjectInCluster : string -> GoResult (string * string * string);
  (* package sigtypes *)
  SigTypeUnknown : SigType;
  SigTypeCosign : SigType;
  SigTypePGP : SigType;
  SigTypeX509 : SigType;
  GetSignatureTypeFromPublicKey : option string -> SigType;
  (* package k8smnfutil *)
  GetAnnotationsInYAML : bytes -> gmap string string;
  SplitCommaSeparatedString : string -> list string;
  Cache : Type;
  GetCache : Cache -> string -> GoResult (list CacheValue);
  SetCache : Cache -> string -> list CacheValue -> Cache * option error;
  Image : Type;
  PullImage : string -> GoResult Image;
  GenerateConcatYAMLsFromImage : Image -> GoResult bytes;
  SplitConcatYAMLs : bytes -> list bytes;
  FindManifestYAML : bytes -> bytes -> option Z -> list string -> bool * option (list bytes);
  GzipDecompress : bytes -> bytes;
  GetYAMLsInArtifact : bytes -> GoResult (list bytes);
  ConcatenateYAMLs : list bytes -> bytes;
  (* encoding/base64 and encoding/json *)
  base64_DecodeString : string -> GoResult bytes;
  Unstructured : Type;
  json_Marshal : Unstructured -> GoResult bytes;
  json_Unmarshal_ConfigMap : bytes -> GoResult ConfigMap;
  (* package kubeutil *)
  GetResource : string -> string -> string -> string -> GoResult Unstructured;
  (* packages cosign, pgp, x509 *)
  cosign_VerifyImage : string -> string -> VerifyReturn;
  cosign_VerifyBlob :
    option bytes -> option bytes -> option bytes -> option bytes -> option string -> VerifyReturn;
  pgp_VerifyBlob : option bytes -> option bytes -> option string -> VerifyReturn;
  x509_VerifyBlob : option bytes -> option bytes -> option bytes -> option string -> VerifyReturn
}.

(** Calls to collaborators, as they appear in the trace. *)
Inductive Event : Type :=
| CallGetCache (key : string)
| CallSetCache (key : string) (values : list CacheValue)
| CallVerifyImage (imageRef pubkey : string)
| CallCosignVerifyBlob (msg sig cert bundle : option bytes) (pubkey : option string)
| CallPgpVerifyBlob (msg sig : option bytes) (pubkey : option string)
| CallX509VerifyBlob (msg sig cert : option bytes) (pubkey : option string)
| CallPullImage (imageRef : string)
| CallGetResource (apiVersion kind ns name : string).

(** ** The machine and its monad *)

Record Machine (X : Externals) (S : Type) : Type := mkMachine {
  self : S;
  cache : Cache X;
  trace : list Event
}.
Arguments mkMachine {X S} self cache trace.
Arguments self {X S} m.
Arguments cache {X S} m.
Arguments trace {X S} m.

Definition M (X : Externals) (S A : Type) : Type :=
  Machine X S -> Result A * Machine X S.

Section Monad.
Context {X : Externals} {S : Type}.

Definition ret {A} (a : A) : M X S A := fun m => (Done a, m).

Definition bind {A B} (c : M X S A) (k : A -> M X S B) : M X S B :=
  fun m =>
    match c m with
    | (Done a, m') => k a m'
    | (Panic msg, m') => (Panic msg, m')
    end.

Definition lift {A} (r : Result A) : M X S A := fun m => (r, m).

Definition getSelf : M X S S := fun m => (Done (self m), m).

Definition emit (e : Event) : M X S unit :=
  fun m => (Done tt, mkMachine (self m) (cache m) (trace m ++ [e])).

Definition callGetCache (key : string) : M X S (GoResult (list CacheValue)) :=
  fun m =>
    (Done (GetCache X (cache m) key),
     mkMachine (self m) (cache m) (trace m ++ [CallGetCache key])).

Definition callSetCache (key : string) (values : list CacheValue) : M X S (option error) :=
  fun m =>
    let '(c', setErr) := SetCache X (cache m) key values in
    (Done setErr, mkMachine (self m) c' (trace m ++ [CallSetCache key values])).
End Monad.

Declare Scope go_scope.
Delimit Scope go_scope with go.
Notation "'do' x <- c ;; k" := (bind c (fun x => k))
  (at level 10, x name, c at level 99, k at level 200) : go_scope.
Notation "'do' ' pat <- c ;; k" := (bind c (fun x => match x with pat => k end))
  (at level 10, pat pattern, c at level 99, k at level 200) : go_scope.
Notation "'run' c ;; k" := (bind c (fun _ => k))
  (at level 10, c at level 99, k at level 200) : go_scope.
Local Open Scope go_scope.

(** A [for _, x := range xs] loop whose body may [return]: the body maps the
    loop-carried locals to [inl] of their new values, or to [inr] of the
    value returned from the enclosing function. *)
Fixpoint forRange {X : Externals} {S A L R : Type}
    (xs : list A) (body : A -> L -> M X S (L + R)) (locals : L) : M X S (L + R) :=
  match xs with
  | [] => ret (inl locals)
  | x :: rest =>
      do r <- body x locals ;;
      match r with
      | inl locals' => forRange rest body locals'
      | inr v => ret (inr v)
      end
  end.

(** ** ImageSignatureVerifier *)

Module ImageSignatureVerifier.

Record t : Type := mk {
  imageRef : string;
  pubkeyPathString : option string;
  onMemoryCacheEnabled : bool;
  annotationConfig : AnnotationConfig
}.

Definition cacheKey (imageRef pubkey : string) : string :=
  "cache/verify-image/" +:+ imageRef +:+ "/" +:+ pubkey.

Definition inconsistent (resultNum got : nat) : error :=
  "cache returns inconsistent data: a length of verify image result must be "
    +:+ fmt_int resultNum +:+ ", but got " +:+ fmt_int got.

(** The body of [getResultFromCache] after the [GetCache] call: it yields
    [(cacheFound, verified, signerName, signedTimestamp, err)]. *)
Definition decodeResult (r : GoResult (list CacheValue))
  : Result (bool * bool * string * option Z * option error) :=
  let resultNum := 4%nat in
  match r with
  | Err _ => Done (false, false, "", None, None)
  | Ok result =>
      if negb (Nat.eqb (length result) resultNum) then
        Done (false, false, "", None, Some (inconsistent resultNum (length result)))
      else
        match result with
        | [r0; r1; r2; r3] =>
            match (match r0 with VNil => Done false | _ => assert_bool r0 end) with
            | Panic msg => Panic msg
            | Done verified =>
            match (match r1 with VNil => Done "" | _ => assert_string r1 end) with
            | Panic msg => Panic msg
            | Done signerName =>
            match (match r2 with VNil => Done None | _ => assert_int64ptr r2 end) with
            | Panic msg => Panic msg
            | Done signedTimestamp =>
            match (match r3 with
                   | VNil => Done None
                   | _ => match assert_error r3 with
                          | Done e => Done (Some e)
                          | Panic msg => Panic msg
                          end
                   end) with
            | Panic msg => Panic msg
            | Done err => Done (true, verified, signerName, signedTimestamp, err)
            end end end end
        | _ => Panic "index out of range"
        end
  end.

Section Methods.
Context {X : Externals}.

Definition getResultFromCache (imageRef pubkey : string)
  : M X t (bool * bool * string * option Z * option error) :=
  let key := cacheKey imageRef pubkey in
  do r <- callGetCache key ;;
  lift (decodeResult r).

Definition setResultToCache (imageRef pubkey : string) (verified : bool)
    (signerName : string) (signedTimestamp : option Z) (err : option error)
  : M X t unit :=
  let key := cacheKey imageRef pubkey in
  do setErr <- callSetCache key
              [VBool verified; VString signerName; VInt64Ptr signedTimestamp;
               value_of_error err] ;;
  (* a failed write is logged, not returned *)
  ret tt.

Definition failed (allErrs : list string) : VerifyReturn :=
  (false, "", None,
   Some ("signature verification failed: " +:+ strings_Join allErrs "; ")).

(** First loop of [Verify]; the locals carried across iterations and read
    after the loop are [(verified, cacheFoundCount, allErrs)]. *)
Definition cacheLoopBody (imageRef pubkey : string)
    (locals : bool * nat * list string)
  : M X t (bool * nat * list string + VerifyReturn) :=
  let '(_, cacheFoundCount, allErrs) := locals in
  do ' (cacheFound, verified, signerName, signedTimestamp, err) <-
      getResultFromCache imageRef pubkey ;;
  let cacheFoundCount := if cacheFound then (cacheFoundCount + 1)%nat else cacheFoundCount in
  if cacheFound && verified then
    ret (inr (verified, signerName, signedTimestamp, err))
  else
    let allErrs := match err with Some e => (allErrs ++ [e])%list | None => allErrs end in
    ret (inl (verified, cacheFoundCount, allErrs)).

(** Second loop of [Verify]; the local carried across iterations is
    [allErrs]. *)
Definition liveLoopBody (imageRef pubkey : string) (allErrs : list string)
  : M X t (list string + VerifyReturn) :=
  run emit (CallVerifyImage imageRef pubkey) ;;
  let '(verified, signerName, signedTimestamp, err) :=
    cosign_VerifyImage X imageRef pubkey in
  do v <- getSelf ;;
  run (if onMemoryCacheEnabled v then
        setResultToCache imageRef pubkey verified signerName signedTimestamp err
      else ret tt) ;;
  if verified then
    ret (inr (verified, signerName, signedTimestamp, err))
  else
    match err with
    | Some e => ret (inl (allErrs ++ [e])%list)
    | None => ret (inl allErrs)
    end.

Definition pubkeysOf (pubkeyPathString : option string) : list string :=
  match pubkeyPathString with
  | Some s => if s =? "" then [""] else SplitCommaSeparatedString X s
  | None => [""]
  end.

Definition Verify : M X t VerifyReturn :=
  do v <- getSelf ;;
  let imageRef := imageRef v in
  if imageRef =? "" then
    ret (false, "", None, Some (errors_New "no image reference is found"))
  else
    let pubkeys := pubkeysOf (pubkeyPathString v) in
    do cached <-
      (if onMemoryCacheEnabled v then
         do r <- forRange pubkeys (cacheLoopBody imageRef) (false, 0%nat, []) ;;
         match r with
         | inr out => ret (Some out)
         | inl (verified, cacheFoundCount, allErrs) =>
             if negb verified && Nat.eqb cacheFoundCount (length pubkeys) then
               ret (Some (failed allErrs))
             else ret None
         end
       else ret None) ;;
    match cached with
    | Some out => ret out
    | None =>
        do r <- forRange pubkeys (liveLoopBody imageRef) [] ;;
        match r with
        | inr out => ret out
        | inl allErrs => ret (failed allErrs)
        end
    end.
End Methods.

End ImageSignatureVerifier.

(** ** GetConfigMapFromK8sObjectRef *)

Definition dquote : string := String "034"%char EmptyString.

Section ConfigMapRef.
Context {X : Externals} {S : Type}.

Definition GetConfigMapFromK8sObjectRef (objRef : string) : M X S (GoResult ConfigMap) :=
  match parseObjectInCluster X objRef with
  | Err e => ret (Err (errors_Wrap e "failed to parse a configmap reference"))
  | Ok (kind, ns, name) =>
      if negb (kind =? "ConfigMap") && negb (kind =? "configmaps") && negb (kind =? "cm") then
        ret (Err ("configmap reference must be " +:+ dquote
                    +:+ "k8s://ConfigMap/[NAMESPACE]/[NAME]" +:+ dquote
                    +:+ ", but got " +:+ objRef))
      else
        run emit (CallGetResource "" kind ns name) ;;
        match GetResource X "" kind ns name with
        | Err e => ret (Err (errors_Wrap e "failed to get a configmap"))
        | Ok cmObj =>
            match json_Marshal X cmObj with
            | Err e => ret (Err (errors_Wrap e "failed to marshal a configmap"))
            | Ok cmBytes =>
                match json_Unmarshal_ConfigMap X cmBytes with
                | Err e => ret (Err (errors_Wrap e "failed to unmarshal a configmap bytes"))
                | Ok cm => ret (Ok cm)
                end
            end
        end
  end.
End ConfigMapRef.

(** ** BlobSignatureVerifier *)

Module BlobSignatureVerifier.

Record t : Type := mk {
  annotations : gmap string string;
  resourceRef : string;
  pubkeyPathString : option string;
  annotationConfig : AnnotationConfig
}.

Section Methods.
Context {X : Externals}.

(** The tail of [getSignatures]: only non-empty fields enter the map. *)
Definition assemble (msg sig cert bundle : string) : gmap string bytes :=
  let sigMap : gmap string bytes := ∅ in
  let sigMap :=
    if negb (msg =? "") then <[MessageAnnotationBaseName X := bytes_of_string msg]> sigMap
    else sigMap in
  let sigMap :=
    if negb (sig =? "") then <[SignatureAnnotationBaseName X := bytes_of_string sig]> sigMap
    else sigMap in
  let sigMap :=
    if negb (cert =? "") then <[CertificateAnnotationBaseName X := bytes_of_string cert]> sigMap
    else sigMap in
  let sigMap :=
    if negb (bundle =? "") then <[BundleAnnotationBaseName X := bytes_of_string bundle]> sigMap
    else sigMap in
  sigMap.

Definition getSignatures : M X t (GoResult (gmap string bytes)) :=
  do v <- getSelf ;;
  if negb (resourceRef v =? "") then
    let cmRef := resourceRef v in
    do r <- GetConfigMapFromK8sObjectRef cmRef ;;
    match r with
    | Err e => ret (Err (errors_Wrap e "failed to get a configmap"))
    | Ok cm =>
        match Data cm !! MessageAnnotationBaseName X with
        | None =>
            ret (Err ("`" +:+ MessageAnnotationBaseName X
                        +:+ "` is not found in the configmap " +:+ cmRef))
        | Some msg =>
            match Data cm !! SignatureAnnotationBaseName X with
            | None =>
                ret (Err ("`" +:+ SignatureAnnotationBaseName X
                            +:+ "` is not found in the configmap " +:+ cmRef))
            | Some sig =>
                let cert := Data cm !!!! CertificateAnnotationBaseName X in
                let bundle := Data cm !!!! BundleAnnotationBaseName X in
                ret (Ok (assemble msg sig cert bundle))
            end
        end
    end
  else
    let annotations := annotations v in
    let messageAnnotationKey := MessageAnnotationKey (annotationConfig v) in
    match annotations !! messageAnnotationKey with
    | None =>
        ret (Err ("`" +:+ messageAnnotationKey +:+ "` is not found in the annotations"))
    | Some msg =>
        let signatureAnnotationKey := SignatureAnnotationKey (annotationConfig v) in
        match annotations !! signatureAnnotationKey with
        | None =>
            ret (Err ("`" +:+ signatureAnnotationKey +:+ "` is not found in the annotations"))
        | Some sig =>
            let certificateAnnotationKey := CertificateAnnotationKey (annotationConfig v) in
            let budnleAnnotationKey := BundleAnnotationKey (annotationConfig v) in
            let cert := annotations !!!! certificateAnnotationKey in
            let bundle := annotations !!!! budnleAnnotationKey in
            ret (Ok (assemble msg sig cert bundle))
        end
    end.

Definition Verify : M X t VerifyReturn :=
  do r <- getSignatures ;;
  match r with
  | Err e => ret (false, "", None, Some (errors_Wrap e "failed to get signature"))
  | Ok sigMap =>
      let msgBytes := sigMap !! MessageAnnotationBaseName X in
      let sigBytes := sigMap !! SignatureAnnotationBaseName X in
      let certBytes := sigMap !! CertificateAnnotationBaseName X in
      let bundleBytes := sigMap !! BundleAnnotationBaseName X in
      do v <- getSelf ;;
      let sigType := GetSignatureTypeFromPublicKey X (pubkeyPathString v) in
      if sigType =? SigTypeUnknown X then
        ret (false, "", None,
             Some (errors_New "failed to judge signature type from public key configuration"))
      else if sigType =? SigTypeCosign X then
        run emit (CallCosignVerifyBlob msgBytes sigBytes certBytes bundleBytes
                    (pubkeyPathString v)) ;;
        ret (cosign_VerifyBlob X msgBytes sigBytes certBytes bundleBytes (pubkeyPathString v))
      else if sigType =? SigTypePGP X then
        run emit (CallPgpVerifyBlob msgBytes sigBytes (pubkeyPathString v)) ;;
        ret (pgp_VerifyBlob X msgBytes sigBytes (pubkeyPathString v))
      else if sigType =? SigTypeX509 X then
        run emit (CallX509VerifyBlob msgBytes sigBytes certBytes (pubkeyPathString v)) ;;
        ret (x509_VerifyBlob X msgBytes sigBytes certBytes (pubkeyPathString v))
      else
        ret (false, "", None, Some (errors_New "unknown error"))
  end.
End Methods.

End BlobSignatureVerifier.

(** ** NewSignatureVerifier *)

Inductive SignatureVerifier : Type :=
| ImageVerifier (v : ImageSignatureVerifier.t)
| BlobVerifier (v : BlobSignatureVerifier.t).

Definition NewSignatureVerifier (X : Externals) (objYAMLBytes : bytes) (sigRef : string)
    (pubkeyPath : option string) (annotationConfig : AnnotationConfig) : SignatureVerifier :=
  let '(imageRef, resourceRef) :=
    if strings_HasPrefix sigRef InClusterObjectPrefix then ("", sigRef)
    else if negb (sigRef =? "") then (sigRef, "")
    else ("", "") in
  let imageRefAnnotationKey := ImageRefAnnotationKey annotationConfig in
  let annotations := GetAnnotationsInYAML X objYAMLBytes in
  let imageRef :=
    if imageRef =? "" then
      match annotations !! imageRefAnnotationKey with
      | Some annoImageRef => annoImageRef
      | None => imageRef
      end
    else imageRef in
  let pubkeyPathString :=
    match pubkeyPath with
    | Some p => if negb (p =? "") then pubkeyPath else None
    | None => None
    end in
  if negb (imageRef =? "") && negb (imageRef =? SigRefEmbeddedInAnnotation) then
    ImageVerifier (ImageSignatureVerifier.mk imageRef pubkeyPathString true annotationConfig)
  else
    BlobVerifier (BlobSignatureVerifier.mk annotations resourceRef pubkeyPathString annotationConfig).

(** The [SignatureVerifier] interface: one method, implemented by both. *)
Class HasVerify (X : Externals) (S : Type) : Type := Verify : M X S VerifyReturn.
#[global] Instance ImageSignatureVerifier_HasVerify X : HasVerify X ImageSignatureVerifier.t :=
  ImageSignatureVerifier.Verify.
#[global] Instance BlobSignatureVerifier_HasVerify X : HasVerify X BlobSignatureVerifier.t :=
  BlobSignatureVerifier.Verify.

(** ** ImageManifestFetcher *)

(** A [(value, err)] pair held in two locals. *)
Definition pair_of_result (r : GoResult bytes) : bytes * option error :=
  match r with Ok b => (b, None) | Err e => ([], Some e) end.

Module ImageManifestFetcher.

Record t : Type := mk {
  imageRefString : string;
  AnnotationConfig : AnnotationConfig;
  ignoreFields : list string;
  maxResourceManifestNum : Z;
  cacheEnabled : bool
}.

Definition cacheKey (imageRef : string) : string := "cache/fetch-manifest/" +:+ imageRef.

Definition inconsistent (resultNum got : nat) : error :=
  "cache returns inconsistent data: a length of fetch manifest result must be "
    +:+ fmt_int resultNum +:+ ", but got " +:+ fmt_int got.

Section Methods.
Context {X : Externals}.

(** The body of [getManifestFromCache] after the [GetCache] call: it
    yields [(cacheFound, concatYAMLbytes, err)]. *)
Definition decodeManifest (r : GoResult (list CacheValue))
  : Result (bool * bytes * option error) :=
  let resultNum := 2%nat in
  match r with
  | Err _ => Done (false, [], None)
  | Ok result =>
      if negb (Nat.eqb (length result) resultNum) then
        Done (false, [], Some (inconsistent resultNum (length result)))
      else
        match result with
        | [r0; r1] =>
            match (match r0 with
                   | VNil => Done []
                   | VBytes b => Done b
                   | _ =>
                       match assert_string r0 with
                       | Panic msg => Panic msg
                       | Done concatYAMLStr =>
                           match base64_DecodeString X concatYAMLStr with
                           | Ok tmpYAMLbytes => Done tmpYAMLbytes
                           | Err _ => Done []
                           end
                       end
                   end) with
            | Panic msg => Panic msg
            | Done concatYAMLbytes =>
                match r1 with
                | VNil => Done (true, concatYAMLbytes, None)
                | _ =>
                    match assert_error r1 with
                    | Panic msg => Panic msg
                    | Done e => Done (true, concatYAMLbytes, Some e)
                    end
                end
            end
        | _ => Panic "index out of range"
        end
  end.

Definition getManifestFromCache (imageRef : string)
  : M X t (bool * bytes * option error) :=
  let key := cacheKey imageRef in
  do r <- callGetCache key ;;
  lift (decodeManifest r).

Definition setManifestToCache (imageRef : string) (concatYAMLbytes : bytes)
    (err : option error) : M X t unit :=
  let key := cacheKey imageRef in
  do setErr <- callSetCache key [VBytes concatYAMLbytes; value_of_error err] ;;
  ret tt.

Definition getConcatYAMLFromImageRef (imageRef : string) : M X t (GoResult bytes) :=
  run emit (CallPullImage imageRef) ;;
  match PullImage X imageRef with
  | Err e => ret (Err e)
  | Ok image =>
      match GenerateConcatYAMLsFromImage X image with
      | Err e => ret (Err e)
      | Ok concatYAMLbytes => ret (Ok concatYAMLbytes)
      end
  end.

Definition fetchManifestInSingleImage (singleImageRef : string) : M X t (GoResult bytes) :=
  do f <- getSelf ;;
  do ' (concatYAMLbytes, err) <-
    (if cacheEnabled f then
       do ' (cacheFound, concatYAMLbytes, err) <- getManifestFromCache singleImageRef ;;
       if negb cacheFound then
         do r <- getConcatYAMLFromImageRef singleImageRef ;;
         let '(concatYAMLbytes, err) := pair_of_result r in
         match err with
         | None =>
             run setManifestToCache singleImageRef concatYAMLbytes err ;;
             ret (concatYAMLbytes, err)
         | Some _ => ret (concatYAMLbytes, err)
         end
       else ret (concatYAMLbytes, err)
     else
       do r <- getConcatYAMLFromImageRef singleImageRef ;;
       ret (pair_of_result r)) ;;
  match err with
  | Some e => ret (Err (errors_Wrap e "failed to get YAMLs in the image"))
  | None => ret (Ok concatYAMLbytes)
  end.

Definition notFound : FetchReturn :=
  (None, "", Some (errors_New "failed to find a YAML manifest in the image")).

(** The loop of [Fetch]; it carries no locals across iterations. *)
Definition fetchLoopBody (objYAMLBytes : bytes) (maxResourceManifestNumPtr : option Z)
    (imageRef : string) (_ : unit) : M X t (unit + FetchReturn) :=
  do r <- fetchManifestInSingleImage imageRef ;;
  match r with
  | Err e => ret (inr (None, "", Some e))
  | Ok concatYAMLbytes =>
      do f <- getSelf ;;
      let '(found, resourceManifests) :=
        FindManifestYAML X concatYAMLbytes objYAMLBytes maxResourceManifestNumPtr
          (ignoreFields f) in
      if found then ret (inr (resourceManifests, imageRef, None))
      else ret (inl tt)
  end.

Definition Fetch (objYAMLBytes : bytes) : M X t FetchReturn :=
  do f <- getSelf ;;
  let imageRefString := imageRefString f in
  let imageRefAnnotationKey := ImageRefAnnotationKey (AnnotationConfig f) in
  let imageRefString :=
    if imageRefString =? "" then
      let annotations := GetAnnotationsInYAML X objYAMLBytes in
      match annotations !! imageRefAnnotationKey with
      | Some annoImageRef => annoImageRef
      | None => imageRefString
      end
    else imageRefString in
  if imageRefString =? "" then
    ret (None, "", Some (errors_New "no image reference is found"))
  else
    let maxResourceManifestNumPtr :=
      if (0 <? maxResourceManifestNum f)%Z then Some (maxResourceManifestNum f) else None in
    let imageRefList := SplitCommaSeparatedString X imageRefString in
    do r <- forRange imageRefList
              (fetchLoopBody objYAMLBytes maxResourceManifestNumPtr) tt ;;
    match r with
    | inr out => ret out
    | inl _ => ret notFound
    end.

Definition FetchAll : M X t (GoResult (list bytes)) :=
  do f <- getSelf ;;
  let imageRefString := imageRefString f in
  let imageRefList := SplitCommaSeparatedString X imageRefString in
  do r <- forRange imageRefList
            (fun imageRef (yamls : list bytes) =>
               do c <- fetchManifestInSingleImage imageRef ;;
               match c with
               | Err e => ret (inr e)
               | Ok concatYAMLbytes =>
                   let yamlsInImage := SplitConcatYAMLs X concatYAMLbytes in
                   ret (inl (yamls ++ yamlsInImage)%list)
               end) [] ;;
  match r with
  | inr e => ret (Err e)
  | inl yamls => ret (Ok yamls)
  end.
End Methods.

End ImageManifestFetcher.

(** ** BlobManifestFetcher *)

Module BlobManifestFetcher.

Record t : Type := mk {
  AnnotationConfig : AnnotationConfig;
  resourceRefString : string;
  ignoreFields : list string;
  maxResourceManifestNum : Z
}.

Section Methods.
Context {X : Externals}.

Definition fetchManifestInSingleConfigMap (singleCMRef : string) : M X t (GoResult bytes) :=
  do r <- GetConfigMapFromK8sObjectRef singleCMRef ;;
  match r with
  | Err e => ret (Err (errors_Wrap e "failed to get a configmap"))
  | Ok cm =>
      match Data cm !! MessageAnnotationBaseName X with
      | None =>
          ret (Err ("failed to find `" +:+ MessageAnnotationBaseName X
                      +:+ "` in a configmap " +:+ GetName cm))
      | Some base64Msg =>
          match base64_DecodeString X base64Msg with
          | Err e => ret (Err (errors_Wrap e "failed to decode base64 message in the configmap"))
          | Ok gzipMsg =>
              let gzipTarBall := GzipDecompress X gzipMsg in
              match GetYAMLsInArtifact X gzipTarBall with
              | Err e => ret (Err (errors_Wrap e "failed to read YAMLs in the gzipped message"))
              | Ok yamls => ret (Ok (ConcatenateYAMLs X yamls))
              end
          end
      end
  end.

Definition notFound : FetchReturn :=
  (None, "",
   Some (errors_New "failed to find a YAML manifest in the specified signature configmaps")).

(** The loop of [fetchManifestFromResource]. *)
Definition fetchLoopBody (objYAMLBytes : bytes) (maxResourceManifestNumPtr : option Z)
    (resourceRef : string) (_ : unit) : M X t (unit + FetchReturn) :=
  do r <- fetchManifestInSingleConfigMap resourceRef ;;
  match r with
  | Err e => ret (inr (None, "", Some e))
  | Ok concatYAMLbytes =>
      do f <- getSelf ;;
      let '(found, resourceManifests) :=
        FindManifestYAML X concatYAMLbytes objYAMLBytes maxResourceManifestNumPtr
          (ignoreFields f) in
      if found then ret (inr (resourceManifests, resourceRef, None))
      else ret (inl tt)
  end.

Definition fetchManifestFromResource (objYAMLBytes : bytes) : M X t FetchReturn :=
  do f <- getSelf ;;
  let resourceRefString := resourceRefString f in
  if resourceRefString =? "" then
    ret (None, "", Some (errors_New "no signature resource reference is specified"))
  else
    let maxResourceManifestNumPtr :=
      if (0 <? maxResourceManifestNum f)%Z then Some (maxResourceManifestNum f) else None in
    let resourceRefList := SplitCommaSeparatedString X resourceRefString in
    do r <- forRange resourceRefList
              (fetchLoopBody objYAMLBytes maxResourceManifestNumPtr) tt ;;
    match r with
    | inr out => ret out
    | inl _ => ret notFound
    end.

Definition Fetch (objYAMLBytes : bytes) : M X t FetchReturn :=
  do f <- getSelf ;;
  if negb (resourceRefString f =? "") then
    fetchManifestFromResource objYAMLBytes
  else
    let annotations := GetAnnotationsInYAML X objYAMLBytes in
    let messageAnnotationKey := MessageAnnotationKey (AnnotationConfig f) in
    match annotations !! messageAnnotationKey with
    | None => ret (None, "", None)
    | Some base64Msg =>
        match base64_DecodeString X base64Msg with
        | Err e =>
            ret (None, "",
                 Some (errors_Wrap e "failed to decode base64 message in the annotation"))
        | Ok gzipMsg =>
            let gzipTarBall := GzipDecompress X gzipMsg in
            match GetYAMLsInArtifact X gzipTarBall with
            | Err e =>
                ret (None, "",
                     Some (errors_Wrap e "failed to read YAMLs in the gzipped message"))
            | Ok yamls =>
                let concatYAMLbytes := ConcatenateYAMLs X yamls in
                let maxResourceManifestNumPtr :=
                  if (0 <? maxResourceManifestNum f)%Z
                  then Some (maxResourceManifestNum f) else None in
                let '(found, resourceManifests) :=
                  FindManifestYAML X concatYAMLbytes objYAMLBytes
                    maxResourceManifestNumPtr (ignoreFields f) in
                if negb found then
                  ret (None, "",
                       Some (errors_New
                               "failed to find a YAML manifest in the gzipped message"))
                else ret (resourceManifests, SigRefEmbeddedInAnnotation, None)
            end
        end
    end.
End Methods.

End BlobManifestFetcher.

(** ** NewManifestFetcher *)

Inductive ManifestFetcher : Type :=
| ImageFetcher (f : ImageManifestFetcher.t)
| BlobFetcher (f : BlobManifestFetcher.t).

Definition NewManifestFetcher (imageRef resourceRef : string)
    (annotationConfig : AnnotationConfig) (ignoreFields : list string)
    (maxResourceManifestNum : Z) : ManifestFetcher :=
  if negb (imageRef =? "") then
    ImageFetcher (ImageManifestFetcher.mk imageRef annotationConfig ignoreFields
                    maxResourceManifestNum true)
  else
    BlobFetcher (BlobManifestFetcher.mk annotationConfig resourceRef ignoreFields
                   maxResourceManifestNum).

(** The [ManifestFetcher] interface. *)
Class HasFetch (X : Externals) (S : Type) : Type := Fetch : bytes -> M X S FetchReturn.
#[global] Instance ImageManifestFetcher_HasFetch X : HasFetch X ImageManifestFetcher.t :=
  ImageManifestFetcher.Fetch.
#[global] Instance BlobManifestFetcher_HasFetch X : HasFetch X BlobManifestFetcher.t :=
  BlobManifestFetcher.Fetch.

(** ** Vocabulary of the specification *)

(** The cache tuple written after a live verification. *)
Definition verifyTuple (out : VerifyReturn) : list CacheValue :=
  let '(verified, signerName, signedTimestamp, err) := out in
  [VBool verified; VString signerName; VInt64Ptr signedTimestamp; value_of_error err].

(** What the cache holds for an image and a key, as [getResultFromCache]
    reads it. *)
Definition cachedVerify (X : Externals) (c : Cache X) (imageRef pubkey : string)
  : Result (bool * bool * string * option Z * option error) :=
  ImageSignatureVerifier.decodeResult
    (GetCache X c (ImageSignatureVerifier.cacheKey imageRef pubkey)).

(** A cache hit: the read reports [cacheFound = true]. *)
Definition CacheHit (X : Externals) (c : Cache X) (imageRef pubkey : string)
    (verified : bool) (signerName : string) (signedTimestamp : option Z)
    (err : option error) : Prop :=
  cachedVerify X c imageRef pubkey = Done (true, verified, signerName, signedTimestamp, err).

(** A cache hit that did not verify, with its stored error. *)
Definition CacheHitUnverified (X : Externals) (c : Cache X) (imageRef pubkey : string)
    (err : option error) : Prop :=
  exists signerName signedTimestamp,
    CacheHit X c imageRef pubkey false signerName signedTimestamp err.

(** Anything the read reports with [cacheFound = false]: an absent key, or a
    tuple of the wrong length (reported with an error). *)
Definition CacheNotFound (X : Externals) (c : Cache X) (imageRef pubkey : string)
    (err : option error) : Prop :=
  cachedVerify X c imageRef pubkey = Done (false, false, "", None, err).

(** A key the first pass goes past: found and unverified, or not found. *)
Definition Passed {X : Externals} (c : Cache X) (imageRef pubkey : string) : Prop :=
  exists err,
    CacheHitUnverified X c imageRef pubkey err \/ CacheNotFound X c imageRef pubkey err.

(** A cache miss proper: [GetCache] fails. *)
Definition CacheMiss (X : Externals) (c : Cache X) (imageRef pubkey : string) : Prop :=
  exists e, GetCache X c (ImageSignatureVerifier.cacheKey imageRef pubkey) = Err e.

(** The cache after the writes among the given calls. *)
Fixpoint replay (X : Externals) (evs : list Event) (c : Cache X) : Cache X :=
  match evs with
  | [] => c
  | CallSetCache key values :: rest => replay X rest (fst (SetCache X c key values))
  | _ :: rest => replay X rest c
  end.

(** A computation that leaves the receiver as it was, only appends to the
    trace, and changes the cache by the [SetCache] calls it traces and by
    nothing else. *)
Definition Frame {X : Externals} {S A : Type} (c : M X S A) : Prop :=
  forall m,
    self (snd (c m)) = self m /\
    exists evs,
      trace (snd (c m)) = (trace m ++ evs)%list /\
      cache (snd (c m)) = replay X evs (cache m).

(** Live verification as the specification words it: keys are tried in
    order, every attempt is written to the cache when caching is on, and the
    first success ends the run. *)
Fixpoint liveEvents (X : Externals) (cacheOn : bool) (imageRef : string)
    (pubkeys : list string) : list Event :=
  match pubkeys with
  | [] => []
  | pubkey :: rest =>
      let out := cosign_VerifyImage X imageRef pubkey in
      (CallVerifyImage imageRef pubkey
         :: (if cacheOn
             then [CallSetCache (ImageSignatureVerifier.cacheKey imageRef pubkey)
                     (verifyTuple out)]
             else []))
        ++ (if fst (fst (fst out)) then [] else liveEvents X cacheOn imageRef rest)
  end.

(** The outcome of the first key that verifies, if any does. *)
Fixpoint firstSuccess (X : Externals) (imageRef : string) (pubkeys : list string)
  : option VerifyReturn :=
  match pubkeys with
  | [] => None
  | pubkey :: rest =>
      let out := cosign_VerifyImage X imageRef pubkey in
      if fst (fst (fst out)) then Some out else firstSuccess X imageRef rest
  end.

(** The cache reads of the first pass over the keys. *)
Definition cacheReads (imageRef : string) (pubkeys : list string) : list Event :=
  map (fun pubkey => CallGetCache (ImageSignatureVerifier.cacheKey imageRef pubkey)) pubkeys.

(** The error stored in the cache for a key, if the read yields one. *)
Definition cachedError (X : Externals) (c : Cache X) (imageRef pubkey : string)
  : option error :=
  match cachedVerify X c imageRef pubkey with
  | Done (_, _, _, _, err) => err
  | Panic _ => None
  end.

(** Whether the read of a key reports [cacheFound]. *)
Definition cachedFound (X : Externals) (c : Cache X) (imageRef pubkey : string) : bool :=
  match cachedVerify X c imageRef pubkey with
  | Done (cacheFound, _, _, _, _) => cacheFound
  | Panic _ => false
  end.

(** How many of the keys the first pass finds in the cache. *)
Definition foundCount (X : Externals) (c : Cache X) (imageRef : string)
    (pubkeys : list string) : nat :=
  length (List.filter (cachedFound X c imageRef) pubkeys).

(** The live verifications among some calls: image and key, in order. *)
Definition verifyCalls (evs : list Event) : list (string * string) :=
  omap (fun e => match e with
                 | CallVerifyImage imageRef pubkey => Some (imageRef, pubkey)
                 | _ => None
                 end) evs.

(** The cache writes among some calls: key and tuple, in order. *)
Definition cacheWrites (evs : list Event) : list (string * list CacheValue) :=
  omap (fun e => match e with
                 | CallSetCache key values => Some (key, values)
                 | _ => None
                 end) evs.

(** The reasons of the keys that failed with an error, in key order. *)
Definition failureReasons (X : Externals) (imageRef : string) (pubkeys : list string)
  : list string :=
  omap (fun pubkey => snd (cosign_VerifyImage X imageRef pubkey)) pubkeys.

(** What live verification returns: the outcome of the first key that
    verifies, else the failure that joins the reasons. *)
Definition liveOutcome (X : Externals) (imageRef : string) (pubkeys : list string)
  : VerifyReturn :=
  match firstSuccess X imageRef pubkeys with
  | Some out => out
  | None => ImageSignatureVerifier.failed (failureReasons X imageRef pubkeys)
  end.

(** The calls of a [Verify] that reaches live verification. *)
Definition liveRun (X : Externals) (cacheOn : bool) (imageRef : string)
    (pubkeys : list string) : list Event :=
  ((if cacheOn then cacheReads imageRef pubkeys else [])
     ++ liveEvents X cacheOn imageRef pubkeys)%list.

(** The keys on which live verification reports [verified = false]. *)
Definition LiveFails (X : Externals) (imageRef pubkey : string) : Prop :=
  fst (fst (fst (cosign_VerifyImage X imageRef pubkey))) = false.

(** Live verification is reached: caching is off, or the cache has no
    verified entry for any key and lacks an entry for at least one. *)
Definition LiveReached (X : Externals) (v : ImageSignatureVerifier.t) (c : Cache X)
    (pubkeys : list string) : Prop :=
  ImageSignatureVerifier.onMemoryCacheEnabled v = false \/
  (Forall (Passed c (ImageSignatureVerifier.imageRef v)) pubkeys /\
   Exists (fun pubkey =>
             exists err, CacheNotFound X c (ImageSignatureVerifier.imageRef v) pubkey err)
     pubkeys).

(** The references of a fallback loop that were retrieved and did not match
    the target: the loop went past them, from machine to machine. *)
Inductive Unmatched {X : Externals} {S : Type}
    (fetchOne : string -> M X S (GoResult bytes)) (found : S -> bytes -> bool)
  : list string -> Machine X S -> Machine X S -> Prop :=
| Unmatched_nil m : Unmatched fetchOne found [] m m
| Unmatched_cons ref rest concatYAMLbytes m m1 m2 :
    fetchOne ref m = (Done (Ok concatYAMLbytes), m1) ->
    found (self m1) concatYAMLbytes = false ->
    Unmatched fetchOne found rest m1 m2 ->
    Unmatched fetchOne found (ref :: rest) m m2.

(** The image-reference string [Fetch] works with: the fetcher's own, or
    the object's annotation when the fetcher has none. *)
Definition resolvedImageRef (X : Externals) (f : ImageManifestFetcher.t)
    (objYAMLBytes : bytes) : string :=
  if ImageManifestFetcher.imageRefString f =? "" then
    GetAnnotationsInYAML X objYAMLBytes
      !!!! ImageRefAnnotationKey (ImageManifestFetcher.AnnotationConfig f)
  else ImageManifestFetcher.imageRefString f.

(** [maxResourceManifestNumPtr]: set when the configured number is positive. *)
Definition maxPtr (n : Z) : option Z := if (0 <? n)%Z then Some n else None.

(** Whether the Manifest Matcher finds the target among some manifests. *)
Definition imageFound (X : Externals) (objYAMLBytes : bytes) (f0 f : ImageManifestFetcher.t)
    (concatYAMLbytes : bytes) : bool :=
  fst (FindManifestYAML X concatYAMLbytes objYAMLBytes
         (maxPtr (ImageManifestFetcher.maxResourceManifestNum f0))
         (ImageManifestFetcher.ignoreFields f)).

Definition blobFound (X : Externals) (objYAMLBytes : bytes) (f0 f : BlobManifestFetcher.t)
    (concatYAMLbytes : bytes) : bool :=
  fst (FindManifestYAML X concatYAMLbytes objYAMLBytes
         (maxPtr (BlobManifestFetcher.maxResourceManifestNum f0))
         (BlobManifestFetcher.ignoreFields f)).

(** A field as it enters the signature bundle: an empty one is left out. *)
Definition fieldBytes (s : string) : option bytes :=
  if s =? "" then None else Some (bytes_of_string s).

(** The key path a verifier keeps: a nil or empty path is no path. *)
Definition keptKeyPath (pubkeyPath : option string) : option string :=
  match pubkeyPath with
  | Some p => if negb (p =? "") then pubkeyPath else None
  | None => None
  end.

(** Where a blob verifier takes its four fields from, and under which keys:
    the object's annotations when no resource reference is set, else the
    data of the referenced config map, retrieved on the way from [m] to [m']. *)
Inductive BlobSource {X : Externals} (m : Machine X BlobSignatureVerifier.t)
  : Machine X BlobSignatureVerifier.t -> gmap string string ->
    string -> string -> string -> string -> Prop :=
| FromAnnotations :
    BlobSignatureVerifier.resourceRef (self m) = "" ->
    BlobSource m m (BlobSignatureVerifier.annotations (self m))
      (MessageAnnotationKey (BlobSignatureVerifier.annotationConfig (self m)))
      (SignatureAnnotationKey (BlobSignatureVerifier.annotationConfig (self m)))
      (CertificateAnnotationKey (BlobSignatureVerifier.annotationConfig (self m)))
      (BundleAnnotationKey (BlobSignatureVerifier.annotationConfig (self m)))
| FromConfigMap cm m' :
    BlobSignatureVerifier.resourceRef (self m) <> "" ->
    GetConfigMapFromK8sObjectRef (BlobSignatureVerifier.resourceRef (self m)) m
      = (Done (Ok cm), m') ->
    BlobSource m m' (Data cm)
      (MessageAnnotationBaseName X) (SignatureAnnotationBaseName X)
      (CertificateAnnotationBaseName X) (BundleAnnotationBaseName X).

(** The call a scheme's dispatcher receives for a bundle, and its answer. *)
Inductive Dispatched (X : Externals) (key : option string)
    (msg sig cert bundle : option bytes) : SigType -> Event -> VerifyReturn -> Prop :=
| Dispatched_cosign :
    Dispatched X key msg sig cert bundle (SigTypeCosign X)
      (CallCosignVerifyBlob msg sig cert bundle key)
      (cosign_VerifyBlob X msg sig cert bundle key)
| Dispatched_pgp :
    Dispatched X key msg sig cert bundle (SigTypePGP X)
      (CallPgpVerifyBlob msg sig key) (pgp_VerifyBlob X msg sig key)
| Dispatched_x509 :
    Dispatched X key msg sig cert bundle (SigTypeX509 X)
      (CallX509VerifyBlob msg sig cert key) (x509_VerifyBlob X msg sig cert key).

(** A cache that keeps what it is given: a write is read back, and leaves
    the other keys as they were. *)
Definition LawfulCache (X : Externals) : Prop :=
  (forall c key values, GetCache X (fst (SetCache X c key values)) key = Ok values) /\
  (forall c key values key',
     key' <> key -> GetCache X (fst (SetCache X c key values)) key' = GetCache X c key').

(** The keys live verification gets to: all of them up to and including the
    first that verifies. *)
Fixpoint attempted (X : Externals) (imageRef : string) (pubkeys : list string)
  : list string :=
  match pubkeys with
  | [] => []
  | pubkey :: rest =>
      pubkey :: (if fst (fst (fst (cosign_VerifyImage X imageRef pubkey))) then []
                 else attempted X imageRef rest)
  end.

(** The dynamic types [getResultFromCache] asserts, slot by slot. *)
Definition wellTyped (r0 r1 r2 r3 : CacheValue) : bool :=
  match r0 with VNil | VBool _ => true | _ => false end &&
  match r1 with VNil | VString _ => true | _ => false end &&
  match r2 with VNil | VInt64Ptr _ => true | _ => false end &&
  match r3 with VNil | VError _ => true | _ => false end.

(** A computation all of whose calls are among the allowed ones. *)
Definition Emits {X : Externals} {S A : Type} (allowed : Event -> bool) (c : M X S A)
  : Prop :=
  forall m,
    exists evs,
      trace (snd (c m)) = (trace m ++ evs)%list /\
      Forall (fun e => allowed e = true) evs.

Definition isCacheCall (e : Event) : bool :=
  match e with CallGetCache _ | CallSetCache _ _ => true | _ => false end.

Definition isVerifyImageCall (e : Event) : bool :=
  match e with CallVerifyImage _ _ => true | _ => false end.

Definition isPullImageCall (e : Event) : bool :=
  match e with CallPullImage _ => true | _ => false end.

Definition isGetResourceCall (e : Event) : bool :=
  match e with CallGetResource _ _ _ _ => true | _ => false end.

Definition isVerifyBlobCall (e : Event) : bool :=
  match e with
  | CallCosignVerifyBlob _ _ _ _ _ | CallPgpVerifyBlob _ _ _ | CallX509VerifyBlob _ _ _ _ => true
  | _ => false
  end.

(** References retrieved one after the other, with what each one gave. *)
Inductive Retrieved {X : Externals} {S : Type}
    (fetchOne : string -> M X S (GoResult bytes))
  : list string -> Machine X S -> Machine X S -> list bytes -> Prop :=
| Retrieved_nil m : Retrieved fetchOne [] m m []
| Retrieved_cons ref rest concatYAMLbytes contents m m1 m2 :
    fetchOne ref m = (Done (Ok concatYAMLbytes), m1) ->
    Retrieved fetchOne rest m1 m2 contents ->
    Retrieved fetchOne (ref :: rest) m m2 (concatYAMLbytes :: contents).

(** ** A small concrete world

    Collaborators for worked examples: a map for the cache, a registry of
    two images, a cluster with one config map, and a cosign dispatcher that
    accepts one key. *)
Module Demo.

(** Modelled from the spec: [SplitCommaSeparatedString] is declared outside
    [verify.go]; the key list and the reference list are "derived by
    splitting a comma-separated configuration string". *)
Fixpoint splitComma (s acc : string) : list string :=
  match s with
  | EmptyString => [acc]
  | String c rest =>
      if Ascii.eqb c ","%char then acc :: splitComma rest ""
      else splitComma rest (acc +:+ String c EmptyString)
  end.

Definition bytes_eqb (a b : bytes) : bool :=
  string_of_list_byte a =? string_of_list_byte b.

Definition cfg : AnnotationConfig := {|
  ImageRefAnnotationKey := "cosign.sigstore.dev/imageRef";
  MessageAnnotationKey := "cosign.sigstore.dev/message";
  SignatureAnnotationKey := "cosign.sigstore.dev/signature";
  CertificateAnnotationKey := "cosign.sigstore.dev/certificate";
  BundleAnnotationKey := "cosign.sigstore.dev/bundle"
|}.

(** Three target objects: one without annotations, one that names an
    image, one that carries an empty message next to a signature. *)
Definition objPlain : bytes := bytes_of_string "kind: Deployment".
Definition objWithImageRef : bytes :=
  bytes_of_string "kind: Deployment # imageRef: repo/app:v1".
Definition objEmptyMessage : bytes :=
  bytes_of_string "kind: Deployment # message: , signature: c2ln".

Definition annotationsOf (objYAMLBytes : bytes) : gmap string string :=
  if bytes_eqb objYAMLBytes objWithImageRef then
    {[ "cosign.sigstore.dev/imageRef" := "repo/app:v1" ]}
  else if bytes_eqb objYAMLBytes objEmptyMessage then
    {[ "cosign.sigstore.dev/message" := ""; "cosign.sigstore.dev/signature" := "c2ln" ]}
  else ∅.

Definition sigCM : ConfigMap :=
  {| GetName := "sig-cm"; Data := {[ "message" := ""; "signature" := "c2ln" ]} |}.

Definition parseRef (objRef : string) : GoResult (string * string * string) :=
  if objRef =? "k8s://ConfigMap/ns1/sig-cm" then Ok ("ConfigMap", "ns1", "sig-cm")
  else if objRef =? "k8s://ConfigMap/ns1/other-cm" then Ok ("ConfigMap", "ns1", "other-cm")
  else Err "object in cluster must be in k8s://[KIND]/[NAMESPACE]/[NAME] format".

(** Modelled from the spec: the Result Cache "stores and returns tuples
    verbatim"; [Get] of an absent key is a miss.  The newest entry for a key
    is the one in front. *)
Definition cacheOf : Type := list (string * list CacheValue).

Fixpoint getCache (c : cacheOf) (key : string) : GoResult (list CacheValue) :=
  match c with
  | [] => Err "not found"
  | (k, values) :: rest => if k =? key then Ok values else getCache rest key
  end.

Definition setCache (c : cacheOf) (key : string) (values : list CacheValue)
  : cacheOf * option error :=
  ((key, values) :: c, None).

Definition verifyImage (imageRef pubkey : string) : VerifyReturn :=
  if pubkey =? "k2" then (true, "signer@example.com", Some 1700000000%Z, None)
  else (false, "", None, Some ("no matching signatures: " +:+ pubkey)).

Definition X : Externals := {|
  MessageAnnotationBaseName := "message";
  SignatureAnnotationBaseName := "signature";
  CertificateAnnotationBaseName := "certificate";
  BundleAnnotationBaseName := "bundle";
  parseObjectInCluster := parseRef;
  SigTypeUnknown := "";
  SigTypeCosign := "cosign";
  SigTypePGP := "pgp";
  SigTypeX509 := "x509";
  GetSignatureTypeFromPublicKey := fun _ => "cosign";
  GetAnnotationsInYAML := annotationsOf;
  SplitCommaSeparatedString := fun s => splitComma s "";
  Cache := cacheOf;
  GetCache := getCache;
  SetCache := setCache;
  Image := string;
  PullImage := fun imageRef =>
    if imageRef =? "bad/img:v1" then Err "pull failed" else Ok imageRef;
  GenerateConcatYAMLsFromImage := fun image => Ok (bytes_of_string image);
  SplitConcatYAMLs := fun b => [b];
  FindManifestYAML := fun concatYAMLbytes _ _ _ =>
    if bytes_eqb concatYAMLbytes (bytes_of_string "good/img:v1")
    then (true, Some [concatYAMLbytes]) else (false, None);
  GzipDecompress := fun b => b;
  GetYAMLsInArtifact := fun b => Ok [b];
  ConcatenateYAMLs := fun l => List.concat l;
  base64_DecodeString := fun s =>
    if s =? "!" then Err "illegal base64 data at input byte 0" else Ok (bytes_of_string s);
  Unstructured := ConfigMap;
  json_Marshal := fun u => Ok (bytes_of_string (GetName u));
  json_Unmarshal_ConfigMap := fun b =>
    if bytes_eqb b (bytes_of_string "sig-cm") then Ok sigCM
    else Ok {| GetName := string_of_list_byte b; Data := ∅ |};
  GetResource := fun _ kind ns name =>
    if name =? "sig-cm" then Ok sigCM else Err "configmaps not found";
  cosign_VerifyImage := verifyImage;
  cosign_VerifyBlob := fun _ _ _ _ _ => (false, "", None, Some "invalid signature");
  pgp_VerifyBlob := fun _ _ _ => (false, "", None, Some "invalid signature");
  x509_VerifyBlob := fun _ _ _ _ => (false, "", None, Some "invalid signature")
|}.

Definition imageVerifier (keys : string) : ImageSignatureVerifier.t :=
  ImageSignatureVerifier.mk "repo/app:v1" (Some keys) true cfg.

Definition machine {S : Type} (s : S) (c : cacheOf) (tr : list Event) : Machine X S :=
  @mkMachine X S s c tr.

Definition start {S : Type} (s : S) (c : cacheOf) : Machine X S := machine s c [].

End Demo.

(** ** A second world, whose key paths have types

    As the first, but the signature type is read off the key path. *)
Module DemoSchemes.

Definition classify (pubkeyPath : option string) : SigType :=
  match pubkeyPath with
  | None => "cosign"
  | Some p =>
      if p =? "key.pgp" then "pgp"
      else if p =? "key.crt" then "x509"
      else if p =? "key.pub" then "cosign"
      else "unknown"
  end.

Definition X : Externals := {|
  MessageAnnotationBaseName := MessageAnnotationBaseName Demo.X;
  SignatureAnnotationBaseName := SignatureAnnotationBaseName Demo.X;
  CertificateAnnotationBaseName := CertificateAnnotationBaseName Demo.X;
  BundleAnnotationBaseName := BundleAnnotationBaseName Demo.X;
  parseObjectInCluster := parseObjectInCluster Demo.X;
  SigTypeUnknown := "unknown";
  SigTypeCosign := SigTypeCosign Demo.X;
  SigTypePGP := SigTypePGP Demo.X;
  SigTypeX509 := SigTypeX509 Demo.X;
  GetSignatureTypeFromPublicKey := classify;
  GetAnnotationsInYAML := GetAnnotationsInYAML Demo.X;
  SplitCommaSeparatedString := SplitCommaSeparatedString Demo.X;
  Cache := Cache Demo.X;
  GetCache := GetCache Demo.X;
  SetCache := SetCache Demo.X;
  Image := Image Demo.X;
  PullImage := PullImage Demo.X;
  GenerateConcatYAMLsFromImage := GenerateConcatYAMLsFromImage Demo.X;
  SplitConcatYAMLs := SplitConcatYAMLs Demo.X;
  FindManifestYAML := FindManifestYAML Demo.X;
  GzipDecompress := GzipDecompress Demo.X;
  GetYAMLsInArtifact := GetYAMLsInArtifact Demo.X;
  ConcatenateYAMLs := ConcatenateYAMLs Demo.X;
  base64_DecodeString := base64_DecodeString Demo.X;
  Unstructured := Unstructured Demo.X;
  json_Marshal := json_Marshal Demo.X;
  json_Unmarshal_ConfigMap := json_Unmarshal_ConfigMap Demo.X;
  GetResource := GetResource Demo.X;
  cosign_VerifyImage := cosign_VerifyImage Demo.X;
  cosign_VerifyBlob := cosign_VerifyBlob Demo.X;
  pgp_VerifyBlob := pgp_VerifyBlob Demo.X;
  x509_VerifyBlob := x509_VerifyBlob Demo.X
|}.

Definition start {S : Type} (s : S) (c : Demo.cacheOf) : Machine X S :=
  @mkMachine X S s c [].

End DemoSchemes.

(** * Properties *)

(** ** The monad and the loop combinator *)

Create HintDb go_methods.
#[global] Hint Unfold
  ImageSignatureVerifier.Verify ImageSignatureVerifier.getResultFromCache
  ImageSignatureVerifier.setResultToCache ImageSignatureVerifier.cacheLoopBody
  ImageSignatureVerifier.liveLoopBody
  BlobSignatureVerifier.Verify BlobSignatureVerifier.getSignatures
  ImageManifestFetcher.Fetch ImageManifestFetcher.FetchAll
  ImageManifestFetcher.fetchLoopBody ImageManifestFetcher.fetchManifestInSingleImage
  ImageManifestFetcher.getManifestFromCache ImageManifestFetcher.setManifestToCache
  ImageManifestFetcher.getConcatYAMLFromImageRef
  BlobManifestFetcher.Fetch BlobManifestFetcher.fetchManifestFromResource
  BlobManifestFetcher.fetchLoopBody BlobManifestFetcher.fetchManifestInSingleConfigMap
  GetConfigMapFromK8sObjectRef : go_methods.

Section MonadFacts.
Context {X : Externals} {S : Type}.

Lemma bind_Done {A B} (c : M X S A) (k : A -> M X S B) m a m' :
  c m = (Done a, m') -> bind c k m = k a m'.
Proof. intros H. unfold bind. now rewrite H. Qed.

Lemma bind_Panic {A B} (c : M X S A) (k : A -> M X S B) m msg m' :
  c m = (Panic msg, m') -> bind c k m = (Panic msg, m').
Proof. intros H. unfold bind. now rewrite H. Qed.

Lemma forRange_continue {A L R} (body : A -> L -> M X S (L + R)) x rest l l' m m' :
  body x l m = (Done (inl l'), m') ->
  forRange (x :: rest) body l m = forRange rest body l' m'.
Proof. intros H. simpl. now rewrite (bind_Done _ _ _ _ _ H). Qed.

Lemma forRange_return {A L R} (body : A -> L -> M X S (L + R)) x rest l v m m' :
  body x l m = (Done (inr v), m') ->
  forRange (x :: rest) body l m = (Done (inr v), m').
Proof. intros H. simpl. now rewrite (bind_Done _ _ _ _ _ H). Qed.

Lemma replay_app evs1 evs2 (c : Cache X) :
  replay X (evs1 ++ evs2) c = replay X evs2 (replay X evs1 c).
Proof.
  revert c. induction evs1 as [|e evs1 IH]; intros c; [reflexivity|].
  destruct e; simpl; apply IH.
Qed.

Lemma Frame_ret {A} (a : A) : Frame (ret a : M X S A).
Proof. intros m. split; [reflexivity|]. exists []. now rewrite app_nil_r. Qed.

Lemma Frame_lift {A} (r : Result A) : Frame (lift r : M X S A).
Proof. intros m. split; [reflexivity|]. exists []. now rewrite app_nil_r. Qed.

Lemma Frame_getSelf : Frame (getSelf : M X S S).
Proof. intros m. split; [reflexivity|]. exists []. now rewrite app_nil_r. Qed.

Lemma Frame_emit e :
  match e with CallSetCache _ _ => False | _ => True end ->
  Frame (emit e : M X S unit).
Proof.
  intros He m. split; [reflexivity|]. exists [e].
  split; [reflexivity|]. now destruct e.
Qed.

Lemma Frame_callGetCache key : Frame (callGetCache key : M X S _).
Proof. intros m. split; [reflexivity|]. now exists [CallGetCache key]. Qed.

Lemma Frame_callSetCache key values : Frame (callSetCache key values : M X S _).
Proof.
  intros m. unfold callSetCache.
  destruct (SetCache X (cache m) key values) as [c' setErr] eqn:E.
  split; [reflexivity|]. exists [CallSetCache key values]. simpl. now rewrite E.
Qed.

Lemma Frame_bind {A B} (c : M X S A) (k : A -> M X S B) :
  Frame c -> (forall a, Frame (k a)) -> Frame (bind c k).
Proof.
  intros Hc Hk m. unfold bind.
  destruct (Hc m) as (Hs & evs & Ht & Hca).
  destruct (c m) as [[a|msg] m1]; simpl in *.
  - destruct (Hk a m1) as (Hs' & evs' & Ht' & Hca').
    split; [congruence|]. exists (evs ++ evs')%list.
    rewrite Ht', Ht, Hca', Hca, replay_app, app_assoc. auto.
  - split; [assumption|]. exists evs. auto.
Qed.

Lemma Frame_forRange {A L R} (body : A -> L -> M X S (L + R)) xs l :
  (forall x l, Frame (body x l)) -> Frame (forRange xs body l).
Proof.
  intros Hb. revert l. induction xs as [|x xs IH]; intros l; simpl.
  - apply Frame_ret.
  - apply Frame_bind; [apply Hb|]. intros [l'|v]; [apply IH|apply Frame_ret].
Qed.
End MonadFacts.

(** One step of a framing proof: peel a bind, a loop, a primitive or a case
    distinction off the computation. *)
Ltac frame_step :=
  match goal with
  | |- Frame (ret _) => apply Frame_ret
  | |- Frame (lift _) => apply Frame_lift
  | |- Frame getSelf => apply Frame_getSelf
  | |- Frame (emit _) => apply Frame_emit; exact I
  | |- Frame (callGetCache _) => apply Frame_callGetCache
  | |- Frame (callSetCache _ _) => apply Frame_callSetCache
  | |- Frame (bind _ _) => apply Frame_bind; [|intros ?]
  | |- Frame (forRange _ _ _) => apply Frame_forRange; intros ? ?
  | |- Frame (match ?x with _ => _ end) => destruct x
  | |- Frame _ => progress autounfold with go_methods
  end.

Ltac frame := repeat frame_step.

(** ** The receiver is never written (C9) *)

Lemma Frame_ImageSignatureVerifier_Verify X :
  Frame (ImageSignatureVerifier.Verify (X := X)).
Proof. frame. Qed.

Lemma Frame_BlobSignatureVerifier_Verify X :
  Frame (BlobSignatureVerifier.Verify (X := X)).
Proof. frame. Qed.

Lemma Frame_ImageManifestFetcher_Fetch X objYAMLBytes :
  Frame (ImageManifestFetcher.Fetch (X := X) objYAMLBytes).
Proof. frame. Qed.

Lemma Frame_BlobManifestFetcher_Fetch X objYAMLBytes :
  Frame (BlobManifestFetcher.Fetch (X := X) objYAMLBytes).
Proof. frame. Qed.

(** C9: every call to [Verify] or [Fetch], on either variant, leaves the
    fields of the verifier or fetcher as they were; what a call does change
    is the trace, which only grows, and the cache, which changes by the
    [SetCache] calls of the call and by nothing else. *)
Theorem C9_instances_are_read_only (X : Externals) :
  Frame (ImageSignatureVerifier.Verify (X := X)) /\
  Frame (BlobSignatureVerifier.Verify (X := X)) /\
  (forall objYAMLBytes, Frame (ImageManifestFetcher.Fetch (X := X) objYAMLBytes)) /\
  (forall objYAMLBytes, Frame (BlobManifestFetcher.Fetch (X := X) objYAMLBytes)).
Proof.
  split; [apply Frame_ImageSignatureVerifier_Verify|].
  split; [apply Frame_BlobSignatureVerifier_Verify|].
  split; intros objYAMLBytes.
  - apply Frame_ImageManifestFetcher_Fetch.
  - apply Frame_BlobManifestFetcher_Fetch.
Qed.

(** ** The factories (C1, C8) *)

Lemma HasPrefix_sentinel :
  strings_HasPrefix SigRefEmbeddedInAnnotation InClusterObjectPrefix = false.
Proof. reflexivity. Qed.

Lemma NewSignatureVerifier_resource X objYAMLBytes sigRef pubkeyPath annotationConfig :
  strings_HasPrefix sigRef InClusterObjectPrefix = true ->
  NewSignatureVerifier X objYAMLBytes sigRef pubkeyPath annotationConfig =
    let annotations := GetAnnotationsInYAML X objYAMLBytes in
    let imageRef := annotations !!!! ImageRefAnnotationKey annotationConfig in
    if negb (imageRef =? "") && negb (imageRef =? SigRefEmbeddedInAnnotation) then
      ImageVerifier
        (ImageSignatureVerifier.mk imageRef (keptKeyPath pubkeyPath) true annotationConfig)
    else
      BlobVerifier
        (BlobSignatureVerifier.mk annotations sigRef (keptKeyPath pubkeyPath) annotationConfig).
Proof.
  intros Hp. unfold NewSignatureVerifier, lookup_or_zero. rewrite Hp. simpl.
  destruct (GetAnnotationsInYAML X objYAMLBytes !! ImageRefAnnotationKey annotationConfig);
    reflexivity.
Qed.

(** C1, as the code has it: for every target object and every explicit
    reference that begins with the in-cluster resource prefix,
    [NewSignatureVerifier] returns a blob-path verifier bound to that
    resource reference when the object has no image-reference annotation, or
    one that is empty or the embedded sentinel; when the annotation holds any
    other value it returns an image-path verifier bound to the annotation's
    value.  [NewManifestFetcher], given no image reference and that resource
    reference, returns a blob-path fetcher bound to it; it does not look at
    the object. *)
Theorem C1_resource_reference_resolution (X : Externals) (objYAMLBytes : bytes)
    (sigRef : string) (pubkeyPath : option string) (annotationConfig : AnnotationConfig) :
  strings_HasPrefix sigRef InClusterObjectPrefix = true ->
  let annotations := GetAnnotationsInYAML X objYAMLBytes in
  let annotated := annotations !! ImageRefAnnotationKey annotationConfig in
  (annotated = None \/ annotated = Some "" \/ annotated = Some SigRefEmbeddedInAnnotation ->
   NewSignatureVerifier X objYAMLBytes sigRef pubkeyPath annotationConfig =
     BlobVerifier
       (BlobSignatureVerifier.mk annotations sigRef (keptKeyPath pubkeyPath) annotationConfig)) /\
  (forall annoImageRef,
     annotated = Some annoImageRef ->
     annoImageRef <> "" -> annoImageRef <> SigRefEmbeddedInAnnotation ->
     NewSignatureVerifier X objYAMLBytes sigRef pubkeyPath annotationConfig =
       ImageVerifier
         (ImageSignatureVerifier.mk annoImageRef (keptKeyPath pubkeyPath) true
            annotationConfig)) /\
  (forall ignoreFields maxResourceManifestNum,
     NewManifestFetcher "" sigRef annotationConfig ignoreFields maxResourceManifestNum =
       BlobFetcher
         (BlobManifestFetcher.mk annotationConfig sigRef ignoreFields maxResourceManifestNum)).
Proof.
  intros Hp annotations annotated.
  pose proof (NewSignatureVerifier_resource X objYAMLBytes sigRef pubkeyPath
                annotationConfig Hp) as E.
  cbv zeta in E. unfold lookup_or_zero in E.
  fold annotations in E. fold annotated in E.
  split; [|split].
  - intros [H | [H | H]]; rewrite E, H; reflexivity.
  - intros a Ha Hne Hns. rewrite E, Ha. simpl.
    apply String.eqb_neq in Hne, Hns. now rewrite Hne, Hns.
  - reflexivity.
Qed.

Lemma C1_resource_reference_resolution_witness :
  strings_HasPrefix "k8s://ConfigMap/ns1/sig-cm" InClusterObjectPrefix = true /\
  NewSignatureVerifier Demo.X Demo.objPlain "k8s://ConfigMap/ns1/sig-cm" None Demo.cfg =
    BlobVerifier (BlobSignatureVerifier.mk ∅ "k8s://ConfigMap/ns1/sig-cm" None Demo.cfg).
Proof.
  split; [reflexivity|].
  apply (C1_resource_reference_resolution Demo.X Demo.objPlain
           "k8s://ConfigMap/ns1/sig-cm" None Demo.cfg); [reflexivity|].
  left. reflexivity.
Defined.

(** C1 as first stated fails: an explicit in-cluster resource reference does
    not keep an annotated object on the blob path. *)
Lemma C1_counterexample :
  strings_HasPrefix "k8s://ConfigMap/ns1/sig-cm" InClusterObjectPrefix = true /\
  GetAnnotationsInYAML Demo.X Demo.objWithImageRef !! ImageRefAnnotationKey Demo.cfg =
    Some "repo/app:v1" /\
  NewSignatureVerifier Demo.X Demo.objWithImageRef "k8s://ConfigMap/ns1/sig-cm" None Demo.cfg =
    ImageVerifier (ImageSignatureVerifier.mk "repo/app:v1" None true Demo.cfg) /\
  (forall b,
     NewSignatureVerifier Demo.X Demo.objWithImageRef "k8s://ConfigMap/ns1/sig-cm" None Demo.cfg
       <> BlobVerifier b).
Proof.
  assert (E : NewSignatureVerifier Demo.X Demo.objWithImageRef "k8s://ConfigMap/ns1/sig-cm"
                None Demo.cfg =
              ImageVerifier (ImageSignatureVerifier.mk "repo/app:v1" None true Demo.cfg))
    by (vm_compute; reflexivity).
  repeat split; try (vm_compute; reflexivity).
  intros b. rewrite E. discriminate.
Qed.

(** ** BlobManifestFetcher.Fetch without a signature (C7) *)

(** C7: for every target object whose annotations lack the message
    annotation, [Fetch] on a blob fetcher with no resource reference returns
    [(nil, "", nil)] and touches nothing. *)
Theorem C7_no_annotation_no_error (X : Externals) (objYAMLBytes : bytes)
    (m : Machine X BlobManifestFetcher.t) :
  BlobManifestFetcher.resourceRefString (self m) = "" ->
  GetAnnotationsInYAML X objYAMLBytes
    !! MessageAnnotationKey (BlobManifestFetcher.AnnotationConfig (self m)) = None ->
  BlobManifestFetcher.Fetch objYAMLBytes m = (Done (None, "", None), m).
Proof.
  intros Href Hanno.
  unfold BlobManifestFetcher.Fetch, bind, getSelf, ret.
  rewrite Href, Hanno. reflexivity.
Qed.

Lemma C7_no_annotation_no_error_witness :
  BlobManifestFetcher.Fetch Demo.objPlain
    (Demo.start (BlobManifestFetcher.mk Demo.cfg "" [] 0) []) =
  (Done (None, "", None), Demo.start (BlobManifestFetcher.mk Demo.cfg "" [] 0) []).
Proof.
  apply (C7_no_annotation_no_error Demo.X Demo.objPlain
           (Demo.start (BlobManifestFetcher.mk Demo.cfg "" [] 0) [])); reflexivity.
Defined.

(** ** BlobSignatureVerifier: empty fields (C10) *)

Section Bundle.
Context (X : Externals).
Hypothesis names_distinct :
  NoDup [MessageAnnotationBaseName X; SignatureAnnotationBaseName X;
         CertificateAnnotationBaseName X; BundleAnnotationBaseName X].

Lemma names_pairwise_distinct :
  MessageAnnotationBaseName X <> SignatureAnnotationBaseName X /\
  MessageAnnotationBaseName X <> CertificateAnnotationBaseName X /\
  MessageAnnotationBaseName X <> BundleAnnotationBaseName X /\
  SignatureAnnotationBaseName X <> CertificateAnnotationBaseName X /\
  SignatureAnnotationBaseName X <> BundleAnnotationBaseName X /\
  CertificateAnnotationBaseName X <> BundleAnnotationBaseName X.
Proof.
  apply NoDup_cons in names_distinct as [N1 D1].
  apply NoDup_cons in D1 as [N2 D2].
  apply NoDup_cons in D2 as [N3 _].
  repeat split; intros E; rewrite E in *; set_solver.
Qed.

Lemma assemble_lookup msg sig cert bundle :
  let sigMap := BlobSignatureVerifier.assemble (X := X) msg sig cert bundle in
  sigMap !! MessageAnnotationBaseName X = fieldBytes msg /\
  sigMap !! SignatureAnnotationBaseName X = fieldBytes sig /\
  sigMap !! CertificateAnnotationBaseName X = fieldBytes cert /\
  sigMap !! BundleAnnotationBaseName X = fieldBytes bundle.
Proof.
  destruct names_pairwise_distinct as (N12 & N13 & N14 & N23 & N24 & N34).
  unfold BlobSignatureVerifier.assemble, fieldBytes. cbv zeta.
  destruct (msg =? ""), (sig =? ""), (cert =? ""), (bundle =? ""); simpl;
    repeat split;
    repeat first
      [ rewrite lookup_insert_eq
      | rewrite lookup_insert_ne by congruence
      | rewrite lookup_empty ];
    reflexivity.
Qed.
End Bundle.

Lemma getSignatures_present X (m m' : Machine X BlobSignatureVerifier.t)
    src kmsg ksig kcert kbundle msg sig :
  BlobSource m m' src kmsg ksig kcert kbundle ->
  src !! kmsg = Some msg ->
  src !! ksig = Some sig ->
  BlobSignatureVerifier.getSignatures m =
    (Done (Ok (BlobSignatureVerifier.assemble (X := X) msg sig
                 (src !!!! kcert) (src !!!! kbundle))), m').
Proof.
  intros Hsrc Hmsg Hsig.
  unfold BlobSignatureVerifier.getSignatures, bind, getSelf.
  destruct Hsrc as [Href | cm m' Href Hcm].
  - rewrite Href, Hmsg, Hsig. reflexivity.
  - apply String.eqb_neq in Href. rewrite Href. simpl.
    rewrite Hcm, Hmsg, Hsig. reflexivity.
Qed.

Lemma BlobSource_self X (m m' : Machine X BlobSignatureVerifier.t)
    src kmsg ksig kcert kbundle :
  BlobSource m m' src kmsg ksig kcert kbundle -> self m' = self m.
Proof.
  intros [Href | cm m'' Href Hcm]; [reflexivity|].
  assert (F : Frame (GetConfigMapFromK8sObjectRef (X := X) (S := BlobSignatureVerifier.t)
                       (BlobSignatureVerifier.resourceRef (self m)))) by frame.
  destruct (F m) as [Hs _]. now rewrite Hcm in Hs.
Qed.

Lemma Verify_dispatches X (m m' : Machine X BlobSignatureVerifier.t) sigMap :
  BlobSignatureVerifier.getSignatures m = (Done (Ok sigMap), m') ->
  self m' = self m ->
  let key := BlobSignatureVerifier.pubkeyPathString (self m) in
  let sigType := GetSignatureTypeFromPublicKey X key in
  sigType <> SigTypeUnknown X ->
  sigType = SigTypeCosign X \/ sigType = SigTypePGP X \/ sigType = SigTypeX509 X ->
  exists ev out,
    Dispatched X key
      (sigMap !! MessageAnnotationBaseName X) (sigMap !! SignatureAnnotationBaseName X)
      (sigMap !! CertificateAnnotationBaseName X) (sigMap !! BundleAnnotationBaseName X)
      sigType ev out /\
    BlobSignatureVerifier.Verify m =
      (Done out, mkMachine (self m') (cache m') (trace m' ++ [ev])).
Proof.
  intros Hget Hself key sigType Hknown Hscheme.
  unfold BlobSignatureVerifier.Verify.
  rewrite (bind_Done _ _ _ _ _ Hget).
  unfold bind, getSelf, emit, ret. rewrite Hself.
  fold key. fold sigType.
  apply String.eqb_neq in Hknown. rewrite Hknown.
  destruct (sigType =? SigTypeCosign X) eqn:Ec.
  { apply String.eqb_eq in Ec. rewrite Ec. eexists _, _. split; [constructor|now rewrite ?Hself]. }
  destruct (sigType =? SigTypePGP X) eqn:Ep.
  { apply String.eqb_eq in Ep. rewrite Ep. eexists _, _. split; [constructor|now rewrite ?Hself]. }
  destruct (sigType =? SigTypeX509 X) eqn:Ex.
  { apply String.eqb_eq in Ex. rewrite Ex. eexists _, _. split; [constructor|now rewrite ?Hself]. }
  apply String.eqb_neq in Ec, Ep, Ex. tauto.
Qed.

(** C10: in a blob verifier whose four field names are distinct, when the
    message and the signature entries are both present in the source (the
    annotations, or the data of the referenced config map), [getSignatures]
    raises no error, whatever their values; an entry equal to the empty
    string is absent from the assembled map; and for a known scheme [Verify]
    hands the map's entries to that scheme's dispatcher and returns its
    answer, so the dispatcher receives nil bytes for an empty field. *)
Theorem C10_empty_field_passes_and_is_dropped (X : Externals)
    (m m' : Machine X BlobSignatureVerifier.t)
    (src : gmap string string) (kmsg ksig kcert kbundle msg sig : string) :
  NoDup [MessageAnnotationBaseName X; SignatureAnnotationBaseName X;
         CertificateAnnotationBaseName X; BundleAnnotationBaseName X] ->
  BlobSource m m' src kmsg ksig kcert kbundle ->
  src !! kmsg = Some msg ->
  src !! ksig = Some sig ->
  exists sigMap,
    BlobSignatureVerifier.getSignatures m = (Done (Ok sigMap), m') /\
    (msg = "" -> sigMap !! MessageAnnotationBaseName X = None) /\
    (sig = "" -> sigMap !! SignatureAnnotationBaseName X = None) /\
    (msg <> "" -> sigMap !! MessageAnnotationBaseName X = Some (bytes_of_string msg)) /\
    (sig <> "" -> sigMap !! SignatureAnnotationBaseName X = Some (bytes_of_string sig)) /\
    let key := BlobSignatureVerifier.pubkeyPathString (self m) in
    let sigType := GetSignatureTypeFromPublicKey X key in
    (sigType <> SigTypeUnknown X ->
     sigType = SigTypeCosign X \/ sigType = SigTypePGP X \/ sigType = SigTypeX509 X ->
     exists ev out,
       Dispatched X key
         (sigMap !! MessageAnnotationBaseName X) (sigMap !! SignatureAnnotationBaseName X)
         (sigMap !! CertificateAnnotationBaseName X) (sigMap !! BundleAnnotationBaseName X)
         sigType ev out /\
       BlobSignatureVerifier.Verify m =
         (Done out, mkMachine (self m') (cache m') (trace m' ++ [ev]))).
Proof.
  intros Hnames Hsrc Hmsg Hsig.
  pose proof (getSignatures_present X m m' _ _ _ _ _ _ _ Hsrc Hmsg Hsig) as Hget.
  destruct (assemble_lookup X Hnames msg sig (src !!!! kcert) (src !!!! kbundle))
    as (Lm & Ls & _ & _).
  eexists. split; [exact Hget|].
  split; [intros ->; rewrite Lm; reflexivity|].
  split; [intros ->; rewrite Ls; reflexivity|].
  split.
  { intros Hne. rewrite Lm. unfold fieldBytes.
    apply String.eqb_neq in Hne. now rewrite Hne. }
  split.
  { intros Hne. rewrite Ls. unfold fieldBytes.
    apply String.eqb_neq in Hne. now rewrite Hne. }
  intros key sigType. apply (Verify_dispatches X m m' _ Hget).
  eapply BlobSource_self; eassumption.
Qed.

Lemma C10_empty_field_passes_and_is_dropped_witness :
  let v := BlobSignatureVerifier.mk (Demo.annotationsOf Demo.objEmptyMessage) "" None
             Demo.cfg in
  let w := BlobSignatureVerifier.mk ∅ "k8s://ConfigMap/ns1/sig-cm" None Demo.cfg in
  (exists sigMap,
     BlobSignatureVerifier.getSignatures (Demo.start v []) = (Done (Ok sigMap), Demo.start v []) /\
     sigMap !! "message" = None) /\
  (exists sigMap m',
     BlobSignatureVerifier.getSignatures (Demo.start w []) = (Done (Ok sigMap), m') /\
     sigMap !! "message" = None).
Proof.
  intros v w. split.
  - destruct (C10_empty_field_passes_and_is_dropped Demo.X
                (Demo.start v []) (Demo.start v []) (Demo.annotationsOf Demo.objEmptyMessage)
                "cosign.sigstore.dev/message" "cosign.sigstore.dev/signature"
                "cosign.sigstore.dev/certificate" "cosign.sigstore.dev/bundle" "" "c2ln")
      as (sigMap & Hget & Hmsg & _).
    + compute_done.
    + exact (FromAnnotations (X := Demo.X) (Demo.start v []) eq_refl).
    + vm_compute. reflexivity.
    + vm_compute. reflexivity.
    + exists sigMap. split; [exact Hget|]. apply Hmsg. reflexivity.
  - destruct (C10_empty_field_passes_and_is_dropped Demo.X
                (Demo.start w [])
                (Demo.machine w [] [CallGetResource "" "ConfigMap" "ns1" "sig-cm"])
                (Data Demo.sigCM) "message" "signature" "certificate" "bundle" "" "c2ln")
      as (sigMap & Hget & Hmsg & _).
    + compute_done.
    + apply (FromConfigMap (X := Demo.X) (Demo.start w []) Demo.sigCM).
      * discriminate.
      * reflexivity.
    + vm_compute. reflexivity.
    + vm_compute. reflexivity.
    + exists sigMap, (Demo.machine w [] [CallGetResource "" "ConfigMap" "ns1" "sig-cm"]).
      split; [exact Hget|]. apply Hmsg. reflexivity.
Defined.

(** ** The embedded sentinel (C8) *)

(** C8: for every target object, an explicit reference equal to the embedded
    sentinel gives a blob-path verifier whose resource reference is empty and
    whose annotations are the object's own.  Reading the signature material
    from that verifier calls no collaborator, and what is read is what the
    object's annotations hold: without a message annotation, or with a
    message and without a signature annotation, the read fails and names the
    missing annotation key; with both, the bundle is assembled from the
    object's message, signature, certificate and bundle annotations, so that
    (the four field names being distinct) each field of the bundle is the
    bytes of the annotation of that name, and is absent when that annotation
    is empty or missing. *)
Theorem C8_embedded_sentinel_gives_blob_verifier (X : Externals) (objYAMLBytes : bytes)
    (pubkeyPath : option string) (annotationConfig : AnnotationConfig) :
  let annotations := GetAnnotationsInYAML X objYAMLBytes in
  let v := BlobSignatureVerifier.mk annotations "" (keptKeyPath pubkeyPath)
             annotationConfig in
  let kmsg := MessageAnnotationKey annotationConfig in
  let ksig := SignatureAnnotationKey annotationConfig in
  let kcert := CertificateAnnotationKey annotationConfig in
  let kbundle := BundleAnnotationKey annotationConfig in
  NewSignatureVerifier X objYAMLBytes SigRefEmbeddedInAnnotation pubkeyPath annotationConfig =
    BlobVerifier v /\
  forall c tr,
    let m := mkMachine v c tr in
    snd (BlobSignatureVerifier.getSignatures (X := X) m) = m /\
    (annotations !! kmsg = None ->
     fst (BlobSignatureVerifier.getSignatures (X := X) m) =
       Done (Err ("`" +:+ kmsg +:+ "` is not found in the annotations"))) /\
    (forall msg,
       annotations !! kmsg = Some msg -> annotations !! ksig = None ->
       fst (BlobSignatureVerifier.getSignatures (X := X) m) =
         Done (Err ("`" +:+ ksig +:+ "` is not found in the annotations"))) /\
    (forall msg sig,
       annotations !! kmsg = Some msg -> annotations !! ksig = Some sig ->
       exists sigMap,
         fst (BlobSignatureVerifier.getSignatures (X := X) m) = Done (Ok sigMap) /\
         sigMap = BlobSignatureVerifier.assemble (X := X) msg sig
                    (annotations !!!! kcert) (annotations !!!! kbundle) /\
         (NoDup [MessageAnnotationBaseName X; SignatureAnnotationBaseName X;
                 CertificateAnnotationBaseName X; BundleAnnotationBaseName X] ->
          sigMap !! MessageAnnotationBaseName X = fieldBytes msg /\
          sigMap !! SignatureAnnotationBaseName X = fieldBytes sig /\
          sigMap !! CertificateAnnotationBaseName X = fieldBytes (annotations !!!! kcert) /\
          sigMap !! BundleAnnotationBaseName X = fieldBytes (annotations !!!! kbundle))).
Proof.
  intros annotations v kmsg ksig kcert kbundle. split.
  - unfold NewSignatureVerifier. rewrite HasPrefix_sentinel. reflexivity.
  - intros c tr m.
    unfold BlobSignatureVerifier.getSignatures, bind, getSelf, ret. simpl.
    fold annotations kmsg ksig kcert kbundle.
    split; [|split; [|split]].
    + destruct (annotations !! kmsg); [|reflexivity].
      destruct (annotations !! ksig); reflexivity.
    + intros Hmsg. rewrite Hmsg. reflexivity.
    + intros msg Hmsg Hsig. rewrite Hmsg, Hsig. reflexivity.
    + intros msg sig Hmsg Hsig. rewrite Hmsg, Hsig. simpl.
      eexists. split; [reflexivity|]. split; [reflexivity|].
      intros Hnames. apply (assemble_lookup X Hnames).
Qed.

Lemma C8_embedded_sentinel_gives_blob_verifier_witness :
  let v := BlobSignatureVerifier.mk (Demo.annotationsOf Demo.objEmptyMessage) "" None
             Demo.cfg in
  NewSignatureVerifier Demo.X Demo.objEmptyMessage SigRefEmbeddedInAnnotation None Demo.cfg =
    BlobVerifier v /\
  exists sigMap,
    fst (BlobSignatureVerifier.getSignatures (Demo.start v [])) = Done (Ok sigMap) /\
    sigMap !! "message" = None /\
    sigMap !! "signature" = Some (bytes_of_string "c2ln").
Proof.
  intros v.
  destruct (C8_embedded_sentinel_gives_blob_verifier Demo.X Demo.objEmptyMessage None
              Demo.cfg) as [Hnew Hread].
  split; [exact Hnew|].
  destruct (Hread (@nil _ : Demo.cacheOf) []) as (_ & _ & _ & Hboth).
  destruct (Hboth "" "c2ln") as (sigMap & Hget & _ & Hlook).
  - vm_compute. reflexivity.
  - vm_compute. reflexivity.
  - destruct Hlook as (Lm & Ls & _ & _); [compute_done|].
    exists sigMap. split; [exact Hget|].
    split; [exact Lm|exact Ls].
Defined.

(** ** ImageSignatureVerifier.Verify: the cache pass *)

Section VerifyFacts.
Context (X : Externals).
Implicit Types (m : Machine X ImageSignatureVerifier.t) (pubkeys : list string).

Lemma getResultFromCache_eq imageRef pubkey m :
  ImageSignatureVerifier.getResultFromCache imageRef pubkey m =
    (cachedVerify X (cache m) imageRef pubkey,
     mkMachine (self m) (cache m)
       (trace m ++ [CallGetCache (ImageSignatureVerifier.cacheKey imageRef pubkey)])).
Proof.
  unfold ImageSignatureVerifier.getResultFromCache, bind, callGetCache, lift, cachedVerify.
  reflexivity.
Qed.

Lemma cacheLoopBody_returns imageRef pubkey locals m signerName signedTimestamp err :
  CacheHit X (cache m) imageRef pubkey true signerName signedTimestamp err ->
  ImageSignatureVerifier.cacheLoopBody imageRef pubkey locals m =
    (Done (inr (true, signerName, signedTimestamp, err)),
     mkMachine (self m) (cache m)
       (trace m ++ [CallGetCache (ImageSignatureVerifier.cacheKey imageRef pubkey)])).
Proof.
  intros H. destruct locals as [[v n] errs].
  unfold ImageSignatureVerifier.cacheLoopBody, bind.
  rewrite getResultFromCache_eq, H. reflexivity.
Qed.

Lemma cacheLoopBody_passes imageRef pubkey v n errs m :
  Passed (cache m) imageRef pubkey ->
  ImageSignatureVerifier.cacheLoopBody imageRef pubkey (v, n, errs) m =
    (Done (inl (false,
                (n + foundCount X (cache m) imageRef [pubkey])%nat,
                (errs ++ omap (cachedError X (cache m) imageRef) [pubkey])%list)),
     mkMachine (self m) (cache m)
       (trace m ++ [CallGetCache (ImageSignatureVerifier.cacheKey imageRef pubkey)])).
Proof.
  intros [err [(s & t & H) | H]];
    unfold ImageSignatureVerifier.cacheLoopBody, bind, foundCount, cachedFound, cachedError;
    rewrite getResultFromCache_eq; simpl; rewrite H; simpl;
    destruct err; simpl; rewrite ?app_nil_r, ?Nat.add_0_r; reflexivity.
Qed.

Lemma omap_cons_app {A B} (f : A -> option B) x l :
  omap f (x :: l) = (omap f [x] ++ omap f l)%list.
Proof. simpl. destruct (f x); reflexivity. Qed.

Lemma foundCount_cons c imageRef pubkey pubkeys :
  foundCount X c imageRef (pubkey :: pubkeys) =
    (foundCount X c imageRef [pubkey] + foundCount X c imageRef pubkeys)%nat.
Proof. unfold foundCount. simpl. destruct (cachedFound X c imageRef pubkey); reflexivity. Qed.

Lemma foundCount_le c imageRef pubkeys :
  (foundCount X c imageRef pubkeys <= length pubkeys)%nat.
Proof.
  induction pubkeys as [|k ks IH]; [reflexivity|].
  rewrite foundCount_cons. unfold foundCount at 1. simpl.
  destruct (cachedFound X c imageRef k); simpl; lia.
Qed.

Lemma foundCount_all c imageRef pubkeys :
  Forall (fun pubkey => exists err, CacheHitUnverified X c imageRef pubkey err) pubkeys ->
  foundCount X c imageRef pubkeys = length pubkeys.
Proof.
  induction 1 as [|k ks (err & s & t & H) _ IH]; [reflexivity|].
  rewrite foundCount_cons, IH. unfold foundCount, cachedFound. simpl.
  unfold CacheHit in H. now rewrite H.
Qed.

Lemma foundCount_some_missing c imageRef pubkeys :
  Exists (fun pubkey => exists err, CacheNotFound X c imageRef pubkey err) pubkeys ->
  (foundCount X c imageRef pubkeys < length pubkeys)%nat.
Proof.
  induction 1 as [k ks (err & H) | k ks _ IH]; rewrite foundCount_cons.
  - pose proof (foundCount_le c imageRef ks).
    unfold foundCount at 1, cachedFound. simpl.
    unfold CacheNotFound in H. rewrite H. simpl. lia.
  - pose proof (foundCount_le c imageRef [k]). simpl in *. lia.
Qed.

Lemma cacheLoop_passes imageRef pubkeys : forall n errs m,
  Forall (Passed (cache m) imageRef) pubkeys ->
  forRange pubkeys (ImageSignatureVerifier.cacheLoopBody imageRef) (false, n, errs) m =
    (Done (inl (false,
                (n + foundCount X (cache m) imageRef pubkeys)%nat,
                (errs ++ omap (cachedError X (cache m) imageRef) pubkeys)%list)),
     mkMachine (self m) (cache m) (trace m ++ cacheReads imageRef pubkeys)).
Proof.
  induction pubkeys as [|k ks IH]; intros n errs m Hall.
  - simpl. unfold ret, foundCount. simpl. rewrite !app_nil_r, Nat.add_0_r.
    now destruct m.
  - apply Forall_cons in Hall as [Hk Hks].
    rewrite (forRange_continue _ _ _ _ _ _ _ (cacheLoopBody_passes imageRef k false n errs m Hk)).
    rewrite IH by exact Hks. simpl cache. simpl self. simpl trace.
    rewrite (foundCount_cons _ _ k ks).
    rewrite (omap_cons_app (cachedError X (cache m) imageRef) k ks).
    rewrite <- !app_assoc, Nat.add_assoc. reflexivity.
Qed.

Lemma cacheLoop_hit imageRef pre pubkey post signerName signedTimestamp err :
  forall n errs m,
  Forall (Passed (cache m) imageRef) pre ->
  CacheHit X (cache m) imageRef pubkey true signerName signedTimestamp err ->
  forRange (pre ++ pubkey :: post) (ImageSignatureVerifier.cacheLoopBody imageRef)
    (false, n, errs) m =
    (Done (inr (true, signerName, signedTimestamp, err)),
     mkMachine (self m) (cache m) (trace m ++ cacheReads imageRef (pre ++ [pubkey]))).
Proof.
  induction pre as [|k ks IH]; intros n errs m Hpre Hhit.
  - simpl app. apply forRange_return. now apply cacheLoopBody_returns.
  - apply Forall_cons in Hpre as [Hk Hks]. simpl app.
    rewrite (forRange_continue _ _ _ _ _ _ _ (cacheLoopBody_passes imageRef k false n errs m Hk)).
    rewrite IH by assumption. simpl. rewrite <- app_assoc. reflexivity.
Qed.
End VerifyFacts.

(** ** ImageSignatureVerifier.Verify: live verification *)

Section LiveFacts.
Context (X : Externals).
Implicit Types (m : Machine X ImageSignatureVerifier.t) (pubkeys : list string).

Lemma liveLoopBody_eq imageRef pubkey allErrs m :
  let out := cosign_VerifyImage X imageRef pubkey in
  let evs := liveEvents X (ImageSignatureVerifier.onMemoryCacheEnabled (self m)) imageRef
               [pubkey] in
  ImageSignatureVerifier.liveLoopBody imageRef pubkey allErrs m =
    (Done (if fst (fst (fst out)) then inr out
           else inl (allErrs ++ failureReasons X imageRef [pubkey])%list),
     mkMachine (self m) (replay X evs (cache m)) (trace m ++ evs)).
Proof.
  unfold ImageSignatureVerifier.liveLoopBody, ImageSignatureVerifier.setResultToCache,
    failureReasons, bind, emit, getSelf, callSetCache, ret.
  simpl.
  destruct (cosign_VerifyImage X imageRef pubkey) as [[[verified signerName] ts] err] eqn:E.
  simpl.
  destruct (ImageSignatureVerifier.onMemoryCacheEnabled (self m)); simpl.
  - destruct (SetCache X (cache m) _ _) as [c' setErr]. simpl.
    destruct verified, err; simpl; rewrite <- ?app_assoc, ?app_nil_r; reflexivity.
  - destruct verified, err; simpl; rewrite ?app_nil_r; reflexivity.
Qed.

Lemma failureReasons_cons imageRef pubkey pubkeys :
  failureReasons X imageRef (pubkey :: pubkeys) =
    (failureReasons X imageRef [pubkey] ++ failureReasons X imageRef pubkeys)%list.
Proof. apply omap_cons_app. Qed.

Lemma liveEvents_cons cacheOn imageRef pubkey pubkeys :
  liveEvents X cacheOn imageRef (pubkey :: pubkeys) =
    (liveEvents X cacheOn imageRef [pubkey]
       ++ (if fst (fst (fst (cosign_VerifyImage X imageRef pubkey))) then []
           else liveEvents X cacheOn imageRef pubkeys))%list.
Proof.
  simpl. destruct (fst (fst (fst (cosign_VerifyImage X imageRef pubkey))));
    rewrite ?app_nil_r, <- ?app_assoc; reflexivity.
Qed.

Lemma liveLoop_spec imageRef pubkeys : forall allErrs m,
  let evs := liveEvents X (ImageSignatureVerifier.onMemoryCacheEnabled (self m)) imageRef
               pubkeys in
  forRange pubkeys (ImageSignatureVerifier.liveLoopBody imageRef) allErrs m =
    (Done (match firstSuccess X imageRef pubkeys with
           | Some out => inr out
           | None => inl (allErrs ++ failureReasons X imageRef pubkeys)%list
           end),
     mkMachine (self m) (replay X evs (cache m)) (trace m ++ evs)).
Proof.
  induction pubkeys as [|k ks IH]; intros allErrs m; cbv zeta.
  - simpl. unfold ret, failureReasons. simpl. rewrite !app_nil_r. now destruct m.
  - pose proof (liveLoopBody_eq imageRef k allErrs m) as Hb. cbv zeta in Hb.
    rewrite liveEvents_cons. simpl firstSuccess.
    destruct (fst (fst (fst (cosign_VerifyImage X imageRef k)))) eqn:Ev.
    + rewrite (forRange_return _ _ _ _ _ _ _ Hb). now rewrite !app_nil_r.
    + rewrite (forRange_continue _ _ _ _ _ _ _ Hb).
      specialize (IH (allErrs ++ failureReasons X imageRef [k])%list
                     (mkMachine (self m)
                        (replay X (liveEvents X
                                     (ImageSignatureVerifier.onMemoryCacheEnabled (self m))
                                     imageRef [k]) (cache m))
                        (trace m ++ liveEvents X
                                      (ImageSignatureVerifier.onMemoryCacheEnabled (self m))
                                      imageRef [k]))).
      cbv zeta in IH. cbn [self cache trace] in IH.
      rewrite IH, replay_app, (failureReasons_cons imageRef k ks), <- !app_assoc.
      reflexivity.
Qed.
End LiveFacts.

(** ** ImageSignatureVerifier.Verify: the whole method *)

Section WholeVerify.
Context (X : Externals).
Implicit Types (m : Machine X ImageSignatureVerifier.t) (pubkeys : list string).

Lemma replay_cacheReads imageRef pubkeys (c : Cache X) :
  replay X (cacheReads imageRef pubkeys) c = c.
Proof. induction pubkeys as [|k ks IH]; [reflexivity|exact IH]. Qed.

Lemma replay_liveEvents_uncached imageRef pubkeys (c : Cache X) :
  replay X (liveEvents X false imageRef pubkeys) c = c.
Proof.
  induction pubkeys as [|k ks IH]; [reflexivity|]. simpl.
  destruct (fst (fst (fst (cosign_VerifyImage X imageRef k)))); [reflexivity|exact IH].
Qed.

Lemma verifyCalls_app evs1 evs2 :
  verifyCalls (evs1 ++ evs2) = (verifyCalls evs1 ++ verifyCalls evs2)%list.
Proof. apply omap_app. Qed.

Lemma verifyCalls_cacheReads imageRef pubkeys : verifyCalls (cacheReads imageRef pubkeys) = [].
Proof. induction pubkeys as [|k ks IH]; [reflexivity|exact IH]. Qed.

Lemma CacheMiss_NotFound (c : Cache X) imageRef pubkey :
  CacheMiss X c imageRef pubkey -> CacheNotFound X c imageRef pubkey None.
Proof. intros [e H]. unfold CacheNotFound, cachedVerify. now rewrite H. Qed.

Lemma wrong_arity_NotFound (c : Cache X) imageRef pubkey result :
  GetCache X c (ImageSignatureVerifier.cacheKey imageRef pubkey) = Ok result ->
  length result <> 4%nat ->
  CacheNotFound X c imageRef pubkey
    (Some (ImageSignatureVerifier.inconsistent 4 (length result))).
Proof.
  intros H Hlen. unfold CacheNotFound, cachedVerify. rewrite H. simpl.
  apply Nat.eqb_neq in Hlen. now rewrite Hlen.
Qed.

Lemma Verify_cache_hit m pre pubkey post signerName signedTimestamp err :
  let v := self m in
  ImageSignatureVerifier.imageRef v <> "" ->
  ImageSignatureVerifier.onMemoryCacheEnabled v = true ->
  ImageSignatureVerifier.pubkeysOf (X := X) (ImageSignatureVerifier.pubkeyPathString v)
    = (pre ++ pubkey :: post)%list ->
  Forall (Passed (cache m) (ImageSignatureVerifier.imageRef v)) pre ->
  CacheHit X (cache m) (ImageSignatureVerifier.imageRef v) pubkey true
    signerName signedTimestamp err ->
  ImageSignatureVerifier.Verify m =
    (Done (true, signerName, signedTimestamp, err),
     mkMachine (self m) (cache m)
       (trace m ++ cacheReads (ImageSignatureVerifier.imageRef v) (pre ++ [pubkey]))).
Proof.
  intros v Href Hon Hkeys Hpre Hhit.
  unfold ImageSignatureVerifier.Verify, bind at 1, getSelf. fold v.
  apply String.eqb_neq in Href. rewrite Href, Hon, Hkeys.
  unfold bind. rewrite (cacheLoop_hit X _ pre pubkey post _ _ _ 0%nat [] m Hpre Hhit).
  reflexivity.
Qed.

Lemma Verify_all_cached m :
  let v := self m in
  let imageRef := ImageSignatureVerifier.imageRef v in
  let pubkeys := ImageSignatureVerifier.pubkeysOf (X := X)
                   (ImageSignatureVerifier.pubkeyPathString v) in
  imageRef <> "" ->
  ImageSignatureVerifier.onMemoryCacheEnabled v = true ->
  Forall (fun pubkey => exists err, CacheHitUnverified X (cache m) imageRef pubkey err)
    pubkeys ->
  ImageSignatureVerifier.Verify m =
    (Done (ImageSignatureVerifier.failed (omap (cachedError X (cache m) imageRef) pubkeys)),
     mkMachine (self m) (cache m) (trace m ++ cacheReads imageRef pubkeys)).
Proof.
  intros v imageRef pubkeys Href Hon Hall.
  assert (Hpassed : Forall (Passed (cache m) imageRef) pubkeys).
  { eapply Forall_impl; [exact Hall|]. intros k [err H]. exists err. now left. }
  unfold ImageSignatureVerifier.Verify, bind at 1, getSelf.
  fold v. fold imageRef. fold pubkeys.
  apply String.eqb_neq in Href. rewrite Href, Hon.
  unfold bind. rewrite (cacheLoop_passes X imageRef pubkeys 0%nat [] m Hpassed).
  rewrite (foundCount_all X _ _ _ Hall). simpl. rewrite Nat.eqb_refl. reflexivity.
Qed.

Lemma Verify_live m :
  let v := self m in
  let imageRef := ImageSignatureVerifier.imageRef v in
  let pubkeys := ImageSignatureVerifier.pubkeysOf (X := X)
                   (ImageSignatureVerifier.pubkeyPathString v) in
  let evs := liveRun X (ImageSignatureVerifier.onMemoryCacheEnabled v) imageRef pubkeys in
  imageRef <> "" ->
  LiveReached X v (cache m) pubkeys ->
  ImageSignatureVerifier.Verify m =
    (Done (liveOutcome X imageRef pubkeys),
     mkMachine (self m) (replay X evs (cache m)) (trace m ++ evs)).
Proof.
  cbv zeta. intros Href Hreached.
  unfold ImageSignatureVerifier.Verify, bind at 1, getSelf.
  apply String.eqb_neq in Href. rewrite Href.
  unfold liveRun, liveOutcome.
  set (imageRef := ImageSignatureVerifier.imageRef (self m)) in *.
  set (pubkeys := ImageSignatureVerifier.pubkeysOf
                    (ImageSignatureVerifier.pubkeyPathString (self m))) in *.
  pose proof (fun m' => liveLoop_spec X imageRef pubkeys [] m') as Hl. cbv zeta in Hl.
  destruct Hreached as [Hoff | [Hpassed Hmissing]].
  - specialize (Hl m). rewrite Hoff in *.
    unfold bind at 1, ret at 1. unfold bind. rewrite Hl. simpl.
    destruct (firstSuccess X imageRef pubkeys); reflexivity.
  - destruct (ImageSignatureVerifier.onMemoryCacheEnabled (self m)) eqn:Hon.
    + unfold bind.
      rewrite (cacheLoop_passes X imageRef pubkeys 0%nat [] m Hpassed).
      pose proof (foundCount_some_missing X _ _ _ Hmissing) as Hlt.
      apply Nat.lt_neq, Nat.eqb_neq in Hlt.
      change (ImageSignatureVerifier.imageRef (self m)) with imageRef in Hlt.
      cbn [negb andb Nat.add]. rewrite Hlt.
      unfold ret at 1. cbv beta iota.
      specialize (Hl (mkMachine (self m) (cache m)
                        (trace m ++ cacheReads imageRef pubkeys))).
      cbn [self cache trace] in Hl. rewrite Hon in Hl.
      rewrite Hl, replay_app, replay_cacheReads, <- app_assoc. simpl.
      destruct (firstSuccess X imageRef pubkeys); reflexivity.
    + specialize (Hl m). rewrite Hon in Hl.
      unfold bind at 1, ret at 1. unfold bind. rewrite Hl. simpl.
      destruct (firstSuccess X imageRef pubkeys); reflexivity.
Qed.

Lemma firstSuccess_none imageRef pubkeys :
  Forall (LiveFails X imageRef) pubkeys -> firstSuccess X imageRef pubkeys = None.
Proof.
  induction 1 as [|k ks Hk _ IH]; [reflexivity|]. simpl.
  unfold LiveFails in Hk. now rewrite Hk.
Qed.

Lemma firstSuccess_at imageRef pre pubkey post :
  Forall (LiveFails X imageRef) pre ->
  fst (fst (fst (cosign_VerifyImage X imageRef pubkey))) = true ->
  firstSuccess X imageRef (pre ++ pubkey :: post) = Some (cosign_VerifyImage X imageRef pubkey).
Proof.
  intros Hpre Hk. induction Hpre as [|k ks Hf _ IH]; simpl.
  - now rewrite Hk.
  - unfold LiveFails in Hf. now rewrite Hf.
Qed.

Lemma liveEvents_until cacheOn imageRef pre pubkey post :
  Forall (LiveFails X imageRef) pre ->
  fst (fst (fst (cosign_VerifyImage X imageRef pubkey))) = true ->
  liveEvents X cacheOn imageRef (pre ++ pubkey :: post) =
    liveEvents X cacheOn imageRef (pre ++ [pubkey]).
Proof.
  intros Hpre Hk. induction Hpre as [|k ks Hf _ IH]; simpl.
  - now rewrite Hk.
  - unfold LiveFails in Hf. rewrite Hf. now rewrite IH.
Qed.

Lemma verifyCalls_liveEvents_all cacheOn imageRef pubkeys :
  Forall (LiveFails X imageRef) pubkeys ->
  verifyCalls (liveEvents X cacheOn imageRef pubkeys) = map (pair imageRef) pubkeys.
Proof.
  induction 1 as [|k ks Hf _ IH]; [reflexivity|].
  unfold LiveFails in Hf. simpl. rewrite Hf.
  destruct cacheOn; simpl; now rewrite IH.
Qed.

Lemma verifyCalls_liveEvents_until cacheOn imageRef pre pubkey :
  Forall (LiveFails X imageRef) pre ->
  verifyCalls (liveEvents X cacheOn imageRef (pre ++ [pubkey])) =
    map (pair imageRef) (pre ++ [pubkey]).
Proof.
  induction 1 as [|k ks Hf _ IH].
  - simpl. destruct cacheOn, (fst (fst (fst (cosign_VerifyImage X imageRef pubkey))));
      reflexivity.
  - unfold LiveFails in Hf. simpl. rewrite Hf.
    destruct cacheOn; simpl; now rewrite IH.
Qed.

Lemma cacheWrites_liveEvents_until imageRef pre pubkey :
  Forall (LiveFails X imageRef) pre ->
  cacheWrites (liveEvents X true imageRef (pre ++ [pubkey])) =
    map (fun pubkey => (ImageSignatureVerifier.cacheKey imageRef pubkey,
                        verifyTuple (cosign_VerifyImage X imageRef pubkey)))
      (pre ++ [pubkey]).
Proof.
  induction 1 as [|k ks Hf _ IH].
  - simpl. destruct (fst (fst (fst (cosign_VerifyImage X imageRef pubkey)))); reflexivity.
  - unfold LiveFails in Hf. simpl. rewrite Hf. simpl. now rewrite IH.
Qed.

Lemma cacheWrites_liveEvents_all imageRef pubkeys :
  Forall (LiveFails X imageRef) pubkeys ->
  cacheWrites (liveEvents X true imageRef pubkeys) =
    map (fun pubkey => (ImageSignatureVerifier.cacheKey imageRef pubkey,
                        verifyTuple (cosign_VerifyImage X imageRef pubkey))) pubkeys.
Proof.
  induction 1 as [|k ks Hf _ IH]; [reflexivity|].
  unfold LiveFails in Hf. simpl. rewrite Hf. simpl. now rewrite IH.
Qed.
End WholeVerify.

(** ** Verify with caching enabled (C4) *)

(** C4: with caching on, a non-empty key list and an image reference,
    [Verify] does one of three things.  When a key has a verified entry in
    the cache, and the keys before it were read without one, it returns that
    entry at once: only cache reads are made.  When every key has an
    unverified entry, it returns the failure built from the cached errors:
    again only cache reads are made.  When no key has a verified entry and at
    least one key is not found, it verifies live from the first key on, hits
    included: each attempt is written back to the cache, the first success
    ends the run, and when all keys fail every key was verified and written. *)
Theorem C4_cache_then_live (X : Externals) (m : Machine X ImageSignatureVerifier.t) :
  let v := self m in
  let imageRef := ImageSignatureVerifier.imageRef v in
  let pubkeys := ImageSignatureVerifier.pubkeysOf (X := X)
                   (ImageSignatureVerifier.pubkeyPathString v) in
  imageRef <> "" ->
  pubkeys <> [] ->
  ImageSignatureVerifier.onMemoryCacheEnabled v = true ->
  (forall pre pubkey post signerName signedTimestamp err,
     pubkeys = (pre ++ pubkey :: post)%list ->
     Forall (Passed (cache m) imageRef) pre ->
     CacheHit X (cache m) imageRef pubkey true signerName signedTimestamp err ->
     ImageSignatureVerifier.Verify m =
       (Done (true, signerName, signedTimestamp, err),
        mkMachine (self m) (cache m) (trace m ++ cacheReads imageRef (pre ++ [pubkey])))) /\
  (Forall (fun pubkey => exists err, CacheHitUnverified X (cache m) imageRef pubkey err)
     pubkeys ->
   ImageSignatureVerifier.Verify m =
     (Done (ImageSignatureVerifier.failed (omap (cachedError X (cache m) imageRef) pubkeys)),
      mkMachine (self m) (cache m) (trace m ++ cacheReads imageRef pubkeys))) /\
  (Forall (Passed (cache m) imageRef) pubkeys ->
   Exists (CacheMiss X (cache m) imageRef) pubkeys ->
   let evs := liveEvents X true imageRef pubkeys in
   ImageSignatureVerifier.Verify m =
     (Done (liveOutcome X imageRef pubkeys),
      mkMachine (self m) (replay X evs (cache m))
        (trace m ++ cacheReads imageRef pubkeys ++ evs)) /\
   (Forall (LiveFails X imageRef) pubkeys ->
    verifyCalls evs = map (pair imageRef) pubkeys /\
    cacheWrites evs =
      map (fun pubkey => (ImageSignatureVerifier.cacheKey imageRef pubkey,
                          verifyTuple (cosign_VerifyImage X imageRef pubkey))) pubkeys) /\
   (forall pre pubkey post,
      pubkeys = (pre ++ pubkey :: post)%list ->
      Forall (LiveFails X imageRef) pre ->
      fst (fst (fst (cosign_VerifyImage X imageRef pubkey))) = true ->
      verifyCalls evs = map (pair imageRef) (pre ++ [pubkey]) /\
      cacheWrites evs =
        map (fun pubkey => (ImageSignatureVerifier.cacheKey imageRef pubkey,
                            verifyTuple (cosign_VerifyImage X imageRef pubkey)))
          (pre ++ [pubkey]))).
Proof.
  intros v imageRef pubkeys Href Hne Hon.
  split; [|split].
  - intros pre pubkey post s t e Hkeys Hpre Hhit.
    exact (Verify_cache_hit X m pre pubkey post s t e Href Hon Hkeys Hpre Hhit).
  - intros Hall. exact (Verify_all_cached X m Href Hon Hall).
  - intros Hpassed Hmiss evs.
    assert (Hreached : LiveReached X v (cache m) pubkeys).
    { right. split; [exact Hpassed|].
      eapply Exists_impl; [exact Hmiss|].
      intros k Hk. exists None. now apply CacheMiss_NotFound. }
    split; [|split].
    + pose proof (Verify_live X m Href Hreached) as H. cbv zeta in H.
      fold v in H. rewrite Hon in H. rewrite H. unfold liveRun.
      rewrite replay_app, replay_cacheReads. reflexivity.
    + intros Hfail. split.
      * apply verifyCalls_liveEvents_all; assumption.
      * apply cacheWrites_liveEvents_all; assumption.
    + intros pre pubkey post Hkeys Hpre Hk. subst evs. rewrite Hkeys.
      rewrite (liveEvents_until X true imageRef pre pubkey post Hpre Hk).
      split; [now apply verifyCalls_liveEvents_until
             |now apply cacheWrites_liveEvents_until].
Qed.

Lemma C4_cache_then_live_witness :
  let ref := "repo/app:v1" in
  let key := ImageSignatureVerifier.cacheKey ref in
  let stale k := [VBool false; VString ""; VInt64Ptr None; VError ("stale: " +:+ k)] in
  let verified :=
    [(key "k2", [VBool true; VString "cached@example.com"; VInt64Ptr (Some 1600000000%Z);
                  VNil])] in
  let failed := [(key "k1", stale "k1"); (key "k3", stale "k3")] in
  let partial := [(key "k1", stale "k1")] in
  fst (ImageSignatureVerifier.Verify (Demo.start (Demo.imageVerifier "k1,k2") verified)) =
    Done (true, "cached@example.com", Some 1600000000%Z, None) /\
  fst (ImageSignatureVerifier.Verify (Demo.start (Demo.imageVerifier "k1,k3") failed)) =
    Done (false, "", None, Some "signature verification failed: stale: k1; stale: k3") /\
  verifyCalls
    (trace (snd (ImageSignatureVerifier.Verify
                   (Demo.start (Demo.imageVerifier "k1,k3") partial)))) =
    [(ref, "k1"); (ref, "k3")].
Proof.
  intros ref key stale verified failed partial.
  split; [|split].
  - destruct (C4_cache_then_live Demo.X (Demo.start (Demo.imageVerifier "k1,k2") verified))
      as (Hhit & _ & _); [discriminate | discriminate | reflexivity |].
    rewrite (Hhit ["k1"] "k2" [] "cached@example.com" (Some 1600000000%Z) None).
    + reflexivity.
    + reflexivity.
    + constructor; [|constructor]. exists None. right. vm_compute. reflexivity.
    + vm_compute. reflexivity.
  - destruct (C4_cache_then_live Demo.X (Demo.start (Demo.imageVerifier "k1,k3") failed))
      as (_ & Hall & _); [discriminate | discriminate | reflexivity |].
    rewrite Hall.
    + vm_compute. reflexivity.
    + constructor; [|constructor; [|constructor]].
      * exists (Some "stale: k1"), "", None. vm_compute. reflexivity.
      * exists (Some "stale: k3"), "", None. vm_compute. reflexivity.
  - destruct (C4_cache_then_live Demo.X (Demo.start (Demo.imageVerifier "k1,k3") partial))
      as (_ & _ & Hlive); [discriminate | discriminate | reflexivity |].
    destruct Hlive as (Hrun & Hcalls & _).
    + constructor; [|constructor; [|constructor]].
      * exists (Some "stale: k1"). left. exists "", None. vm_compute. reflexivity.
      * exists None. right. vm_compute. reflexivity.
    + apply Exists_cons_tl, Exists_cons_hd. exists "not found". vm_compute. reflexivity.
    + rewrite Hrun. cbn [snd trace]. rewrite !verifyCalls_app, verifyCalls_cacheReads.
      destruct Hcalls as [Hcalls _].
      * constructor; [|constructor; [|constructor]]; vm_compute; reflexivity.
      * rewrite Hcalls. reflexivity.
Defined.

(** ** Live verification: total failure (C5) and first success (C6) *)

(** C5, as the code has it: when every key fails live verification and live
    verification is reached (caching is off, or the cache pass finds no
    verified entry and does not find at least one key), [Verify] returns
    [verified = false], no signer, no timestamp, and an error whose text is
    ["signature verification failed: "] followed by the reasons of the keys
    that failed with an error, in key order, joined by ["; "]. *)
Theorem C5_all_keys_fail (X : Externals) (m : Machine X ImageSignatureVerifier.t) :
  let v := self m in
  let imageRef := ImageSignatureVerifier.imageRef v in
  let pubkeys := ImageSignatureVerifier.pubkeysOf (X := X)
                   (ImageSignatureVerifier.pubkeyPathString v) in
  imageRef <> "" ->
  Forall (LiveFails X imageRef) pubkeys ->
  LiveReached X v (cache m) pubkeys ->
  fst (ImageSignatureVerifier.Verify m) =
    Done (false, "", None,
          Some ("signature verification failed: "
                  +:+ strings_Join (failureReasons X imageRef pubkeys) "; ")).
Proof.
  intros v imageRef pubkeys Href Hfail Hreached.
  pose proof (Verify_live X m Href Hreached) as H. cbv zeta in H. rewrite H.
  fold v. fold imageRef. fold pubkeys.
  unfold liveOutcome. rewrite (firstSuccess_none X imageRef pubkeys Hfail). reflexivity.
Qed.

Lemma C5_all_keys_fail_witness :
  fst (ImageSignatureVerifier.Verify (Demo.start (Demo.imageVerifier "k1,k3") [])) =
    Done (false, "", None,
          Some "signature verification failed: no matching signatures: k1; no matching signatures: k3").
Proof.
  rewrite (C5_all_keys_fail Demo.X (Demo.start (Demo.imageVerifier "k1,k3") [])).
  - reflexivity.
  - discriminate.
  - constructor; [|constructor; [|constructor]]; reflexivity.
  - right. split.
    + constructor; [|constructor; [|constructor]]; exists None; right; reflexivity.
    + apply Exists_cons_hd. exists None. reflexivity.
Defined.

(** C5 as first stated fails twice over: the error text carries a prefix in
    front of the joined reasons, and when every key has an unverified cache
    entry the text is built from the cached errors, not from the reasons
    live verification would give. *)
Lemma C5_counterexample :
  let ref := "repo/app:v1" in
  let pubkeys := ["k1"; "k3"] in
  let key := ImageSignatureVerifier.cacheKey ref in
  let stale k := [VBool false; VString ""; VInt64Ptr None; VError ("stale: " +:+ k)] in
  let failed := [(key "k1", stale "k1"); (key "k3", stale "k3")] in
  ImageSignatureVerifier.pubkeysOf (X := Demo.X) (Some "k1,k3") = pubkeys /\
  Forall (LiveFails Demo.X ref) pubkeys /\
  strings_Join (failureReasons Demo.X ref pubkeys) "; " =
    "no matching signatures: k1; no matching signatures: k3" /\
  fst (ImageSignatureVerifier.Verify (Demo.start (Demo.imageVerifier "k1,k3") [])) =
    Done (false, "", None,
          Some "signature verification failed: no matching signatures: k1; no matching signatures: k3") /\
  fst (ImageSignatureVerifier.Verify (Demo.start (Demo.imageVerifier "k1,k3") [])) <>
    Done (false, "", None, Some (strings_Join (failureReasons Demo.X ref pubkeys) "; ")) /\
  fst (ImageSignatureVerifier.Verify (Demo.start (Demo.imageVerifier "k1,k3") failed)) =
    Done (false, "", None, Some "signature verification failed: stale: k1; stale: k3").
Proof.
  intros ref pubkeys key stale failed.
  split; [reflexivity|].
  split; [constructor; [|constructor; [|constructor]]; reflexivity|].
  split; [reflexivity|].
  split; [vm_compute; reflexivity|].
  split; [vm_compute; discriminate|].
  vm_compute. reflexivity.
Qed.

Lemma Verify_first_success X (m : Machine X ImageSignatureVerifier.t) pre pubkey post :
  let v := self m in
  let imageRef := ImageSignatureVerifier.imageRef v in
  let pubkeys := ImageSignatureVerifier.pubkeysOf (X := X)
                   (ImageSignatureVerifier.pubkeyPathString v) in
  let evs := liveRun X (ImageSignatureVerifier.onMemoryCacheEnabled v) imageRef pubkeys in
  imageRef <> "" ->
  pubkeys = (pre ++ pubkey :: post)%list ->
  Forall (LiveFails X imageRef) pre ->
  fst (fst (fst (cosign_VerifyImage X imageRef pubkey))) = true ->
  LiveReached X v (cache m) pubkeys ->
  ImageSignatureVerifier.Verify m =
    (Done (cosign_VerifyImage X imageRef pubkey),
     mkMachine (self m) (replay X evs (cache m)) (trace m ++ evs)) /\
  verifyCalls evs = map (pair imageRef) (pre ++ [pubkey]).
Proof.
  cbv zeta. intros Href Hkeys Hpre Hk Hreached.
  pose proof (Verify_live X m Href Hreached) as H. cbv zeta in H.
  split.
  - rewrite H. unfold liveOutcome. rewrite Hkeys at 1.
    now rewrite (firstSuccess_at X _ pre pubkey post Hpre Hk).
  - unfold liveRun. rewrite verifyCalls_app, Hkeys.
    rewrite (liveEvents_until X _ _ pre pubkey post Hpre Hk).
    rewrite (verifyCalls_liveEvents_until X _ _ pre pubkey Hpre).
    destruct (ImageSignatureVerifier.onMemoryCacheEnabled (self m));
      [now rewrite verifyCalls_cacheReads|reflexivity].
Qed.

(** C6: for a key list in which some key verifies live (the dispatcher
    reports it verified, with a nil error) and the keys before it fail, a
    [Verify] with an image reference that reaches live verification (caching
    is off, or the cache pass finds no verified entry and does not find at
    least one key) returns that key's signer and timestamp with a nil error;
    live verification was called for the keys up to that one, in order, and
    for no key after it; no earlier failure shows in the result. *)
Theorem C6_first_success_wins (X : Externals) (m : Machine X ImageSignatureVerifier.t)
    (pre : list string) (pubkey : string) (post : list string)
    (signerName : string) (signedTimestamp : option Z) :
  let v := self m in
  let imageRef := ImageSignatureVerifier.imageRef v in
  let pubkeys := ImageSignatureVerifier.pubkeysOf (X := X)
                   (ImageSignatureVerifier.pubkeyPathString v) in
  imageRef <> "" ->
  pubkeys = (pre ++ pubkey :: post)%list ->
  Forall (LiveFails X imageRef) pre ->
  cosign_VerifyImage X imageRef pubkey = (true, signerName, signedTimestamp, None) ->
  LiveReached X v (cache m) pubkeys ->
  fst (ImageSignatureVerifier.Verify m) = Done (true, signerName, signedTimestamp, None) /\
  exists evs,
    trace (snd (ImageSignatureVerifier.Verify m)) = (trace m ++ evs)%list /\
    verifyCalls evs = map (pair imageRef) (pre ++ [pubkey]) /\
    forall later, In later post -> ~ In later (pre ++ [pubkey]) ->
                  ~ In (imageRef, later) (verifyCalls evs).
Proof.
  intros v imageRef pubkeys Href Hkeys Hpre Hout Hreached.
  assert (Hk : fst (fst (fst (cosign_VerifyImage X imageRef pubkey))) = true)
    by now rewrite Hout.
  destruct (Verify_first_success X m pre pubkey post Href Hkeys Hpre Hk Hreached)
    as [Hrun Hcalls].
  rewrite Hrun. fold v imageRef pubkeys in Hcalls |- *.
  split; [now rewrite Hout|].
  eexists. split; [reflexivity|]. split; [exact Hcalls|].
  intros later _ Hnot Hin. rewrite Hcalls in Hin.
  apply in_map_iff in Hin as (k & E & Hin). inversion E; subst. contradiction.
Qed.

Lemma C6_first_success_wins_witness :
  fst (ImageSignatureVerifier.Verify (Demo.start (Demo.imageVerifier "k1,k2,k3") [])) =
    Done (true, "signer@example.com", Some 1700000000%Z, None) /\
  verifyCalls
    (trace (snd (ImageSignatureVerifier.Verify
                   (Demo.start (Demo.imageVerifier "k1,k2,k3") [])))) =
    [("repo/app:v1", "k1"); ("repo/app:v1", "k2")].
Proof.
  destruct (C6_first_success_wins Demo.X (Demo.start (Demo.imageVerifier "k1,k2,k3") [])
              ["k1"] "k2" ["k3"] "signer@example.com" (Some 1700000000%Z))
    as (Hres & evs & Htrace & Hcalls & _).
  - discriminate.
  - reflexivity.
  - constructor; [|constructor]. reflexivity.
  - reflexivity.
  - right. split.
    + constructor; [|constructor; [|constructor; [|constructor]]];
        exists None; right; reflexivity.
    + apply Exists_cons_hd. exists None. reflexivity.
  - split; [exact Hres|]. rewrite Htrace. simpl. exact Hcalls.
Defined.

(** C6 as first stated fails when caching is on and the cache answers first.
    With the keys k1, k2, k3, of which k2 is the first that verifies live: a
    verified entry cached for k3 alone is returned, with k3's cached signer
    and timestamp and not k2's; and unverified entries cached for all three
    keys give a failure that surfaces the cached errors.  In neither call is
    any key verified live. *)
Lemma C6_counterexample :
  let ref := "repo/app:v1" in
  let pubkeys := ["k1"; "k2"; "k3"] in
  let key := ImageSignatureVerifier.cacheKey ref in
  let stale k := [VBool false; VString ""; VInt64Ptr None; VError ("stale: " +:+ k)] in
  let later := [(key "k3", [VBool true; VString "other@example.com";
                            VInt64Ptr (Some 1600000000%Z); VNil])] in
  let failed := [(key "k1", stale "k1"); (key "k2", stale "k2"); (key "k3", stale "k3")] in
  let v := Demo.imageVerifier "k1,k2,k3" in
  ImageSignatureVerifier.pubkeysOf (X := Demo.X) (Some "k1,k2,k3") = pubkeys /\
  LiveFails Demo.X ref "k1" /\
  cosign_VerifyImage Demo.X ref "k2" =
    (true, "signer@example.com", Some 1700000000%Z, None) /\
  firstSuccess Demo.X ref pubkeys =
    Some (true, "signer@example.com", Some 1700000000%Z, None) /\
  fst (ImageSignatureVerifier.Verify (Demo.start v later)) =
    Done (true, "other@example.com", Some 1600000000%Z, None) /\
  fst (ImageSignatureVerifier.Verify (Demo.start v later)) <>
    Done (true, "signer@example.com", Some 1700000000%Z, None) /\
  verifyCalls (trace (snd (ImageSignatureVerifier.Verify (Demo.start v later)))) = [] /\
  fst (ImageSignatureVerifier.Verify (Demo.start v failed)) =
    Done (false, "", None,
          Some "signature verification failed: stale: k1; stale: k2; stale: k3") /\
  verifyCalls (trace (snd (ImageSignatureVerifier.Verify (Demo.start v failed)))) = [].
Proof.
  intros ref pubkeys key stale later failed v.
  split; [reflexivity|].
  split; [reflexivity|].
  split; [reflexivity|].
  split; [reflexivity|].
  split; [vm_compute; reflexivity|].
  split; [vm_compute; discriminate|].
  split; [vm_compute; reflexivity|].
  split; [vm_compute; reflexivity|].
  vm_compute. reflexivity.
Qed.

(** ** Cache tuples of the wrong length (C2) *)

Lemma decodeManifest_wrong_arity X result :
  length result <> 2%nat ->
  ImageManifestFetcher.decodeManifest (X := X) (Ok result) =
    Done (false, [], Some (ImageManifestFetcher.inconsistent 2 (length result))).
Proof.
  intros Hlen. unfold ImageManifestFetcher.decodeManifest.
  apply Nat.eqb_neq in Hlen. now rewrite Hlen.
Qed.

(** A tuple of the wrong length under the only key is enough to reach live
    verification: the read reports it as not found. *)
Lemma wrong_arity_reaches_live X (m : Machine X ImageSignatureVerifier.t) pubkey result :
  let v := self m in
  ImageSignatureVerifier.pubkeysOf (X := X) (ImageSignatureVerifier.pubkeyPathString v)
    = [pubkey] ->
  GetCache X (cache m)
    (ImageSignatureVerifier.cacheKey (ImageSignatureVerifier.imageRef v) pubkey) = Ok result ->
  length result <> 4%nat ->
  LiveReached X v (cache m)
    (ImageSignatureVerifier.pubkeysOf (X := X) (ImageSignatureVerifier.pubkeyPathString v)).
Proof.
  intros v Hkeys Hget Hlen. right. rewrite Hkeys.
  pose proof (wrong_arity_NotFound X _ _ _ _ Hget Hlen) as H.
  split.
  - constructor; [|constructor]. eexists. right. exact H.
  - apply Exists_cons_hd. eexists. exact H.
Qed.

(** C2, on the code: a verify-image tuple of three values and a
    fetch-manifest tuple of one value are both read with the inconsistency
    error and [cacheFound = false]; [Verify] and [Fetch] then go on to live
    verification and to the image pull, and return their results.  The
    inconsistency error reaches no caller, also when live verification
    fails. *)
Theorem C2_wrong_arity_is_taken_as_a_miss :
  let ref := "repo/app:v1" in
  let short := [VBool false; VString ""; VNil] in
  let c2 := [(ImageSignatureVerifier.cacheKey ref "k2", short)] in
  let c1 := [(ImageSignatureVerifier.cacheKey ref "k1", short)] in
  let f := ImageManifestFetcher.mk "good/img:v1" Demo.cfg [] 0 true in
  let cf := [(ImageManifestFetcher.cacheKey "good/img:v1", [VBytes []])] in
  fst (ImageSignatureVerifier.getResultFromCache ref "k2"
         (Demo.start (Demo.imageVerifier "k2") c2)) =
    Done (false, false, "", None,
          Some "cache returns inconsistent data: a length of verify image result must be 4, but got 3") /\
  fst (ImageSignatureVerifier.Verify (Demo.start (Demo.imageVerifier "k2") c2)) =
    Done (true, "signer@example.com", Some 1700000000%Z, None) /\
  verifyCalls (trace (snd (ImageSignatureVerifier.Verify
                             (Demo.start (Demo.imageVerifier "k2") c2)))) = [(ref, "k2")] /\
  fst (ImageSignatureVerifier.Verify (Demo.start (Demo.imageVerifier "k1") c1)) =
    Done (false, "", None, Some "signature verification failed: no matching signatures: k1") /\
  fst (ImageManifestFetcher.getManifestFromCache "good/img:v1" (Demo.start f cf)) =
    Done (false, [],
          Some "cache returns inconsistent data: a length of fetch manifest result must be 2, but got 1") /\
  fst (ImageManifestFetcher.Fetch Demo.objPlain (Demo.start f cf)) =
    Done (Some [bytes_of_string "good/img:v1"], "good/img:v1", None) /\
  trace (snd (ImageManifestFetcher.Fetch Demo.objPlain (Demo.start f cf))) =
    [CallGetCache "cache/fetch-manifest/good/img:v1";
     CallPullImage "good/img:v1";
     CallSetCache "cache/fetch-manifest/good/img:v1"
       [VBytes (bytes_of_string "good/img:v1"); VNil]].
Proof.
  intros ref short c2 c1 f cf.
  repeat split; vm_compute; reflexivity.
Qed.

(** ** The fallback loops of the fetchers (C3) *)

Section FetchLoops.
Context (X : Externals).

Lemma Unmatched_self {S} (fetchOne : string -> M X S (GoResult bytes)) found refs
    (m m1 : Machine X S) :
  (forall ref, Frame (fetchOne ref)) ->
  Unmatched fetchOne found refs m m1 -> self m1 = self m.
Proof.
  intros HF. induction 1 as [|ref rest c m m1 m2 Hf _ _ IH]; [reflexivity|].
  destruct (HF ref m) as [Hs _]. rewrite Hf in Hs. simpl in Hs. congruence.
Qed.

Lemma loop_unmatched {S R} (body : string -> unit -> M X S (unit + R))
    (fetchOne : string -> M X S (GoResult bytes)) found refs (m m1 : Machine X S) :
  (forall ref m c m1,
     fetchOne ref m = (Done (Ok c), m1) -> found (self m1) c = false ->
     body ref tt m = (Done (inl tt), m1)) ->
  Unmatched fetchOne found refs m m1 ->
  forRange refs body tt m = (Done (inl tt), m1).
Proof.
  intros Hbody. induction 1 as [|ref rest c m m1 m2 Hf Hn _ IH]; [reflexivity|].
  rewrite (forRange_continue _ _ _ _ _ _ _ (Hbody _ _ _ _ Hf Hn)). exact IH.
Qed.

Lemma loop_decided {S R} (body : string -> unit -> M X S (unit + R))
    (fetchOne : string -> M X S (GoResult bytes)) found pre ref post out
    (m m1 m2 : Machine X S) :
  (forall ref m c m1,
     fetchOne ref m = (Done (Ok c), m1) -> found (self m1) c = false ->
     body ref tt m = (Done (inl tt), m1)) ->
  Unmatched fetchOne found pre m m1 ->
  body ref tt m1 = (Done (inr out), m2) ->
  forRange (pre ++ ref :: post) body tt m = (Done (inr out), m2).
Proof.
  intros Hbody Hpre Hout. induction Hpre as [|r rest c m m1' m2' Hf Hn _ IH]; simpl app.
  - now apply forRange_return.
  - rewrite (forRange_continue _ _ _ _ _ _ _ (Hbody _ _ _ _ Hf Hn)). now apply IH.
Qed.

Lemma Frame_fetchManifestInSingleImage ref :
  Frame (ImageManifestFetcher.fetchManifestInSingleImage (X := X) ref).
Proof. frame. Qed.

Lemma Frame_fetchManifestInSingleConfigMap ref :
  Frame (BlobManifestFetcher.fetchManifestInSingleConfigMap (X := X) ref).
Proof. frame. Qed.

Lemma image_body_skip objYAMLBytes f0 ref (m m1 : Machine X ImageManifestFetcher.t) c :
  ImageManifestFetcher.fetchManifestInSingleImage ref m = (Done (Ok c), m1) ->
  imageFound X objYAMLBytes f0 (self m1) c = false ->
  ImageManifestFetcher.fetchLoopBody objYAMLBytes
    (maxPtr (ImageManifestFetcher.maxResourceManifestNum f0)) ref tt m = (Done (inl tt), m1).
Proof.
  intros Hf Hn. unfold ImageManifestFetcher.fetchLoopBody.
  rewrite (bind_Done _ _ _ _ _ Hf). unfold bind, getSelf, maxPtr.
  unfold imageFound in Hn.
  destruct (FindManifestYAML X c objYAMLBytes _ _) as [found ms].
  simpl in Hn. now rewrite Hn.
Qed.

Lemma image_body_match objYAMLBytes f0 ref (m m1 : Machine X ImageManifestFetcher.t) c ms :
  ImageManifestFetcher.fetchManifestInSingleImage ref m = (Done (Ok c), m1) ->
  FindManifestYAML X c objYAMLBytes (maxPtr (ImageManifestFetcher.maxResourceManifestNum f0))
    (ImageManifestFetcher.ignoreFields (self m1)) = (true, ms) ->
  ImageManifestFetcher.fetchLoopBody objYAMLBytes
    (maxPtr (ImageManifestFetcher.maxResourceManifestNum f0)) ref tt m =
    (Done (inr (ms, ref, None)), m1).
Proof.
  intros Hf Hm. unfold ImageManifestFetcher.fetchLoopBody.
  rewrite (bind_Done _ _ _ _ _ Hf). unfold bind, getSelf. now rewrite Hm.
Qed.

Lemma image_body_error objYAMLBytes maxp ref (m m1 : Machine X ImageManifestFetcher.t) e :
  ImageManifestFetcher.fetchManifestInSingleImage ref m = (Done (Err e), m1) ->
  ImageManifestFetcher.fetchLoopBody objYAMLBytes maxp ref tt m =
    (Done (inr (None, "", Some e)), m1).
Proof.
  intros Hf. unfold ImageManifestFetcher.fetchLoopBody.
  now rewrite (bind_Done _ _ _ _ _ Hf).
Qed.

Lemma blob_body_skip objYAMLBytes f0 ref (m m1 : Machine X BlobManifestFetcher.t) c :
  BlobManifestFetcher.fetchManifestInSingleConfigMap ref m = (Done (Ok c), m1) ->
  blobFound X objYAMLBytes f0 (self m1) c = false ->
  BlobManifestFetcher.fetchLoopBody objYAMLBytes
    (maxPtr (BlobManifestFetcher.maxResourceManifestNum f0)) ref tt m = (Done (inl tt), m1).
Proof.
  intros Hf Hn. unfold BlobManifestFetcher.fetchLoopBody.
  rewrite (bind_Done _ _ _ _ _ Hf). unfold bind, getSelf, maxPtr.
  unfold blobFound in Hn.
  destruct (FindManifestYAML X c objYAMLBytes _ _) as [found ms].
  simpl in Hn. now rewrite Hn.
Qed.

Lemma blob_body_match objYAMLBytes f0 ref (m m1 : Machine X BlobManifestFetcher.t) c ms :
  BlobManifestFetcher.fetchManifestInSingleConfigMap ref m = (Done (Ok c), m1) ->
  FindManifestYAML X c objYAMLBytes (maxPtr (BlobManifestFetcher.maxResourceManifestNum f0))
    (BlobManifestFetcher.ignoreFields (self m1)) = (true, ms) ->
  BlobManifestFetcher.fetchLoopBody objYAMLBytes
    (maxPtr (BlobManifestFetcher.maxResourceManifestNum f0)) ref tt m =
    (Done (inr (ms, ref, None)), m1).
Proof.
  intros Hf Hm. unfold BlobManifestFetcher.fetchLoopBody.
  rewrite (bind_Done _ _ _ _ _ Hf). unfold bind, getSelf. now rewrite Hm.
Qed.

Lemma blob_body_error objYAMLBytes maxp ref (m m1 : Machine X BlobManifestFetcher.t) e :
  BlobManifestFetcher.fetchManifestInSingleConfigMap ref m = (Done (Err e), m1) ->
  BlobManifestFetcher.fetchLoopBody objYAMLBytes maxp ref tt m =
    (Done (inr (None, "", Some e)), m1).
Proof.
  intros Hf. unfold BlobManifestFetcher.fetchLoopBody.
  now rewrite (bind_Done _ _ _ _ _ Hf).
Qed.

Lemma image_Fetch_loop objYAMLBytes (m : Machine X ImageManifestFetcher.t) :
  resolvedImageRef X (self m) objYAMLBytes <> "" ->
  ImageManifestFetcher.Fetch objYAMLBytes m =
    (let '(r, m') :=
       forRange (SplitCommaSeparatedString X (resolvedImageRef X (self m) objYAMLBytes))
         (ImageManifestFetcher.fetchLoopBody objYAMLBytes
            (maxPtr (ImageManifestFetcher.maxResourceManifestNum (self m)))) tt m in
     match r with
     | Done (inr out) => (Done out, m')
     | Done (inl _) => (Done ImageManifestFetcher.notFound, m')
     | Panic msg => (Panic msg, m')
     end).
Proof.
  intros Href. apply String.eqb_neq in Href.
  unfold ImageManifestFetcher.Fetch, bind at 1, getSelf.
  unfold resolvedImageRef, lookup_or_zero in *.
  destruct (ImageManifestFetcher.imageRefString (self m) =? "") eqn:E.
  - destruct (GetAnnotationsInYAML X objYAMLBytes !! _) as [a|] eqn:Ea; simpl in Href |- *.
    + rewrite Href. unfold bind, maxPtr.
      destruct (forRange _ _ _ _) as [[[[]|out]|msg] m']; reflexivity.
    + discriminate.
  - rewrite E. unfold bind, maxPtr.
    destruct (forRange _ _ _ _) as [[[[]|out]|msg] m']; reflexivity.
Qed.

Lemma blob_fetchManifestFromResource_loop objYAMLBytes (m : Machine X BlobManifestFetcher.t) :
  BlobManifestFetcher.resourceRefString (self m) <> "" ->
  BlobManifestFetcher.fetchManifestFromResource objYAMLBytes m =
    (let '(r, m') :=
       forRange (SplitCommaSeparatedString X (BlobManifestFetcher.resourceRefString (self m)))
         (BlobManifestFetcher.fetchLoopBody objYAMLBytes
            (maxPtr (BlobManifestFetcher.maxResourceManifestNum (self m)))) tt m in
     match r with
     | Done (inr out) => (Done out, m')
     | Done (inl _) => (Done BlobManifestFetcher.notFound, m')
     | Panic msg => (Panic msg, m')
     end).
Proof.
  intros Href. apply String.eqb_neq in Href.
  unfold BlobManifestFetcher.fetchManifestFromResource, bind at 1, getSelf.
  rewrite Href. unfold bind, maxPtr.
  destruct (forRange _ _ _ _) as [[[[]|out]|msg] m']; reflexivity.
Qed.
End FetchLoops.

(** C3, as the code has it: [ImageManifestFetcher.Fetch] and
    [BlobManifestFetcher.fetchManifestFromResource] try the comma-separated
    references in order.  Past the references that were retrieved and did not
    match, the next reference decides: if it is retrieved and matches, its
    manifests and the reference itself are returned; if its retrieval fails,
    that one error is returned as it is.  Either way the call ends there, in
    the machine that reference left behind: the references after it are not
    tried.  When every reference is retrieved and none matches, the error is
    the fixed not-found error of the fetcher. *)
Theorem C3_fetch_fallback (X : Externals) :
  (forall objYAMLBytes (m m1 : Machine X ImageManifestFetcher.t) pre ref post,
     resolvedImageRef X (self m) objYAMLBytes <> "" ->
     SplitCommaSeparatedString X (resolvedImageRef X (self m) objYAMLBytes)
       = (pre ++ ref :: post)%list ->
     Unmatched ImageManifestFetcher.fetchManifestInSingleImage
       (imageFound X objYAMLBytes (self m)) pre m m1 ->
     (forall c ms m2,
        ImageManifestFetcher.fetchManifestInSingleImage ref m1 = (Done (Ok c), m2) ->
        FindManifestYAML X c objYAMLBytes
          (maxPtr (ImageManifestFetcher.maxResourceManifestNum (self m)))
          (ImageManifestFetcher.ignoreFields (self m2)) = (true, ms) ->
        ImageManifestFetcher.Fetch objYAMLBytes m = (Done (ms, ref, None), m2)) /\
     (forall e m2,
        ImageManifestFetcher.fetchManifestInSingleImage ref m1 = (Done (Err e), m2) ->
        ImageManifestFetcher.Fetch objYAMLBytes m = (Done (None, "", Some e), m2))) /\
  (forall objYAMLBytes (m m1 : Machine X ImageManifestFetcher.t),
     resolvedImageRef X (self m) objYAMLBytes <> "" ->
     Unmatched ImageManifestFetcher.fetchManifestInSingleImage
       (imageFound X objYAMLBytes (self m))
       (SplitCommaSeparatedString X (resolvedImageRef X (self m) objYAMLBytes)) m m1 ->
     ImageManifestFetcher.Fetch objYAMLBytes m =
       (Done (None, "", Some "failed to find a YAML manifest in the image"), m1)) /\
  (forall objYAMLBytes (m m1 : Machine X BlobManifestFetcher.t) pre ref post,
     BlobManifestFetcher.resourceRefString (self m) <> "" ->
     SplitCommaSeparatedString X (BlobManifestFetcher.resourceRefString (self m))
       = (pre ++ ref :: post)%list ->
     Unmatched BlobManifestFetcher.fetchManifestInSingleConfigMap
       (blobFound X objYAMLBytes (self m)) pre m m1 ->
     (forall c ms m2,
        BlobManifestFetcher.fetchManifestInSingleConfigMap ref m1 = (Done (Ok c), m2) ->
        FindManifestYAML X c objYAMLBytes
          (maxPtr (BlobManifestFetcher.maxResourceManifestNum (self m)))
          (BlobManifestFetcher.ignoreFields (self m2)) = (true, ms) ->
        BlobManifestFetcher.fetchManifestFromResource objYAMLBytes m =
          (Done (ms, ref, None), m2)) /\
     (forall e m2,
        BlobManifestFetcher.fetchManifestInSingleConfigMap ref m1 = (Done (Err e), m2) ->
        BlobManifestFetcher.fetchManifestFromResource objYAMLBytes m =
          (Done (None, "", Some e), m2))) /\
  (forall objYAMLBytes (m m1 : Machine X BlobManifestFetcher.t),
     BlobManifestFetcher.resourceRefString (self m) <> "" ->
     Unmatched BlobManifestFetcher.fetchManifestInSingleConfigMap
       (blobFound X objYAMLBytes (self m))
       (SplitCommaSeparatedString X (BlobManifestFetcher.resourceRefString (self m))) m m1 ->
     BlobManifestFetcher.fetchManifestFromResource objYAMLBytes m =
       (Done (None, "",
              Some "failed to find a YAML manifest in the specified signature configmaps"),
        m1)).
Proof.
  split; [|split; [|split]].
  - intros obj m m1 pre ref post Href Hsplit Hpre. split.
    + intros c ms m2 Hf Hm.
      rewrite (image_Fetch_loop X obj m Href), Hsplit.
      erewrite loop_decided;
        [reflexivity | intros ? ? ? ?; apply image_body_skip | exact Hpre
        | eapply image_body_match; eassumption].
    + intros e m2 Hf.
      rewrite (image_Fetch_loop X obj m Href), Hsplit.
      erewrite loop_decided;
        [reflexivity | intros ? ? ? ?; apply image_body_skip | exact Hpre
        | apply image_body_error; exact Hf].
  - intros obj m m1 Href Hall.
    rewrite (image_Fetch_loop X obj m Href).
    erewrite loop_unmatched; [reflexivity | intros ? ? ? ?; apply image_body_skip | exact Hall].
  - intros obj m m1 pre ref post Href Hsplit Hpre. split.
    + intros c ms m2 Hf Hm.
      rewrite (blob_fetchManifestFromResource_loop X obj m Href), Hsplit.
      erewrite loop_decided;
        [reflexivity | intros ? ? ? ?; apply blob_body_skip | exact Hpre
        | eapply blob_body_match; eassumption].
    + intros e m2 Hf.
      rewrite (blob_fetchManifestFromResource_loop X obj m Href), Hsplit.
      erewrite loop_decided;
        [reflexivity | intros ? ? ? ?; apply blob_body_skip | exact Hpre
        | apply blob_body_error; exact Hf].
  - intros obj m m1 Href Hall.
    rewrite (blob_fetchManifestFromResource_loop X obj m Href).
    erewrite loop_unmatched; [reflexivity | intros ? ? ? ?; apply blob_body_skip | exact Hall].
Qed.

Lemma C3_fetch_fallback_witness :
  let f := ImageManifestFetcher.mk "other/img:v1,good/img:v1" Demo.cfg [] 0 true in
  let g := ImageManifestFetcher.mk "other/img:v1,bad/img:v1,good/img:v1" Demo.cfg [] 0 true in
  let b := BlobManifestFetcher.mk Demo.cfg
             "k8s://ConfigMap/ns1/other-cm,k8s://ConfigMap/ns1/sig-cm" [] 0 in
  fst (ImageManifestFetcher.Fetch Demo.objPlain (Demo.start f [])) =
    Done (Some [bytes_of_string "good/img:v1"], "good/img:v1", None) /\
  fst (ImageManifestFetcher.Fetch Demo.objPlain (Demo.start g [])) =
    Done (None, "", Some "failed to get YAMLs in the image: pull failed") /\
  BlobManifestFetcher.fetchManifestFromResource Demo.objPlain (Demo.start b []) =
    (Done (None, "",
           Some "failed to get a configmap: failed to get a configmap: configmaps not found"),
     Demo.machine b [] [CallGetResource "" "ConfigMap" "ns1" "other-cm"]).
Proof.
  intros f g b.
  pose (other := (ImageManifestFetcher.cacheKey "other/img:v1",
                  [VBytes (bytes_of_string "other/img:v1"); VNil])).
  pose (good := (ImageManifestFetcher.cacheKey "good/img:v1",
                 [VBytes (bytes_of_string "good/img:v1"); VNil])).
  pose (tr1 := [CallGetCache (fst other); CallPullImage "other/img:v1";
                CallSetCache (fst other) (snd other)]).
  pose (tr2 := (tr1 ++ [CallGetCache (fst good); CallPullImage "good/img:v1";
                        CallSetCache (fst good) (snd good)])%list).
  pose (tr3 := (tr1 ++ [CallGetCache (ImageManifestFetcher.cacheKey "bad/img:v1");
                        CallPullImage "bad/img:v1"])%list).
  destruct (C3_fetch_fallback Demo.X) as (Himage & _ & Hblob & _).
  split; [|split].
  - destruct (Himage Demo.objPlain (Demo.start f []) (Demo.machine f [other] tr1)
                ["other/img:v1"] "good/img:v1" []) as [Hmatch _].
    + vm_compute. discriminate.
    + vm_compute. reflexivity.
    + apply (Unmatched_cons _ _ "other/img:v1" [] (bytes_of_string "other/img:v1")
               _ (Demo.machine f [other] tr1)).
      * reflexivity.
      * vm_compute. reflexivity.
      * apply Unmatched_nil.
    + rewrite (Hmatch (bytes_of_string "good/img:v1") (Some [bytes_of_string "good/img:v1"])
                 (Demo.machine f [good; other] tr2)).
      * reflexivity.
      * reflexivity.
      * vm_compute. reflexivity.
  - destruct (Himage Demo.objPlain (Demo.start g []) (Demo.machine g [other] tr1)
                ["other/img:v1"] "bad/img:v1" ["good/img:v1"]) as [_ Herror].
    + vm_compute. discriminate.
    + vm_compute. reflexivity.
    + apply (Unmatched_cons _ _ "other/img:v1" [] (bytes_of_string "other/img:v1")
               _ (Demo.machine g [other] tr1)).
      * reflexivity.
      * vm_compute. reflexivity.
      * apply Unmatched_nil.
    + rewrite (Herror "failed to get YAMLs in the image: pull failed"
                 (Demo.machine g [other] tr3)).
      * reflexivity.
      * reflexivity.
  - destruct (Hblob Demo.objPlain (Demo.start b []) (Demo.start b [])
                [] "k8s://ConfigMap/ns1/other-cm" ["k8s://ConfigMap/ns1/sig-cm"])
      as [_ Herror].
    + vm_compute. discriminate.
    + vm_compute. reflexivity.
    + apply Unmatched_nil.
    + apply Herror. reflexivity.
Defined.

(** C3 as first stated fails: a reference whose retrieval fails ends the
    call with its own error, and the references after it are not tried, even
    one that would match; and when no reference matches, the error is a fixed
    text, not a join of reasons. *)
Lemma C3_counterexample :
  let f := ImageManifestFetcher.mk "bad/img:v1,good/img:v1" Demo.cfg [] 0 true in
  let only := ImageManifestFetcher.mk "good/img:v1" Demo.cfg [] 0 true in
  let h := ImageManifestFetcher.mk "other/img:v1,another/img:v1" Demo.cfg [] 0 true in
  let b := BlobManifestFetcher.mk Demo.cfg
             "k8s://ConfigMap/ns1/other-cm,k8s://ConfigMap/ns1/sig-cm" [] 0 in
  SplitCommaSeparatedString Demo.X "bad/img:v1,good/img:v1" = ["bad/img:v1"; "good/img:v1"] /\
  fst (ImageManifestFetcher.Fetch Demo.objPlain (Demo.start only [])) =
    Done (Some [bytes_of_string "good/img:v1"], "good/img:v1", None) /\
  fst (ImageManifestFetcher.Fetch Demo.objPlain (Demo.start f [])) =
    Done (None, "", Some "failed to get YAMLs in the image: pull failed") /\
  trace (snd (ImageManifestFetcher.Fetch Demo.objPlain (Demo.start f []))) =
    [CallGetCache "cache/fetch-manifest/bad/img:v1"; CallPullImage "bad/img:v1"] /\
  fst (ImageManifestFetcher.Fetch Demo.objPlain (Demo.start h [])) =
    Done (None, "", Some "failed to find a YAML manifest in the image") /\
  fst (BlobManifestFetcher.fetchManifestFromResource Demo.objPlain (Demo.start b [])) =
    Done (None, "",
          Some "failed to get a configmap: failed to get a configmap: configmaps not found") /\
  trace (snd (BlobManifestFetcher.fetchManifestFromResource Demo.objPlain (Demo.start b []))) =
    [CallGetResource "" "ConfigMap" "ns1" "other-cm"].
Proof.
  intros f only h b. repeat split; vm_compute; reflexivity.
Qed.

(** * Further properties of the code *)

(** ** NewSignatureVerifier *)

Lemma keptKeyPath_not_empty pubkeyPath : keptKeyPath pubkeyPath <> Some "".
Proof.
  destruct pubkeyPath as [p|]; simpl; [|discriminate].
  destruct (p =? "") eqn:E; simpl; [discriminate|].
  apply String.eqb_neq in E. congruence.
Qed.

Lemma NewSignatureVerifier_unfold X objYAMLBytes sigRef pubkeyPath annotationConfig :
  NewSignatureVerifier X objYAMLBytes sigRef pubkeyPath annotationConfig =
    let annotations := GetAnnotationsInYAML X objYAMLBytes in
    let explicit := if strings_HasPrefix sigRef InClusterObjectPrefix then "" else sigRef in
    let resourceRef := if strings_HasPrefix sigRef InClusterObjectPrefix then sigRef else "" in
    let imageRef :=
      if explicit =? "" then annotations !!!! ImageRefAnnotationKey annotationConfig
      else explicit in
    if negb (imageRef =? "") && negb (imageRef =? SigRefEmbeddedInAnnotation) then
      ImageVerifier
        (ImageSignatureVerifier.mk imageRef (keptKeyPath pubkeyPath) true annotationConfig)
    else
      BlobVerifier
        (BlobSignatureVerifier.mk annotations resourceRef (keptKeyPath pubkeyPath)
           annotationConfig).
Proof.
  unfold NewSignatureVerifier, lookup_or_zero. cbv zeta.
  destruct (strings_HasPrefix sigRef InClusterObjectPrefix); simpl.
  - destruct (GetAnnotationsInYAML X objYAMLBytes !! _); reflexivity.
  - destruct (sigRef =? "") eqn:E; simpl.
    + apply String.eqb_eq in E. subst sigRef.
      destruct (GetAnnotationsInYAML X objYAMLBytes !! _); reflexivity.
    + rewrite !E. reflexivity.
Qed.

(** X1: an explicit reference that is not empty, does not begin with the
    in-cluster resource prefix and is not the embedded sentinel gives an
    image-path verifier bound to that reference, with caching on, whatever
    the object's annotations say. *)
Theorem X1_explicit_image_reference_wins (X : Externals) (objYAMLBytes : bytes)
    (sigRef : string) (pubkeyPath : option string) (annotationConfig : AnnotationConfig) :
  sigRef <> "" ->
  strings_HasPrefix sigRef InClusterObjectPrefix = false ->
  sigRef <> SigRefEmbeddedInAnnotation ->
  NewSignatureVerifier X objYAMLBytes sigRef pubkeyPath annotationConfig =
    ImageVerifier
      (ImageSignatureVerifier.mk sigRef (keptKeyPath pubkeyPath) true annotationConfig).
Proof.
  intros Hne Hp Hs. rewrite NewSignatureVerifier_unfold. cbv zeta. rewrite Hp.
  apply String.eqb_neq in Hne, Hs. cbv iota. rewrite !Hne. cbv iota.
  rewrite Hs. reflexivity.
Qed.

Lemma X1_explicit_image_reference_wins_witness :
  NewSignatureVerifier Demo.X Demo.objWithImageRef "other/app:v2" (Some "k1") Demo.cfg =
    ImageVerifier (ImageSignatureVerifier.mk "other/app:v2" (Some "k1") true Demo.cfg).
Proof.
  apply (X1_explicit_image_reference_wins Demo.X Demo.objWithImageRef "other/app:v2"
           (Some "k1") Demo.cfg); [discriminate | reflexivity | discriminate].
Defined.

(** X2: with no explicit reference, the image-reference annotation decides:
    a value that is neither empty nor the sentinel gives an image-path
    verifier bound to it; no annotation, an empty one or the sentinel gives a
    blob-path verifier with an empty resource reference. *)
Theorem X2_annotation_decides_without_reference (X : Externals) (objYAMLBytes : bytes)
    (pubkeyPath : option string) (annotationConfig : AnnotationConfig) :
  let annotations := GetAnnotationsInYAML X objYAMLBytes in
  let annotated := annotations !! ImageRefAnnotationKey annotationConfig in
  (forall annoImageRef,
     annotated = Some annoImageRef ->
     annoImageRef <> "" -> annoImageRef <> SigRefEmbeddedInAnnotation ->
     NewSignatureVerifier X objYAMLBytes "" pubkeyPath annotationConfig =
       ImageVerifier
         (ImageSignatureVerifier.mk annoImageRef (keptKeyPath pubkeyPath) true
            annotationConfig)) /\
  (annotated = None \/ annotated = Some "" \/ annotated = Some SigRefEmbeddedInAnnotation ->
   NewSignatureVerifier X objYAMLBytes "" pubkeyPath annotationConfig =
     BlobVerifier
       (BlobSignatureVerifier.mk annotations "" (keptKeyPath pubkeyPath) annotationConfig)).
Proof.
  intros annotations annotated.
  pose proof (NewSignatureVerifier_unfold X objYAMLBytes "" pubkeyPath annotationConfig) as E.
  cbv zeta in E. unfold lookup_or_zero in E. simpl in E.
  fold annotations in E. fold annotated in E.
  split.
  - intros a Ha Hne Hs. rewrite E, Ha. simpl.
    apply String.eqb_neq in Hne, Hs. now rewrite Hne, Hs.
  - intros [H | [H | H]]; rewrite E, H; reflexivity.
Qed.

Lemma X2_annotation_decides_without_reference_witness :
  NewSignatureVerifier Demo.X Demo.objWithImageRef "" None Demo.cfg =
    ImageVerifier (ImageSignatureVerifier.mk "repo/app:v1" None true Demo.cfg) /\
  NewSignatureVerifier Demo.X Demo.objPlain "" None Demo.cfg =
    BlobVerifier (BlobSignatureVerifier.mk ∅ "" None Demo.cfg).
Proof.
  split.
  - apply (X2_annotation_decides_without_reference Demo.X Demo.objWithImageRef None Demo.cfg);
      [reflexivity | discriminate | discriminate].
  - apply (X2_annotation_decides_without_reference Demo.X Demo.objPlain None Demo.cfg).
    left. reflexivity.
Defined.

(** X3: what the factory never builds.  An image-path verifier always has an
    image reference that is neither empty nor the sentinel, taken from the
    explicit reference or from the annotation, and caching on; a blob-path
    verifier always carries the object's annotations and a resource reference
    that is empty or the explicit reference; neither keeps an empty key
    path. *)
Theorem X3_factory_invariants (X : Externals) (objYAMLBytes : bytes) (sigRef : string)
    (pubkeyPath : option string) (annotationConfig : AnnotationConfig) :
  match NewSignatureVerifier X objYAMLBytes sigRef pubkeyPath annotationConfig with
  | ImageVerifier v =>
      ImageSignatureVerifier.imageRef v <> "" /\
      ImageSignatureVerifier.imageRef v <> SigRefEmbeddedInAnnotation /\
      (ImageSignatureVerifier.imageRef v = sigRef \/
       GetAnnotationsInYAML X objYAMLBytes !! ImageRefAnnotationKey annotationConfig
         = Some (ImageSignatureVerifier.imageRef v)) /\
      ImageSignatureVerifier.onMemoryCacheEnabled v = true /\
      ImageSignatureVerifier.pubkeyPathString v <> Some ""
  | BlobVerifier v =>
      BlobSignatureVerifier.annotations v = GetAnnotationsInYAML X objYAMLBytes /\
      (BlobSignatureVerifier.resourceRef v = "" \/
       BlobSignatureVerifier.resourceRef v = sigRef /\
       strings_HasPrefix sigRef InClusterObjectPrefix = true) /\
      BlobSignatureVerifier.pubkeyPathString v <> Some ""
  end.
Proof.
  rewrite NewSignatureVerifier_unfold. cbv zeta.
  match goal with |- context [negb (?i =? "") && _] => set (imageRef := i) end.
  destruct (imageRef =? "") eqn:E1; simpl.
  { split; [reflexivity|]. split; [|apply keptKeyPath_not_empty].
    destruct (strings_HasPrefix sigRef InClusterObjectPrefix); auto. }
  destruct (imageRef =? SigRefEmbeddedInAnnotation) eqn:E2; simpl.
  { split; [reflexivity|]. split; [|apply keptKeyPath_not_empty].
    destruct (strings_HasPrefix sigRef InClusterObjectPrefix); auto. }
  apply String.eqb_neq in E1, E2.
  split; [exact E1|]. split; [exact E2|].
  split; [|split; [reflexivity|apply keptKeyPath_not_empty]].
  subst imageRef. unfold lookup_or_zero in *.
  destruct ((if strings_HasPrefix sigRef InClusterObjectPrefix then "" else sigRef) =? "")
    eqn:E3.
  - right. destruct (GetAnnotationsInYAML X objYAMLBytes !! _) as [a|]; [reflexivity|].
    now elim E1.
  - left. destruct (strings_HasPrefix sigRef InClusterObjectPrefix); [discriminate|reflexivity].
Qed.

(** ** No image reference *)

(** X4: without an image reference nothing is attempted.  [Verify] on a
    verifier whose image reference is empty, and [Fetch] on a fetcher that
    has none and finds none (or an empty one) in the object's annotation,
    return the error "no image reference is found" and call no collaborator:
    the cache and the trace are as before. *)
Theorem X4_no_image_reference (X : Externals) :
  (forall m : Machine X ImageSignatureVerifier.t,
     ImageSignatureVerifier.imageRef (self m) = "" ->
     ImageSignatureVerifier.Verify m =
       (Done (false, "", None, Some "no image reference is found"), m)) /\
  (forall objYAMLBytes (m : Machine X ImageManifestFetcher.t),
     resolvedImageRef X (self m) objYAMLBytes = "" ->
     ImageManifestFetcher.Fetch objYAMLBytes m =
       (Done (None, "", Some "no image reference is found"), m)).
Proof.
  split.
  - intros m H. unfold ImageSignatureVerifier.Verify, bind, getSelf. now rewrite H.
  - intros obj m H. unfold ImageManifestFetcher.Fetch, bind, getSelf.
    unfold resolvedImageRef, lookup_or_zero in H.
    destruct (ImageManifestFetcher.imageRefString (self m) =? "") eqn:E.
    + destruct (GetAnnotationsInYAML X obj !! _) as [a|]; simpl in H; subst;
        rewrite ?E; reflexivity.
    + rewrite H in E. discriminate.
Qed.

Lemma X4_no_image_reference_witness :
  ImageSignatureVerifier.Verify
    (Demo.start (ImageSignatureVerifier.mk "" (Some "k2") true Demo.cfg) []) =
    (Done (false, "", None, Some "no image reference is found"),
     Demo.start (ImageSignatureVerifier.mk "" (Some "k2") true Demo.cfg) []) /\
  ImageManifestFetcher.Fetch Demo.objPlain
    (Demo.start (ImageManifestFetcher.mk "" Demo.cfg [] 0 true) []) =
    (Done (None, "", Some "no image reference is found"),
     Demo.start (ImageManifestFetcher.mk "" Demo.cfg [] 0 true) []).
Proof.
  destruct (X4_no_image_reference Demo.X) as [Hv Hf].
  split; [apply Hv | apply Hf]; reflexivity.
Defined.

(** ** Cache keys and cache round trips *)

Lemma append_inv_head (s a b : string) : s +:+ a = s +:+ b -> a = b.
Proof.
  induction s as [|c s IH]; cbn [String.append]; intros H; [exact H|].
  injection H as H. exact (IH H).
Qed.

Lemma append_assoc (a b c : string) : (a +:+ b) +:+ c = a +:+ (b +:+ c).
Proof.
  induction a as [|x a IH]; [reflexivity|].
  change (String x ((a +:+ b) +:+ c) = String x (a +:+ (b +:+ c))). now rewrite IH.
Qed.

(** X5: for one image, different keys address different cache entries; but
    the cache key does not separate the image from the key: an image
    reference and a key that meet at a slash share their entry with another
    pair. *)
Theorem X5_cache_key_separation :
  (forall imageRef pubkey pubkey',
     ImageSignatureVerifier.cacheKey imageRef pubkey =
       ImageSignatureVerifier.cacheKey imageRef pubkey' -> pubkey = pubkey') /\
  (forall imageRef imageRef',
     ImageManifestFetcher.cacheKey imageRef = ImageManifestFetcher.cacheKey imageRef' ->
     imageRef = imageRef') /\
  (forall imageRef part pubkey,
     ImageSignatureVerifier.cacheKey (imageRef +:+ "/" +:+ part) pubkey =
       ImageSignatureVerifier.cacheKey imageRef (part +:+ "/" +:+ pubkey)).
Proof.
  split; [|split].
  - intros r k k' H. unfold ImageSignatureVerifier.cacheKey in H.
    now repeat apply append_inv_head in H.
  - intros r r' H. unfold ImageManifestFetcher.cacheKey in H.
    now apply append_inv_head in H.
  - intros r p k. unfold ImageSignatureVerifier.cacheKey.
    rewrite !append_assoc. reflexivity.
Qed.

Lemma X5_cache_key_separation_witness :
  "k1" = "k1" /\
  ImageSignatureVerifier.cacheKey "repo/app" "k1" =
    ImageSignatureVerifier.cacheKey "repo" "app/k1".
Proof.
  destruct X5_cache_key_separation as (Hinj & _ & Hmeet). split.
  - apply (Hinj "repo/app:v1" "k1" "k1"). reflexivity.
  - apply (Hmeet "repo" "app" "k1").
Defined.

Lemma decodeResult_verifyTuple out :
  ImageSignatureVerifier.decodeResult (Ok (verifyTuple out)) =
    Done (true, fst (fst (fst out)), snd (fst (fst out)), snd (fst out), snd out).
Proof. destruct out as [[[verified signerName] ts] [e|]]; reflexivity. Qed.

(** X6: what [setResultToCache] writes, [getResultFromCache] reads back.  On
    a cache that returns what was last set under a key, a result written for
    an image and a key is read as found, with the same verified flag, signer,
    timestamp and error; the read does not panic. *)
Theorem X6_verify_result_round_trip (X : Externals)
    (m : Machine X ImageSignatureVerifier.t) (imageRef pubkey : string)
    (verified : bool) (signerName : string) (signedTimestamp : option Z)
    (err : option error) :
  (forall c key values, GetCache X (fst (SetCache X c key values)) key = Ok values) ->
  fst (ImageSignatureVerifier.getResultFromCache imageRef pubkey
         (snd (ImageSignatureVerifier.setResultToCache imageRef pubkey verified signerName
                 signedTimestamp err m))) =
    Done (true, verified, signerName, signedTimestamp, err).
Proof.
  intros Hlaw. rewrite getResultFromCache_eq. cbn [fst].
  unfold ImageSignatureVerifier.setResultToCache, bind, callSetCache, ret, cachedVerify.
  destruct (SetCache X (cache m) _ _) as [c' setErr] eqn:E. cbn [snd cache].
  replace c' with (fst (SetCache X (cache m)
                          (ImageSignatureVerifier.cacheKey imageRef pubkey)
                          (verifyTuple (verified, signerName, signedTimestamp, err))))
    by (unfold verifyTuple; now rewrite E).
  rewrite Hlaw. apply decodeResult_verifyTuple.
Qed.

Lemma Demo_lawful : LawfulCache Demo.X.
Proof.
  split.
  - intros c key values. simpl. now rewrite String.eqb_refl.
  - intros c key values key' Hne. simpl.
    apply not_eq_sym, String.eqb_neq in Hne. now rewrite Hne.
Qed.

Lemma X6_verify_result_round_trip_witness :
  fst (ImageSignatureVerifier.getResultFromCache "repo/app:v1" "k1"
         (snd (ImageSignatureVerifier.setResultToCache "repo/app:v1" "k1" false "" None
                 (Some "no matching signatures: k1")
                 (Demo.start (Demo.imageVerifier "k1") [])))) =
    Done (true, false, "", None, Some "no matching signatures: k1").
Proof.
  apply (X6_verify_result_round_trip Demo.X (Demo.start (Demo.imageVerifier "k1") [])).
  apply Demo_lawful.
Defined.

(** X7: what [setManifestToCache] writes, [getManifestFromCache] reads back:
    on a cache that returns what was last set under a key, the manifests
    stored for an image are read as found, byte for byte, with the stored
    error. *)
Theorem X7_manifest_round_trip (X : Externals) (m : Machine X ImageManifestFetcher.t)
    (imageRef : string) (concatYAMLbytes : bytes) (err : option error) :
  (forall c key values, GetCache X (fst (SetCache X c key values)) key = Ok values) ->
  fst (ImageManifestFetcher.getManifestFromCache imageRef
         (snd (ImageManifestFetcher.setManifestToCache imageRef concatYAMLbytes err m))) =
    Done (true, concatYAMLbytes, err).
Proof.
  intros Hlaw.
  unfold ImageManifestFetcher.getManifestFromCache, ImageManifestFetcher.setManifestToCache,
    bind, callSetCache, callGetCache, ret, lift.
  destruct (SetCache X (cache m) _ _) as [c' setErr] eqn:E. cbn [snd fst cache].
  replace c' with (fst (SetCache X (cache m) (ImageManifestFetcher.cacheKey imageRef)
                          [VBytes concatYAMLbytes; value_of_error err]))
    by now rewrite E.
  rewrite Hlaw. destruct err; reflexivity.
Qed.

Lemma X7_manifest_round_trip_witness :
  fst (ImageManifestFetcher.getManifestFromCache "good/img:v1"
         (snd (ImageManifestFetcher.setManifestToCache "good/img:v1"
                 (bytes_of_string "kind: Deployment") None
                 (Demo.start (ImageManifestFetcher.mk "good/img:v1" Demo.cfg [] 0 true) [])))) =
    Done (true, bytes_of_string "kind: Deployment", None).
Proof.
  apply (X7_manifest_round_trip Demo.X
           (Demo.start (ImageManifestFetcher.mk "good/img:v1" Demo.cfg [] 0 true) [])).
  apply Demo_lawful.
Defined.

(** ** Memoization *)

Section Memo.
Context (X : Externals).
Hypothesis lawful : LawfulCache X.

Lemma cacheKey_ne imageRef q p :
  q <> p -> ImageSignatureVerifier.cacheKey imageRef q <> ImageSignatureVerifier.cacheKey imageRef p.
Proof.
  intros Hne H. apply Hne. unfold ImageSignatureVerifier.cacheKey in H.
  now repeat apply append_inv_head in H.
Qed.

Lemma replay_live_other imageRef q : forall pubkeys (c : Cache X),
  q ∉ attempted X imageRef pubkeys ->
  GetCache X (replay X (liveEvents X true imageRef pubkeys) c)
    (ImageSignatureVerifier.cacheKey imageRef q) =
  GetCache X c (ImageSignatureVerifier.cacheKey imageRef q).
Proof.
  destruct lawful as [_ Hother].
  induction pubkeys as [|p ps IH]; intros c Hq; [reflexivity|].
  simpl in Hq. apply not_elem_of_cons in Hq as [Hne Hq]. simpl.
  destruct (fst (fst (fst (cosign_VerifyImage X imageRef p)))); simpl.
  - apply Hother. now apply cacheKey_ne.
  - rewrite IH by exact Hq. apply Hother. now apply cacheKey_ne.
Qed.

Lemma replay_live_written imageRef q : forall pubkeys (c : Cache X),
  q ∈ attempted X imageRef pubkeys ->
  GetCache X (replay X (liveEvents X true imageRef pubkeys) c)
    (ImageSignatureVerifier.cacheKey imageRef q) =
  Ok (verifyTuple (cosign_VerifyImage X imageRef q)).
Proof.
  destruct lawful as [Hsame _].
  induction pubkeys as [|p ps IH]; intros c Hq; [now apply elem_of_nil in Hq|].
  simpl in Hq. apply elem_of_cons in Hq. simpl.
  destruct (fst (fst (fst (cosign_VerifyImage X imageRef p)))) eqn:Ev; simpl.
  - destruct Hq as [-> | Hq]; [apply Hsame | now apply elem_of_nil in Hq].
  - destruct (decide (q ∈ attempted X imageRef ps)) as [Hin | Hnot].
    + now apply IH.
    + destruct Hq as [-> | Hq]; [|contradiction].
      rewrite (replay_live_other imageRef p ps _ Hnot). apply Hsame.
Qed.

Lemma attempted_until imageRef pre pubkey post :
  Forall (LiveFails X imageRef) pre ->
  fst (fst (fst (cosign_VerifyImage X imageRef pubkey))) = true ->
  attempted X imageRef (pre ++ pubkey :: post) = (pre ++ [pubkey])%list.
Proof.
  intros Hpre Hk. induction Hpre as [|p ps Hf _ IH]; simpl.
  - now rewrite Hk.
  - unfold LiveFails in Hf. now rewrite Hf, IH.
Qed.

Lemma attempted_all imageRef pubkeys :
  Forall (LiveFails X imageRef) pubkeys -> attempted X imageRef pubkeys = pubkeys.
Proof.
  induction 1 as [|p ps Hf _ IH]; [reflexivity|]. simpl.
  unfold LiveFails in Hf. now rewrite Hf, IH.
Qed.

Lemma cached_after_live imageRef pubkeys (c : Cache X) q :
  q ∈ attempted X imageRef pubkeys ->
  cachedVerify X (replay X (liveEvents X true imageRef pubkeys) c) imageRef q =
    let out := cosign_VerifyImage X imageRef q in
    Done (true, fst (fst (fst out)), snd (fst (fst out)), snd (fst out), snd out).
Proof.
  intros Hq. unfold cachedVerify. rewrite (replay_live_written imageRef q pubkeys c Hq).
  apply decodeResult_verifyTuple.
Qed.

Lemma Verify_live_cached_machine (m : Machine X ImageSignatureVerifier.t) :
  ImageSignatureVerifier.imageRef (self m) <> "" ->
  ImageSignatureVerifier.onMemoryCacheEnabled (self m) = true ->
  LiveReached X (self m) (cache m)
    (ImageSignatureVerifier.pubkeysOf (X := X)
       (ImageSignatureVerifier.pubkeyPathString (self m))) ->
  let imageRef := ImageSignatureVerifier.imageRef (self m) in
  let pubkeys := ImageSignatureVerifier.pubkeysOf (X := X)
                   (ImageSignatureVerifier.pubkeyPathString (self m)) in
  ImageSignatureVerifier.Verify m =
    (Done (liveOutcome X imageRef pubkeys),
     mkMachine (self m) (replay X (liveEvents X true imageRef pubkeys) (cache m))
       (trace m ++ cacheReads imageRef pubkeys ++ liveEvents X true imageRef pubkeys)).
Proof.
  intros Href Hon Hreached. cbv zeta.
  pose proof (Verify_live X m Href Hreached) as H. cbv zeta in H.
  rewrite Hon in H. rewrite H. unfold liveRun.
  now rewrite replay_app, replay_cacheReads.
Qed.
End Memo.

(** X8: a verified result is memoized.  On a cache that keeps what it is
    given, with caching on, after a [Verify] that reached live verification
    and found a key that verifies, a second [Verify] on the same verifier
    returns the same result from the cache: it makes the cache reads up to
    that key and nothing else, no live verification and no write. *)
Theorem X8_verified_result_is_memoized (X : Externals)
    (m : Machine X ImageSignatureVerifier.t) (pre : list string) (pubkey : string)
    (post : list string) :
  let v := self m in
  let imageRef := ImageSignatureVerifier.imageRef v in
  let pubkeys := ImageSignatureVerifier.pubkeysOf (X := X)
                   (ImageSignatureVerifier.pubkeyPathString v) in
  LawfulCache X ->
  imageRef <> "" ->
  ImageSignatureVerifier.onMemoryCacheEnabled v = true ->
  pubkeys = (pre ++ pubkey :: post)%list ->
  Forall (LiveFails X imageRef) pre ->
  fst (fst (fst (cosign_VerifyImage X imageRef pubkey))) = true ->
  LiveReached X v (cache m) pubkeys ->
  let m' := snd (ImageSignatureVerifier.Verify m) in
  ImageSignatureVerifier.Verify m' =
    (fst (ImageSignatureVerifier.Verify m),
     mkMachine (self m') (cache m') (trace m' ++ cacheReads imageRef (pre ++ [pubkey]))).
Proof.
  cbv zeta. intros Hlaw Href Hon Hkeys Hpre Hk Hreached.
  rewrite (Verify_live_cached_machine X m Href Hon Hreached). cbn [fst snd self cache trace].
  set (imageRef := ImageSignatureVerifier.imageRef (self m)) in *.
  set (pubkeys := ImageSignatureVerifier.pubkeysOf
                    (ImageSignatureVerifier.pubkeyPathString (self m))) in *.
  set (c' := replay X (liveEvents X true imageRef pubkeys) (cache m)).
  assert (Hatt : attempted X imageRef pubkeys = (pre ++ [pubkey])%list)
    by (rewrite Hkeys; now apply attempted_until).
  assert (Hcached : forall q, q ∈ (pre ++ [pubkey])%list ->
            cachedVerify X c' imageRef q =
              Done (true, fst (fst (fst (cosign_VerifyImage X imageRef q))),
                    snd (fst (fst (cosign_VerifyImage X imageRef q))),
                    snd (fst (cosign_VerifyImage X imageRef q)),
                    snd (cosign_VerifyImage X imageRef q))).
  { intros q Hq. apply (cached_after_live X Hlaw). now rewrite Hatt. }
  assert (Hfs : firstSuccess X imageRef pubkeys = Some (cosign_VerifyImage X imageRef pubkey))
    by (rewrite Hkeys; now apply firstSuccess_at).
  unfold liveOutcome. rewrite Hfs.
  destruct (cosign_VerifyImage X imageRef pubkey) as [[[verified s] t] e] eqn:Eout.
  simpl in Hk. subst verified.
  apply (Verify_cache_hit X
           (mkMachine (self m) c'
              (trace m ++ cacheReads imageRef pubkeys ++ liveEvents X true imageRef pubkeys))
           pre pubkey post s t e).
  - exact Href.
  - exact Hon.
  - exact Hkeys.
  - cbn [cache self]. apply Forall_forall. intros q Hq.
    exists (snd (cosign_VerifyImage X imageRef q)). left.
    exists (snd (fst (fst (cosign_VerifyImage X imageRef q)))),
           (snd (fst (cosign_VerifyImage X imageRef q))).
    unfold CacheHit. fold imageRef. rewrite Hcached by (apply elem_of_app; now left).
    rewrite Forall_forall in Hpre. now rewrite (Hpre q Hq).
  - cbn [cache self]. unfold CacheHit. fold imageRef.
    rewrite Hcached by (apply elem_of_app; right; constructor).
    now rewrite Eout.
Qed.

Lemma X8_verified_result_is_memoized_witness :
  let m' := snd (ImageSignatureVerifier.Verify (Demo.start (Demo.imageVerifier "k1,k2") [])) in
  fst (ImageSignatureVerifier.Verify m') =
    Done (true, "signer@example.com", Some 1700000000%Z, None) /\
  verifyCalls (trace (snd (ImageSignatureVerifier.Verify m'))) =
    verifyCalls (trace m').
Proof.
  intros m'.
  pose proof (X8_verified_result_is_memoized Demo.X
                (Demo.start (Demo.imageVerifier "k1,k2") []) ["k1"] "k2" []) as H.
  cbv zeta in H. fold m' in H. rewrite H.
  - split; [reflexivity|]. cbn [snd trace].
    now rewrite verifyCalls_app, verifyCalls_cacheReads, app_nil_r.
  - apply Demo_lawful.
  - discriminate.
  - reflexivity.
  - reflexivity.
  - constructor; [reflexivity|constructor].
  - reflexivity.
  - right. split.
    + constructor; [|constructor; [|constructor]]; exists None; right; reflexivity.
    + apply Exists_cons_hd. exists None. reflexivity.
Defined.

Lemma omap_ext_in {A B} (f g : A -> option B) (l : list A) :
  (forall x, x ∈ l -> f x = g x) -> omap f l = omap g l.
Proof.
  induction l as [|x l IH]; intros H; [reflexivity|].
  rewrite (omap_cons_app f), (omap_cons_app g).
  rewrite IH by (intros y Hy; apply H; now constructor).
  f_equal. simpl. now rewrite (H x) by constructor.
Qed.

(** X9: a failure is memoized too.  On a cache that keeps what it is given,
    with caching on, after a [Verify] that verified every key live and saw
    them all fail, a second [Verify] on the same verifier returns the same
    failure, with the same text, from the cache: it reads every key once and
    verifies none. *)
Theorem X9_failure_is_memoized (X : Externals) (m : Machine X ImageSignatureVerifier.t) :
  let v := self m in
  let imageRef := ImageSignatureVerifier.imageRef v in
  let pubkeys := ImageSignatureVerifier.pubkeysOf (X := X)
                   (ImageSignatureVerifier.pubkeyPathString v) in
  LawfulCache X ->
  imageRef <> "" ->
  ImageSignatureVerifier.onMemoryCacheEnabled v = true ->
  Forall (LiveFails X imageRef) pubkeys ->
  LiveReached X v (cache m) pubkeys ->
  let m' := snd (ImageSignatureVerifier.Verify m) in
  ImageSignatureVerifier.Verify m' =
    (fst (ImageSignatureVerifier.Verify m),
     mkMachine (self m') (cache m') (trace m' ++ cacheReads imageRef pubkeys)).
Proof.
  cbv zeta. intros Hlaw Href Hon Hfail Hreached.
  rewrite (Verify_live_cached_machine X m Href Hon Hreached). cbn [fst snd self cache trace].
  set (imageRef := ImageSignatureVerifier.imageRef (self m)) in *.
  set (pubkeys := ImageSignatureVerifier.pubkeysOf
                    (ImageSignatureVerifier.pubkeyPathString (self m))) in *.
  set (c' := replay X (liveEvents X true imageRef pubkeys) (cache m)).
  assert (Hcached : forall q, q ∈ pubkeys ->
            cachedVerify X c' imageRef q =
              Done (true, false,
                    snd (fst (fst (cosign_VerifyImage X imageRef q))),
                    snd (fst (cosign_VerifyImage X imageRef q)),
                    snd (cosign_VerifyImage X imageRef q))).
  { intros q Hq. unfold c'. rewrite (cached_after_live X Hlaw).
    - cbv zeta. rewrite Forall_forall in Hfail. now rewrite (Hfail q Hq).
    - now rewrite (attempted_all X imageRef pubkeys Hfail). }
  pose proof (Verify_all_cached X
                (mkMachine (self m) c'
                   (trace m ++ cacheReads imageRef pubkeys
                      ++ liveEvents X true imageRef pubkeys))) as H.
  cbv zeta in H. cbn [self cache trace] in H. rewrite H; clear H.
  - unfold liveOutcome. rewrite (firstSuccess_none X imageRef pubkeys Hfail).
    unfold failureReasons. fold imageRef. fold pubkeys.
    rewrite (omap_ext_in (cachedError X c' imageRef)
               (fun pubkey => snd (cosign_VerifyImage X imageRef pubkey)) pubkeys);
      [reflexivity|].
    intros q Hq. unfold cachedError. now rewrite (Hcached q Hq).
  - exact Href.
  - exact Hon.
  - apply Forall_forall. intros q Hq.
    exists (snd (cosign_VerifyImage X imageRef q)),
           (snd (fst (fst (cosign_VerifyImage X imageRef q)))),
           (snd (fst (cosign_VerifyImage X imageRef q))).
    exact (Hcached q Hq).
Qed.

Lemma X9_failure_is_memoized_witness :
  let m' := snd (ImageSignatureVerifier.Verify (Demo.start (Demo.imageVerifier "k1,k3") [])) in
  fst (ImageSignatureVerifier.Verify m') =
    Done (false, "", None,
          Some "signature verification failed: no matching signatures: k1; no matching signatures: k3") /\
  verifyCalls (trace (snd (ImageSignatureVerifier.Verify m'))) =
    verifyCalls (trace m').
Proof.
  intros m'.
  pose proof (X9_failure_is_memoized Demo.X (Demo.start (Demo.imageVerifier "k1,k3") [])) as H.
  cbv zeta in H. fold m' in H. rewrite H.
  - split; [vm_compute; reflexivity|]. cbn [snd trace].
    now rewrite verifyCalls_app, verifyCalls_cacheReads, app_nil_r.
  - apply Demo_lawful.
  - discriminate.
  - reflexivity.
  - constructor; [|constructor; [|constructor]]; reflexivity.
  - right. split.
    + constructor; [|constructor; [|constructor]]; exists None; right; reflexivity.
    + apply Exists_cons_hd. exists None. reflexivity.
Defined.

(** ** What Verify can return *)

Lemma forRange_returned {X : Externals} {S A L R : Type}
    (body : A -> L -> M X S (L + R)) (P : A -> R -> Prop) :
  (forall x l m v m', body x l m = (Done (inr v), m') -> P x v) ->
  forall xs l m v m',
    forRange xs body l m = (Done (inr v), m') -> exists x, x ∈ xs /\ P x v.
Proof.
  intros Hbody. induction xs as [|x xs IH]; intros l m v m' H; [discriminate|].
  simpl in H. unfold bind in H at 1.
  destruct (body x l m) as [[[l'|v0]|msg] m1] eqn:E.
  - destruct (IH _ _ _ _ H) as (y & Hy & HP). exists y. split; [now constructor|exact HP].
  - unfold ret in H. injection H as <- <-. exists x. split; [constructor|].
    exact (Hbody _ _ _ _ _ E).
  - discriminate.
Qed.

Lemma cacheLoopBody_returns_verified X imageRef pubkey locals
    (m m' : Machine X ImageSignatureVerifier.t) out :
  ImageSignatureVerifier.cacheLoopBody imageRef pubkey locals m = (Done (inr out), m') ->
  fst (fst (fst out)) = true.
Proof.
  destruct locals as [[v n] errs].
  unfold ImageSignatureVerifier.cacheLoopBody, bind. rewrite getResultFromCache_eq.
  destruct (cachedVerify X (cache m) imageRef pubkey)
    as [[[[[cacheFound verified] signerName] ts] err]|msg]; [|discriminate].
  destruct cacheFound, verified; simpl; unfold ret; intros H; try discriminate.
  now injection H as <- _.
Qed.

Lemma liveLoopBody_returns_verified X imageRef pubkey allErrs
    (m m' : Machine X ImageSignatureVerifier.t) out :
  ImageSignatureVerifier.liveLoopBody imageRef pubkey allErrs m = (Done (inr out), m') ->
  fst (fst (fst out)) = true.
Proof.
  pose proof (liveLoopBody_eq X imageRef pubkey allErrs m) as H. cbv zeta in H.
  rewrite H. destruct (fst (fst (fst (cosign_VerifyImage X imageRef pubkey)))) eqn:E;
    intros H'; [|discriminate].
  injection H' as <- _. exact E.
Qed.

(** X10: [Verify] never reports an unverified result without saying why.
    Whatever the cache holds and whatever the dispatcher answers, a result
    with [verified = false] has an empty signer, no timestamp and an error. *)
Theorem X10_unverified_result_carries_an_error (X : Externals)
    (m : Machine X ImageSignatureVerifier.t)
    (signerName : string) (signedTimestamp : option Z) (err : option error) :
  fst (ImageSignatureVerifier.Verify m) = Done (false, signerName, signedTimestamp, err) ->
  signerName = "" /\ signedTimestamp = None /\ err <> None.
Proof.
  unfold ImageSignatureVerifier.Verify, bind at 1, getSelf.
  destruct (ImageSignatureVerifier.imageRef (self m) =? "").
  { simpl. intros H. injection H as <- <- <-. repeat split; discriminate. }
  set (imageRef := ImageSignatureVerifier.imageRef (self m)).
  set (pubkeys := ImageSignatureVerifier.pubkeysOf _).
  assert (Hlive : forall m0,
            fst (bind (forRange pubkeys (ImageSignatureVerifier.liveLoopBody imageRef) [])
                   (fun r : list string + VerifyReturn =>
                      match r with
                      | inr out => ret (X := X) (S := ImageSignatureVerifier.t) out
                      | inl allErrs => ret (ImageSignatureVerifier.failed allErrs)
                      end) m0) = Done (false, signerName, signedTimestamp, err) ->
            signerName = "" /\ signedTimestamp = None /\ err <> None).
  { intros m0. unfold bind.
    destruct (forRange pubkeys _ [] m0) as [[[allErrs|out]|msg] m1] eqn:E; simpl;
      intros H; try discriminate.
    - injection H as <- <- <-. repeat split; discriminate.
    - destruct (forRange_returned _ (fun _ out => fst (fst (fst out)) = true)
                  (fun x l m v m' => liveLoopBody_returns_verified X imageRef x l m m' v)
                  _ _ _ _ _ E) as (_ & _ & Hv).
      injection H as ->. discriminate. }
  destruct (ImageSignatureVerifier.onMemoryCacheEnabled (self m)).
  - unfold bind at 1. unfold bind at 1.
    destruct (forRange pubkeys _ _ m) as [[[[[verified n] errs]|out]|msg] m1] eqn:E;
      cbn [ret fst snd]; try (intros H; discriminate H).
    + destruct (negb verified && Nat.eqb n (length pubkeys)); unfold ret at 1.
      * simpl. intros H. injection H as <- <- <-. repeat split; discriminate.
      * apply Hlive.
    + unfold ret. simpl.
      destruct (forRange_returned _ (fun _ out => fst (fst (fst out)) = true)
                  (fun x l m v m' => cacheLoopBody_returns_verified X imageRef x l m m' v)
                  _ _ _ _ _ E) as (_ & _ & Hv).
      intros H. injection H as ->. discriminate.
  - unfold bind at 1, ret at 1. apply Hlive.
Qed.

Lemma X10_unverified_result_carries_an_error_witness :
  exists err,
    fst (ImageSignatureVerifier.Verify (Demo.start (Demo.imageVerifier "k1") [])) =
      Done (false, "", None, err) /\ err <> None.
Proof.
  exists (Some "signature verification failed: no matching signatures: k1").
  split; [vm_compute; reflexivity|].
  apply (X10_unverified_result_carries_an_error Demo.X
           (Demo.start (Demo.imageVerifier "k1") []) "" None).
  vm_compute. reflexivity.
Defined.

(** ** Verify without the cache, and with a cache entry of the wrong types *)

Lemma verifyCalls_liveEvents X cacheOn imageRef pubkeys :
  verifyCalls (liveEvents X cacheOn imageRef pubkeys) =
    map (pair imageRef) (attempted X imageRef pubkeys).
Proof.
  induction pubkeys as [|p ps IH]; [reflexivity|]. simpl.
  destruct cacheOn, (fst (fst (fst (cosign_VerifyImage X imageRef p)))); simpl;
    now rewrite ?IH.
Qed.

Lemma liveEvents_uncached_calls X imageRef pubkeys :
  Forall (fun e => isVerifyImageCall e = true) (liveEvents X false imageRef pubkeys).
Proof.
  induction pubkeys as [|p ps IH]; [constructor|]. simpl.
  constructor; [reflexivity|].
  destruct (fst (fst (fst (cosign_VerifyImage X imageRef p)))); [constructor|exact IH].
Qed.

(** X11: with caching off, [Verify] on a verifier that has an image
    reference always returns, never touches the cache, and calls nothing but
    the image dispatcher: once for each key in order, up to and including the
    first key that verifies.  Its result is that key's outcome, or the
    failure that joins the reasons. *)
Theorem X11_verify_without_cache (X : Externals) (m : Machine X ImageSignatureVerifier.t) :
  let v := self m in
  let imageRef := ImageSignatureVerifier.imageRef v in
  let pubkeys := ImageSignatureVerifier.pubkeysOf (X := X)
                   (ImageSignatureVerifier.pubkeyPathString v) in
  let evs := liveEvents X false imageRef pubkeys in
  imageRef <> "" ->
  ImageSignatureVerifier.onMemoryCacheEnabled v = false ->
  ImageSignatureVerifier.Verify m =
    (Done (liveOutcome X imageRef pubkeys), mkMachine (self m) (cache m) (trace m ++ evs)) /\
  Forall (fun e => isVerifyImageCall e = true) evs /\
  verifyCalls evs = map (pair imageRef) (attempted X imageRef pubkeys).
Proof.
  cbv zeta. intros Href Hoff. split; [|split].
  - pose proof (Verify_live X m Href (or_introl Hoff)) as H. cbv zeta in H.
    rewrite Hoff in H. unfold liveRun in H. cbn [app] in H.
    now rewrite replay_liveEvents_uncached in H.
  - apply liveEvents_uncached_calls.
  - apply verifyCalls_liveEvents.
Qed.

Lemma X11_verify_without_cache_witness :
  let v := ImageSignatureVerifier.mk "repo/app:v1" (Some "k1,k2,k3") false Demo.cfg in
  ImageSignatureVerifier.Verify (Demo.start v []) =
    (Done (true, "signer@example.com", Some 1700000000%Z, None),
     Demo.machine v [] [CallVerifyImage "repo/app:v1" "k1"; CallVerifyImage "repo/app:v1" "k2"]).
Proof.
  intros v.
  destruct (X11_verify_without_cache Demo.X (Demo.start v [])) as (H & _ & _);
    [discriminate | reflexivity |].
  rewrite H. reflexivity.
Defined.

Lemma decodeResult_ill_typed r0 r1 r2 r3 :
  wellTyped r0 r1 r2 r3 = false ->
  exists msg, ImageSignatureVerifier.decodeResult (Ok [r0; r1; r2; r3]) = Panic msg.
Proof.
  unfold wellTyped, ImageSignatureVerifier.decodeResult. simpl.
  destruct r0; simpl; try (intros _; eexists; reflexivity);
    destruct r1; simpl; try (intros _; eexists; reflexivity);
    destruct r2; simpl; try (intros _; eexists; reflexivity);
    destruct r3; simpl; try (intros _; eexists; reflexivity);
    discriminate.
Qed.

Lemma decodeResult_well_typed r0 r1 r2 r3 :
  wellTyped r0 r1 r2 r3 = true ->
  exists verified signerName signedTimestamp err,
    ImageSignatureVerifier.decodeResult (Ok [r0; r1; r2; r3]) =
      Done (true, verified, signerName, signedTimestamp, err).
Proof.
  unfold wellTyped, ImageSignatureVerifier.decodeResult. simpl.
  destruct r0; simpl; try discriminate;
    destruct r1; simpl; try discriminate;
    destruct r2; simpl; try discriminate;
    destruct r3; simpl; try discriminate;
    intros _; repeat eexists.
Qed.

Lemma cacheLoop_panics X imageRef pre pubkey post msg :
  forall n errs (m : Machine X ImageSignatureVerifier.t),
  Forall (Passed (cache m) imageRef) pre ->
  cachedVerify X (cache m) imageRef pubkey = Panic msg ->
  forRange (pre ++ pubkey :: post) (ImageSignatureVerifier.cacheLoopBody imageRef)
    (false, n, errs) m =
    (Panic msg,
     mkMachine (self m) (cache m) (trace m ++ cacheReads imageRef (pre ++ [pubkey]))).
Proof.
  induction pre as [|k ks IH]; intros n errs m Hpre Hpanic.
  - simpl. unfold bind at 1. unfold ImageSignatureVerifier.cacheLoopBody, bind.
    rewrite getResultFromCache_eq, Hpanic. reflexivity.
  - apply Forall_cons in Hpre as [Hk Hks]. simpl app.
    rewrite (forRange_continue _ _ _ _ _ _ _ (cacheLoopBody_passes X imageRef k false n errs m Hk)).
    rewrite IH by assumption. simpl. rewrite <- app_assoc. reflexivity.
Qed.

(** X12: the cache is trusted for its dynamic types.  With caching on, a
    tuple of four values is read as a hit exactly when each slot is nil or of
    the asserted type (bool, string, [*int64], error); when the first pass
    reaches a key whose tuple has a slot of another type, [Verify] panics at
    that read: no key is verified live and nothing is returned. *)
Theorem X12_ill_typed_entry_panics (X : Externals) (m : Machine X ImageSignatureVerifier.t)
    (pre : list string) (pubkey : string) (post : list string) (r0 r1 r2 r3 : CacheValue) :
  let v := self m in
  let imageRef := ImageSignatureVerifier.imageRef v in
  imageRef <> "" ->
  ImageSignatureVerifier.onMemoryCacheEnabled v = true ->
  ImageSignatureVerifier.pubkeysOf (X := X) (ImageSignatureVerifier.pubkeyPathString v)
    = (pre ++ pubkey :: post)%list ->
  Forall (Passed (cache m) imageRef) pre ->
  GetCache X (cache m) (ImageSignatureVerifier.cacheKey imageRef pubkey)
    = Ok [r0; r1; r2; r3] ->
  (wellTyped r0 r1 r2 r3 = true ->
   exists verified signerName signedTimestamp err,
     CacheHit X (cache m) imageRef pubkey verified signerName signedTimestamp err) /\
  (wellTyped r0 r1 r2 r3 = false ->
   exists msg,
     ImageSignatureVerifier.Verify m =
       (Panic msg,
        mkMachine (self m) (cache m) (trace m ++ cacheReads imageRef (pre ++ [pubkey])))).
Proof.
  cbv zeta. intros Href Hon Hkeys Hpre Hget. split.
  - intros Hwt. unfold CacheHit, cachedVerify. rewrite Hget.
    now apply decodeResult_well_typed.
  - intros Hwt. destruct (decodeResult_ill_typed r0 r1 r2 r3 Hwt) as [msg Hmsg].
    exists msg.
    unfold ImageSignatureVerifier.Verify, bind at 1, getSelf.
    apply String.eqb_neq in Href. rewrite Href, Hon, Hkeys.
    unfold bind.
    rewrite (cacheLoop_panics X _ pre pubkey post msg 0%nat [] m Hpre); [reflexivity|].
    unfold cachedVerify. now rewrite Hget.
Qed.

Lemma X12_ill_typed_entry_panics_witness :
  fst (ImageSignatureVerifier.Verify
         (Demo.start (Demo.imageVerifier "k2")
            [(ImageSignatureVerifier.cacheKey "repo/app:v1" "k2",
              [VString "true"; VString "signer@example.com"; VNil; VNil])])) =
    Panic "interface conversion: not bool".
Proof.
  destruct (X12_ill_typed_entry_panics Demo.X
              (Demo.start (Demo.imageVerifier "k2")
                 [(ImageSignatureVerifier.cacheKey "repo/app:v1" "k2",
                   [VString "true"; VString "signer@example.com"; VNil; VNil])])
              [] "k2" [] (VString "true") (VString "signer@example.com") VNil VNil)
    as [_ Hpanic].
  - discriminate.
  - reflexivity.
  - reflexivity.
  - apply Forall_nil_2.
  - reflexivity.
  - destruct (Hpanic eq_refl) as [msg H]. rewrite H. cbn [fst]. f_equal.
    apply (f_equal fst) in H. vm_compute in H. now injection H.
Defined.

(** ** fetchManifestInSingleImage and the cache *)

Section SingleImage.
Context (X : Externals).
Implicit Types (m : Machine X ImageManifestFetcher.t).

Lemma getManifestFromCache_eq imageRef m :
  ImageManifestFetcher.getManifestFromCache imageRef m =
    (ImageManifestFetcher.decodeManifest (X := X)
       (GetCache X (cache m) (ImageManifestFetcher.cacheKey imageRef)),
     mkMachine (self m) (cache m)
       (trace m ++ [CallGetCache (ImageManifestFetcher.cacheKey imageRef)])).
Proof. reflexivity. Qed.

Lemma getConcatYAMLFromImageRef_eq imageRef m :
  ImageManifestFetcher.getConcatYAMLFromImageRef imageRef m =
    (Done (match PullImage X imageRef with
           | Err e => Err e
           | Ok image => GenerateConcatYAMLsFromImage X image
           end),
     mkMachine (self m) (cache m) (trace m ++ [CallPullImage imageRef])).
Proof.
  unfold ImageManifestFetcher.getConcatYAMLFromImageRef, bind, emit, ret.
  destruct (PullImage X imageRef) as [image|e]; [|reflexivity].
  destruct (GenerateConcatYAMLsFromImage X image); reflexivity.
Qed.
End SingleImage.

(** What pulling an image and extracting its manifests gives. *)
Lemma pull_failed_cases X imageRef e :
  (PullImage X imageRef = Err e \/
   exists image, PullImage X imageRef = Ok image /\
                 GenerateConcatYAMLsFromImage X image = Err e) ->
  match PullImage X imageRef with
  | Err e => Err e
  | Ok image => GenerateConcatYAMLsFromImage X image
  end = Err e.
Proof. intros [H | (image & H1 & H2)]; [now rewrite H | now rewrite H1]. Qed.

(** X13: a cached manifest is used as it is.  With caching on, when the cache
    holds a pair of manifests and error for the image, the fetcher returns
    the cached manifests (or the cached error, wrapped) after one cache read:
    the image is not pulled and the cache is not written. *)
Theorem X13_cached_manifest_avoids_pull (X : Externals)
    (m : Machine X ImageManifestFetcher.t) (imageRef : string)
    (concatYAMLbytes : bytes) (err : option error) :
  ImageManifestFetcher.cacheEnabled (self m) = true ->
  GetCache X (cache m) (ImageManifestFetcher.cacheKey imageRef)
    = Ok [VBytes concatYAMLbytes; value_of_error err] ->
  ImageManifestFetcher.fetchManifestInSingleImage imageRef m =
    (Done (match err with
           | None => Ok concatYAMLbytes
           | Some e => Err (errors_Wrap e "failed to get YAMLs in the image")
           end),
     mkMachine (self m) (cache m)
       (trace m ++ [CallGetCache (ImageManifestFetcher.cacheKey imageRef)])).
Proof.
  intros Hon Hget.
  unfold ImageManifestFetcher.fetchManifestInSingleImage, bind at 1, getSelf.
  rewrite Hon. unfold bind. rewrite getManifestFromCache_eq, Hget.
  destruct err; reflexivity.
Qed.

Lemma X13_cached_manifest_avoids_pull_witness :
  let f := ImageManifestFetcher.mk "bad/img:v1" Demo.cfg [] 0 true in
  let c := [(ImageManifestFetcher.cacheKey "bad/img:v1",
             [VBytes (bytes_of_string "kind: Deployment"); VNil])] in
  ImageManifestFetcher.fetchManifestInSingleImage "bad/img:v1" (Demo.start f c) =
    (Done (Ok (bytes_of_string "kind: Deployment")),
     Demo.machine f c [CallGetCache "cache/fetch-manifest/bad/img:v1"]).
Proof.
  intros f c.
  apply (X13_cached_manifest_avoids_pull Demo.X (Demo.start f c) "bad/img:v1"
           (bytes_of_string "kind: Deployment") None); reflexivity.
Defined.

(** X14: on a miss, only success is cached.  With caching on, when the read
    reports the image as not found, the image is pulled once; manifests that
    were obtained are written to the cache with a nil error and returned; a
    failed pull or extraction is returned wrapped and nothing is written, so
    the next call pulls again. *)
Theorem X14_miss_caches_only_success (X : Externals)
    (m : Machine X ImageManifestFetcher.t) (imageRef : string)
    (stale : bytes) (staleErr : option error) :
  let key := ImageManifestFetcher.cacheKey imageRef in
  ImageManifestFetcher.cacheEnabled (self m) = true ->
  ImageManifestFetcher.decodeManifest (X := X) (GetCache X (cache m) key)
    = Done (false, stale, staleErr) ->
  (forall image concatYAMLbytes,
     PullImage X imageRef = Ok image ->
     GenerateConcatYAMLsFromImage X image = Ok concatYAMLbytes ->
     ImageManifestFetcher.fetchManifestInSingleImage imageRef m =
       (Done (Ok concatYAMLbytes),
        mkMachine (self m)
          (fst (SetCache X (cache m) key [VBytes concatYAMLbytes; VNil]))
          (trace m ++ [CallGetCache key; CallPullImage imageRef;
                       CallSetCache key [VBytes concatYAMLbytes; VNil]]))) /\
  (forall e,
     (PullImage X imageRef = Err e \/
      exists image, PullImage X imageRef = Ok image /\
                    GenerateConcatYAMLsFromImage X image = Err e) ->
     ImageManifestFetcher.fetchManifestInSingleImage imageRef m =
       (Done (Err (errors_Wrap e "failed to get YAMLs in the image")),
        mkMachine (self m) (cache m)
          (trace m ++ [CallGetCache key; CallPullImage imageRef]))).
Proof.
  cbv zeta. intros Hon Hmiss. split.
  - intros image b Hpull Hgen.
    unfold ImageManifestFetcher.fetchManifestInSingleImage, bind at 1, getSelf.
    rewrite Hon. unfold bind. rewrite getManifestFromCache_eq, Hmiss. cbn [negb].
    rewrite getConcatYAMLFromImageRef_eq, Hpull, Hgen.
    unfold ImageManifestFetcher.setManifestToCache, pair_of_result, bind, callSetCache, ret.
    cbn [cache self trace value_of_error].
    destruct (SetCache X (cache m) _ _) as [c' setErr]. cbn [fst].
    rewrite <- !app_assoc. reflexivity.
  - intros e Hfail.
    unfold ImageManifestFetcher.fetchManifestInSingleImage, bind at 1, getSelf.
    rewrite Hon. unfold bind. rewrite getManifestFromCache_eq, Hmiss. cbn [negb].
    rewrite getConcatYAMLFromImageRef_eq, (pull_failed_cases X imageRef e Hfail).
    cbn [pair_of_result]. unfold ret. cbn [self cache trace].
    rewrite <- !app_assoc. reflexivity.
Qed.

Lemma X14_miss_caches_only_success_witness :
  let good := ImageManifestFetcher.mk "good/img:v1" Demo.cfg [] 0 true in
  let bad := ImageManifestFetcher.mk "bad/img:v1" Demo.cfg [] 0 true in
  cache (snd (ImageManifestFetcher.fetchManifestInSingleImage "good/img:v1"
                (Demo.start good []))) =
    [("cache/fetch-manifest/good/img:v1", [VBytes (bytes_of_string "good/img:v1"); VNil])] /\
  ImageManifestFetcher.fetchManifestInSingleImage "bad/img:v1" (Demo.start bad []) =
    (Done (Err "failed to get YAMLs in the image: pull failed"),
     Demo.machine bad [] [CallGetCache "cache/fetch-manifest/bad/img:v1";
                          CallPullImage "bad/img:v1"]).
Proof.
  intros good bad. split.
  - destruct (X14_miss_caches_only_success Demo.X (Demo.start good []) "good/img:v1" [] None)
      as [Hok _]; [reflexivity | reflexivity |].
    rewrite (Hok "good/img:v1" (bytes_of_string "good/img:v1")); reflexivity.
  - destruct (X14_miss_caches_only_success Demo.X (Demo.start bad []) "bad/img:v1" [] None)
      as [_ Hfail]; [reflexivity | reflexivity |].
    rewrite (Hfail "pull failed"); [reflexivity|]. left. reflexivity.
Defined.

(** X15: with caching off the fetcher always pulls and never touches the
    cache: one pull call, the cache as it was, and the manifests or the
    wrapped error of that pull as the result. *)
Theorem X15_fetch_without_cache (X : Externals) (m : Machine X ImageManifestFetcher.t)
    (imageRef : string) :
  ImageManifestFetcher.cacheEnabled (self m) = false ->
  ImageManifestFetcher.fetchManifestInSingleImage imageRef m =
    (Done (match PullImage X imageRef with
           | Err e => Err (errors_Wrap e "failed to get YAMLs in the image")
           | Ok image =>
               match GenerateConcatYAMLsFromImage X image with
               | Err e => Err (errors_Wrap e "failed to get YAMLs in the image")
               | Ok concatYAMLbytes => Ok concatYAMLbytes
               end
           end),
     mkMachine (self m) (cache m) (trace m ++ [CallPullImage imageRef])).
Proof.
  intros Hoff.
  unfold ImageManifestFetcher.fetchManifestInSingleImage, bind at 1, getSelf.
  rewrite Hoff. unfold bind. rewrite getConcatYAMLFromImageRef_eq.
  destruct (PullImage X imageRef) as [image|e]; [|reflexivity].
  destruct (GenerateConcatYAMLsFromImage X image); reflexivity.
Qed.

Lemma X15_fetch_without_cache_witness :
  let f := ImageManifestFetcher.mk "good/img:v1" Demo.cfg [] 0 false in
  ImageManifestFetcher.fetchManifestInSingleImage "good/img:v1" (Demo.start f []) =
    (Done (Ok (bytes_of_string "good/img:v1")),
     Demo.machine f [] [CallPullImage "good/img:v1"]).
Proof.
  intros f.
  rewrite (X15_fetch_without_cache Demo.X (Demo.start f []) "good/img:v1"); reflexivity.
Defined.

(** ** What Fetch can return *)

Lemma Fetch_without_reference X objYAMLBytes (m : Machine X ImageManifestFetcher.t) :
  resolvedImageRef X (self m) objYAMLBytes = "" ->
  ImageManifestFetcher.Fetch objYAMLBytes m =
    (Done (None, "", Some "no image reference is found"), m).
Proof.
  intros H. unfold ImageManifestFetcher.Fetch, bind, getSelf.
  unfold resolvedImageRef, lookup_or_zero in H.
  destruct (ImageManifestFetcher.imageRefString (self m) =? "") eqn:E.
  - destruct (GetAnnotationsInYAML X objYAMLBytes !! _) as [a|]; simpl in H; subst;
      rewrite ?E; reflexivity.
  - rewrite H in E. discriminate.
Qed.

Lemma image_body_returned X objYAMLBytes maxp ref (u : unit)
    (m m' : Machine X ImageManifestFetcher.t) (out : FetchReturn) :
  ImageManifestFetcher.fetchLoopBody objYAMLBytes maxp ref u m = (Done (inr out), m') ->
  (exists e, out = (None, "", Some e)) \/ (exists ms, out = (ms, ref, None)).
Proof.
  unfold ImageManifestFetcher.fetchLoopBody, bind at 1.
  destruct (ImageManifestFetcher.fetchManifestInSingleImage ref m) as [[[c|e]|msg] m1];
    [| |discriminate].
  - unfold bind, getSelf.
    destruct (FindManifestYAML X c objYAMLBytes maxp _) as [[|] ms]; unfold ret;
      intros H; [|discriminate].
    injection H as <- _. right. now exists ms.
  - unfold ret. intros H. injection H as <- _. left. now exists e.
Qed.

Lemma blob_body_returned X objYAMLBytes maxp ref (u : unit)
    (m m' : Machine X BlobManifestFetcher.t) (out : FetchReturn) :
  BlobManifestFetcher.fetchLoopBody objYAMLBytes maxp ref u m = (Done (inr out), m') ->
  (exists e, out = (None, "", Some e)) \/ (exists ms, out = (ms, ref, None)).
Proof.
  unfold BlobManifestFetcher.fetchLoopBody, bind at 1.
  destruct (BlobManifestFetcher.fetchManifestInSingleConfigMap ref m) as [[[c|e]|msg] m1];
    [| |discriminate].
  - unfold bind, getSelf.
    destruct (FindManifestYAML X c objYAMLBytes maxp _) as [[|] ms]; unfold ret;
      intros H; [|discriminate].
    injection H as <- _. right. now exists ms.
  - unfold ret. intros H. injection H as <- _. left. now exists e.
Qed.

(** X16: the shape of what the fetch loops return.  Whatever the cache, the
    registry and the cluster answer, a result of [ImageManifestFetcher.Fetch]
    or [BlobManifestFetcher.fetchManifestFromResource] that carries an error
    carries no manifests and an empty reference; a result without an error
    names one of the comma-separated references the fetcher was given. *)
Theorem X16_fetch_result_shape (X : Externals) :
  (forall objYAMLBytes (m : Machine X ImageManifestFetcher.t) ms ref err,
     fst (ImageManifestFetcher.Fetch objYAMLBytes m) = Done (ms, ref, err) ->
     (err <> None -> ms = None /\ ref = "") /\
     (err = None ->
      ref ∈ SplitCommaSeparatedString X (resolvedImageRef X (self m) objYAMLBytes))) /\
  (forall objYAMLBytes (m : Machine X BlobManifestFetcher.t) ms ref err,
     fst (BlobManifestFetcher.fetchManifestFromResource objYAMLBytes m)
       = Done (ms, ref, err) ->
     (err <> None -> ms = None /\ ref = "") /\
     (err = None ->
      ref ∈ SplitCommaSeparatedString X (BlobManifestFetcher.resourceRefString (self m)))).
Proof.
  split.
  - intros obj m ms ref err.
    destruct (decide (resolvedImageRef X (self m) obj = "")) as [Hempty | Href].
    + rewrite (Fetch_without_reference X obj m Hempty). cbn [fst]. intros E. injection E as <- <- <-.
      split; [auto | discriminate].
    + rewrite (image_Fetch_loop X obj m Href).
      destruct (forRange _ _ tt m) as [[[[]|out]|msg] m'] eqn:E; cbn [fst];
        intros H; [| |discriminate].
      * injection H as <- <- <-. split; [auto | discriminate].
      * injection H as ->.
        destruct (forRange_returned _ _
                    (fun x l m v m' => image_body_returned X obj _ x l m m' v)
                    _ _ _ _ _ E) as (x & Hx & [[e He] | [ms' He]]);
          injection He as -> -> ->.
        -- split; [auto | discriminate].
        -- split; [intros Hn; now elim Hn | intros _; exact Hx].
  - intros obj m ms ref err.
    destruct (decide (BlobManifestFetcher.resourceRefString (self m) = "")) as [Hempty | Href].
    + unfold BlobManifestFetcher.fetchManifestFromResource, bind, getSelf.
      rewrite Hempty. cbn. intros E. injection E as <- <- <-.
      split; [auto | discriminate].
    + rewrite (blob_fetchManifestFromResource_loop X obj m Href).
      destruct (forRange _ _ tt m) as [[[[]|out]|msg] m'] eqn:E; cbn [fst];
        intros H; [| |discriminate].
      * injection H as <- <- <-. split; [auto | discriminate].
      * injection H as ->.
        destruct (forRange_returned _ _
                    (fun x l m v m' => blob_body_returned X obj _ x l m m' v)
                    _ _ _ _ _ E) as (x & Hx & [[e He] | [ms' He]]);
          injection He as -> -> ->.
        -- split; [auto | discriminate].
        -- split; [intros Hn; now elim Hn | intros _; exact Hx].
Qed.

Lemma X16_fetch_result_shape_witness :
  let f := ImageManifestFetcher.mk "other/img:v1,good/img:v1" Demo.cfg [] 0 true in
  "good/img:v1" ∈ SplitCommaSeparatedString Demo.X "other/img:v1,good/img:v1".
Proof.
  intros f.
  destruct (X16_fetch_result_shape Demo.X) as [Himage _].
  destruct (Himage Demo.objPlain (Demo.start f [])
              (Some [bytes_of_string "good/img:v1"]) "good/img:v1" None) as [_ Hin].
  - vm_compute. reflexivity.
  - exact (Hin eq_refl).
Defined.

(** ** FetchAll *)

Lemma FetchAll_loop_retrieved X refs : forall yamls contents
    (m m1 : Machine X ImageManifestFetcher.t),
  Retrieved ImageManifestFetcher.fetchManifestInSingleImage refs m m1 contents ->
  forRange refs
    (fun imageRef (yamls : list bytes) =>
       bind (ImageManifestFetcher.fetchManifestInSingleImage imageRef)
         (fun c => match c with
                   | Err e => ret (inr e)
                   | Ok concatYAMLbytes =>
                       ret (inl (yamls ++ SplitConcatYAMLs X concatYAMLbytes)%list)
                   end)) yamls m =
    (Done (inl (yamls ++ List.concat (map (SplitConcatYAMLs X) contents))%list), m1).
Proof.
  induction refs as [|ref rest IH]; intros yamls contents m m1 H; inversion H; subst.
  - simpl. unfold ret. now rewrite app_nil_r.
  - simpl forRange. unfold bind at 1. unfold bind at 1.
    match goal with Hf : _ = (Done (Ok _), _) |- _ => rewrite Hf end.
    unfold ret at 1. cbv beta iota.
    erewrite IH by eassumption. simpl. now rewrite app_assoc.
Qed.

Lemma FetchAll_loop_failed X pre ref post e : forall yamls contents
    (m m1 m2 : Machine X ImageManifestFetcher.t),
  Retrieved ImageManifestFetcher.fetchManifestInSingleImage pre m m1 contents ->
  ImageManifestFetcher.fetchManifestInSingleImage ref m1 = (Done (Err e), m2) ->
  forRange (pre ++ ref :: post)
    (fun imageRef (yamls : list bytes) =>
       bind (ImageManifestFetcher.fetchManifestInSingleImage imageRef)
         (fun c => match c with
                   | Err e => ret (inr e)
                   | Ok concatYAMLbytes =>
                       ret (inl (yamls ++ SplitConcatYAMLs X concatYAMLbytes)%list)
                   end)) yamls m =
    (Done (inr e), m2).
Proof.
  induction pre as [|r rest IH]; intros yamls contents m m1 m2 H Hf; inversion H; subst.
  - simpl. unfold bind. rewrite Hf. reflexivity.
  - simpl app. simpl forRange. unfold bind at 1. unfold bind at 1.
    match goal with Hr : _ = (Done (Ok _), _) |- _ => rewrite Hr end.
    unfold ret at 1. cbv beta iota. eapply IH; eassumption.
Qed.

(** X17: [FetchAll] keeps the order of its sources.  When every
    comma-separated image is retrieved, the result is the documents of the
    first image, in the order they were split, followed by those of the
    second, and so on.  When an image fails, its error is returned alone, and
    the images after it are not retrieved. *)
Theorem X17_FetchAll_order (X : Externals) :
  (forall (m m1 : Machine X ImageManifestFetcher.t) contents,
     Retrieved ImageManifestFetcher.fetchManifestInSingleImage
       (SplitCommaSeparatedString X (ImageManifestFetcher.imageRefString (self m)))
       m m1 contents ->
     ImageManifestFetcher.FetchAll m =
       (Done (Ok (List.concat (map (SplitConcatYAMLs X) contents))), m1)) /\
  (forall (m m1 m2 : Machine X ImageManifestFetcher.t) pre ref post contents e,
     SplitCommaSeparatedString X (ImageManifestFetcher.imageRefString (self m))
       = (pre ++ ref :: post)%list ->
     Retrieved ImageManifestFetcher.fetchManifestInSingleImage pre m m1 contents ->
     ImageManifestFetcher.fetchManifestInSingleImage ref m1 = (Done (Err e), m2) ->
     ImageManifestFetcher.FetchAll m = (Done (Err e), m2)).
Proof.
  split.
  - intros m m1 contents H.
    unfold ImageManifestFetcher.FetchAll, bind at 1, getSelf. unfold bind at 1.
    rewrite (FetchAll_loop_retrieved X _ [] contents m m1 H). reflexivity.
  - intros m m1 m2 pre ref post contents e Hsplit Hpre Hf.
    unfold ImageManifestFetcher.FetchAll, bind at 1, getSelf. unfold bind at 1.
    rewrite Hsplit.
    rewrite (FetchAll_loop_failed X pre ref post e [] contents m m1 m2 Hpre Hf). reflexivity.
Qed.

Lemma X17_FetchAll_order_witness :
  let f := ImageManifestFetcher.mk "other/img:v1,good/img:v1" Demo.cfg [] 0 false in
  let g := ImageManifestFetcher.mk "other/img:v1,bad/img:v1,good/img:v1" Demo.cfg [] 0 false in
  ImageManifestFetcher.FetchAll (Demo.start f []) =
    (Done (Ok [bytes_of_string "other/img:v1"; bytes_of_string "good/img:v1"]),
     Demo.machine f [] [CallPullImage "other/img:v1"; CallPullImage "good/img:v1"]) /\
  ImageManifestFetcher.FetchAll (Demo.start g []) =
    (Done (Err "failed to get YAMLs in the image: pull failed"),
     Demo.machine g [] [CallPullImage "other/img:v1"; CallPullImage "bad/img:v1"]).
Proof.
  intros f g. destruct (X17_FetchAll_order Demo.X) as [Hall Hfail]. split.
  - rewrite (Hall (Demo.start f [])
               (Demo.machine f [] [CallPullImage "other/img:v1"; CallPullImage "good/img:v1"])
               [bytes_of_string "other/img:v1"; bytes_of_string "good/img:v1"]);
      [reflexivity|].
    apply (Retrieved_cons _ "other/img:v1" ["good/img:v1"] (bytes_of_string "other/img:v1")
             [bytes_of_string "good/img:v1"] _
             (Demo.machine f [] [CallPullImage "other/img:v1"])); [reflexivity|].
    apply (Retrieved_cons _ "good/img:v1" [] (bytes_of_string "good/img:v1") [] _
             (Demo.machine f [] [CallPullImage "other/img:v1"; CallPullImage "good/img:v1"]));
      [reflexivity|].
    apply Retrieved_nil.
  - apply (Hfail (Demo.start g []) (Demo.machine g [] [CallPullImage "other/img:v1"])
             (Demo.machine g [] [CallPullImage "other/img:v1"; CallPullImage "bad/img:v1"])
             ["other/img:v1"] "bad/img:v1" ["good/img:v1"] [bytes_of_string "other/img:v1"]).
    + reflexivity.
    + apply (Retrieved_cons _ "other/img:v1" [] (bytes_of_string "other/img:v1") [] _
               (Demo.machine g [] [CallPullImage "other/img:v1"])); [reflexivity|].
      apply Retrieved_nil.
    + reflexivity.
Defined.

(** ** Which collaborators a method calls *)

Section EmitsFacts.
Context {X : Externals} {S : Type} (allowed : Event -> bool).

Lemma Emits_ret {A} (a : A) : Emits allowed (ret a : M X S A).
Proof. intros m. exists []. split; [now rewrite app_nil_r|constructor]. Qed.

Lemma Emits_lift {A} (r : Result A) : Emits allowed (lift r : M X S A).
Proof. intros m. exists []. split; [now rewrite app_nil_r|constructor]. Qed.

Lemma Emits_getSelf : Emits allowed (getSelf : M X S S).
Proof. intros m. exists []. split; [now rewrite app_nil_r|constructor]. Qed.

Lemma Emits_emit e : allowed e = true -> Emits allowed (emit e : M X S unit).
Proof. intros He m. exists [e]. split; [reflexivity|]. now constructor. Qed.

Lemma Emits_callGetCache key :
  allowed (CallGetCache key) = true -> Emits allowed (callGetCache key : M X S _).
Proof. intros He m. exists [CallGetCache key]. split; [reflexivity|]. now constructor. Qed.

Lemma Emits_callSetCache key values :
  allowed (CallSetCache key values) = true ->
  Emits allowed (callSetCache key values : M X S _).
Proof.
  intros He m. exists [CallSetCache key values]. unfold callSetCache.
  destruct (SetCache X (cache m) key values). split; [reflexivity|]. now constructor.
Qed.

Lemma Emits_bind {A B} (c : M X S A) (k : A -> M X S B) :
  Emits allowed c -> (forall a, Emits allowed (k a)) -> Emits allowed (bind c k).
Proof.
  intros Hc Hk m. unfold bind. destruct (Hc m) as (evs & Ht & Hall).
  destruct (c m) as [[a|msg] m1]; simpl in *.
  - destruct (Hk a m1) as (evs' & Ht' & Hall'). exists (evs ++ evs')%list.
    split; [now rewrite Ht', Ht, app_assoc | now apply Forall_app].
  - now exists evs.
Qed.

Lemma Emits_forRange {A L R} (body : A -> L -> M X S (L + R)) xs l :
  (forall x l, Emits allowed (body x l)) -> Emits allowed (forRange xs body l).
Proof.
  intros Hb. revert l. induction xs as [|x xs IH]; intros l; simpl.
  - apply Emits_ret.
  - apply Emits_bind; [apply Hb|]. intros [l'|v]; [apply IH|apply Emits_ret].
Qed.

Lemma Emits_no_write {A} (c : M X S A) :
  (forall key values, allowed (CallSetCache key values) = false) ->
  Frame c -> Emits allowed c -> forall m, cache (snd (c m)) = cache m.
Proof.
  intros Hno HF HE m.
  destruct (HF m) as (_ & evs & Ht & Hc). destruct (HE m) as (evs' & Ht' & Hall).
  rewrite Ht in Ht'. apply app_inv_head in Ht'. subst evs'. rewrite Hc.
  clear Ht Hc. generalize (cache m). induction Hall as [|e evs He _ IH]; intros c0;
    [reflexivity|].
  destruct e; simpl; try apply IH. now rewrite Hno in He.
Qed.
End EmitsFacts.

Ltac emits_step :=
  match goal with
  | |- Emits _ (ret _) => apply Emits_ret
  | |- Emits _ (lift _) => apply Emits_lift
  | |- Emits _ getSelf => apply Emits_getSelf
  | |- Emits _ (emit _) => apply Emits_emit; reflexivity
  | |- Emits _ (callGetCache _) => apply Emits_callGetCache; reflexivity
  | |- Emits _ (callSetCache _ _) => apply Emits_callSetCache; reflexivity
  | |- Emits _ (bind _ _) => apply Emits_bind; [|intros ?]
  | |- Emits _ (forRange _ _ _) => apply Emits_forRange; intros ? ?
  | |- Emits _ (match ?x with _ => _ end) => destruct x
  | |- Emits _ _ => progress autounfold with go_methods
  end.

Ltac emits := repeat emits_step.

(** X18: each path keeps to its own traced calls.  Of the calls the trace
    records (cache reads and writes, image verification, image pulls,
    cluster reads and the three blob dispatchers), image verification makes
    only cache calls and image-verification calls; image fetching ([Fetch]
    and [FetchAll]) only cache calls and image pulls; blob verification only
    cluster reads and blob-dispatcher calls; blob fetching only cluster
    reads.  After [Verify] or [Fetch] on a blob instance the cache is what it
    was.  The helpers that are applied as functions and leave no trace
    (annotation parsing, splitting, the manifest matcher, the signature-type
    classifier, decoding) are not counted. *)
Theorem X18_collaborators_per_path (X : Externals) :
  Emits (fun e => isCacheCall e || isVerifyImageCall e)
    (ImageSignatureVerifier.Verify (X := X)) /\
  (forall objYAMLBytes,
     Emits (fun e => isCacheCall e || isPullImageCall e)
       (ImageManifestFetcher.Fetch (X := X) objYAMLBytes)) /\
  Emits (fun e => isCacheCall e || isPullImageCall e) (ImageManifestFetcher.FetchAll (X := X)) /\
  Emits (fun e => isGetResourceCall e || isVerifyBlobCall e)
    (BlobSignatureVerifier.Verify (X := X)) /\
  (forall objYAMLBytes,
     Emits isGetResourceCall (BlobManifestFetcher.Fetch (X := X) objYAMLBytes)) /\
  (forall m, cache (snd (BlobSignatureVerifier.Verify (X := X) m)) = cache m) /\
  (forall objYAMLBytes m,
     cache (snd (BlobManifestFetcher.Fetch (X := X) objYAMLBytes m)) = cache m).
Proof.
  assert (HV : Emits (fun e => isGetResourceCall e || isVerifyBlobCall e)
                 (BlobSignatureVerifier.Verify (X := X))) by emits.
  assert (HF : forall objYAMLBytes,
             Emits isGetResourceCall (BlobManifestFetcher.Fetch (X := X) objYAMLBytes))
    by (intros objYAMLBytes; emits).
  split; [emits|]. split; [intros objYAMLBytes; emits|]. split; [emits|].
  split; [exact HV|]. split; [exact HF|]. split.
  - apply (Emits_no_write _ _ (fun _ _ => eq_refl)
             (Frame_BlobSignatureVerifier_Verify X) HV).
  - intros objYAMLBytes.
    apply (Emits_no_write _ _ (fun _ _ => eq_refl)
             (Frame_BlobManifestFetcher_Fetch X objYAMLBytes) (HF objYAMLBytes)).
Qed.

(** ** BlobSignatureVerifier: errors before dispatch *)

(** Where the missing field is reported to be missing from. *)
Lemma getSignatures_missing X (m m' : Machine X BlobSignatureVerifier.t)
    src kmsg ksig kcert kbundle :
  BlobSource m m' src kmsg ksig kcert kbundle ->
  let place :=
    if BlobSignatureVerifier.resourceRef (self m) =? "" then "the annotations"
    else "the configmap " +:+ BlobSignatureVerifier.resourceRef (self m) in
  (src !! kmsg = None ->
   BlobSignatureVerifier.getSignatures m =
     (Done (Err ("`" +:+ kmsg +:+ "` is not found in " +:+ place)), m')) /\
  (forall msg,
     src !! kmsg = Some msg -> src !! ksig = None ->
     BlobSignatureVerifier.getSignatures m =
       (Done (Err ("`" +:+ ksig +:+ "` is not found in " +:+ place)), m')).
Proof.
  intros Hsrc. cbv zeta.
  unfold BlobSignatureVerifier.getSignatures, bind, getSelf.
  destruct Hsrc as [Href | cm m' Href Hcm].
  - rewrite Href. simpl. split.
    + intros Hmsg. rewrite Hmsg. reflexivity.
    + intros msg Hmsg Hsig. rewrite Hmsg, Hsig. reflexivity.
  - apply String.eqb_neq in Href. rewrite Href. simpl. rewrite Hcm. split.
    + intros Hmsg. rewrite Hmsg. reflexivity.
    + intros msg Hmsg Hsig. rewrite Hmsg, Hsig. reflexivity.
Qed.

(** X19: a missing required field stops blob verification before any
    dispatcher is called.  When the source (the annotations, or the data of
    the referenced config map) has no message entry, [Verify] fails with an
    error that names the message key and the source; when it has a message
    but no signature entry, the error names the signature key.  The message
    is looked for first.  Nothing is called beyond what retrieving the source
    took. *)
Theorem X19_missing_required_field (X : Externals)
    (m m' : Machine X BlobSignatureVerifier.t)
    (src : gmap string string) (kmsg ksig kcert kbundle : string) :
  BlobSource m m' src kmsg ksig kcert kbundle ->
  let place :=
    if BlobSignatureVerifier.resourceRef (self m) =? "" then "the annotations"
    else "the configmap " +:+ BlobSignatureVerifier.resourceRef (self m) in
  (src !! kmsg = None ->
   BlobSignatureVerifier.Verify m =
     (Done (false, "", None,
            Some ("failed to get signature: `" +:+ kmsg +:+ "` is not found in " +:+ place)),
      m')) /\
  (forall msg,
     src !! kmsg = Some msg -> src !! ksig = None ->
     BlobSignatureVerifier.Verify m =
       (Done (false, "", None,
              Some ("failed to get signature: `" +:+ ksig +:+ "` is not found in " +:+ place)),
        m')).
Proof.
  intros Hsrc place.
  destruct (getSignatures_missing X m m' _ _ _ _ _ Hsrc) as [Hm Hs].
  split.
  - intros Hmsg. unfold BlobSignatureVerifier.Verify.
    rewrite (bind_Done _ _ _ _ _ (Hm Hmsg)). reflexivity.
  - intros msg Hmsg Hsig. unfold BlobSignatureVerifier.Verify.
    rewrite (bind_Done _ _ _ _ _ (Hs msg Hmsg Hsig)). reflexivity.
Qed.

Lemma X19_missing_required_field_witness :
  let v := BlobSignatureVerifier.mk ∅ "" None Demo.cfg in
  let w := BlobSignatureVerifier.mk
             {[ "cosign.sigstore.dev/message" := "H4sI" ]} "" None Demo.cfg in
  fst (BlobSignatureVerifier.Verify (Demo.start v [])) =
    Done (false, "", None,
          Some "failed to get signature: `cosign.sigstore.dev/message` is not found in the annotations") /\
  fst (BlobSignatureVerifier.Verify (Demo.start w [])) =
    Done (false, "", None,
          Some "failed to get signature: `cosign.sigstore.dev/signature` is not found in the annotations").
Proof.
  intros v w. split.
  - destruct (X19_missing_required_field Demo.X (Demo.start v []) (Demo.start v []) ∅
                "cosign.sigstore.dev/message" "cosign.sigstore.dev/signature"
                "cosign.sigstore.dev/certificate" "cosign.sigstore.dev/bundle") as [H _].
    + exact (FromAnnotations (X := Demo.X) (Demo.start v []) eq_refl).
    + rewrite H; reflexivity.
  - destruct (X19_missing_required_field Demo.X (Demo.start w []) (Demo.start w [])
                {[ "cosign.sigstore.dev/message" := "H4sI" ]}
                "cosign.sigstore.dev/message" "cosign.sigstore.dev/signature"
                "cosign.sigstore.dev/certificate" "cosign.sigstore.dev/bundle") as [_ H].
    + exact (FromAnnotations (X := Demo.X) (Demo.start w []) eq_refl).
    + rewrite (H "H4sI"); [reflexivity | vm_compute; reflexivity | vm_compute; reflexivity].
Defined.

(** X20: an unknown signature type stops blob verification before any
    dispatcher is called: with both required fields present, when the key
    path is classified as unknown, [Verify] fails with the type-judgment
    error and calls nothing beyond what retrieving the source took. *)
Theorem X20_unknown_signature_type (X : Externals)
    (m m' : Machine X BlobSignatureVerifier.t)
    (src : gmap string string) (kmsg ksig kcert kbundle msg sig : string) :
  BlobSource m m' src kmsg ksig kcert kbundle ->
  src !! kmsg = Some msg ->
  src !! ksig = Some sig ->
  GetSignatureTypeFromPublicKey X (BlobSignatureVerifier.pubkeyPathString (self m))
    = SigTypeUnknown X ->
  BlobSignatureVerifier.Verify m =
    (Done (false, "", None,
           Some "failed to judge signature type from public key configuration"), m').
Proof.
  intros Hsrc Hmsg Hsig Hunknown.
  pose proof (getSignatures_present X m m' _ _ _ _ _ _ _ Hsrc Hmsg Hsig) as Hget.
  unfold BlobSignatureVerifier.Verify. rewrite (bind_Done _ _ _ _ _ Hget).
  unfold bind, getSelf. rewrite (BlobSource_self X m m' _ _ _ _ _ Hsrc), Hunknown.
  rewrite String.eqb_refl. reflexivity.
Qed.

(** ** GetConfigMapFromK8sObjectRef *)

(** X21: a config-map reference is validated before the cluster is asked.  A
    reference that does not parse, or whose kind is none of [ConfigMap],
    [configmaps] and [cm], is refused with an error and no cluster call; a
    reference with one of these kinds leads to exactly one retrieval, of that
    kind, namespace and name with an empty API version. *)
Theorem X21_configmap_reference_is_validated (X : Externals) (S : Type)
    (m : Machine X S) (objRef : string) :
  (forall e,
     parseObjectInCluster X objRef = Err e ->
     GetConfigMapFromK8sObjectRef objRef m =
       (Done (Err ("failed to parse a configmap reference: " +:+ e)), m)) /\
  (forall kind ns name,
     parseObjectInCluster X objRef = Ok (kind, ns, name) ->
     kind <> "ConfigMap" -> kind <> "configmaps" -> kind <> "cm" ->
     exists e, GetConfigMapFromK8sObjectRef objRef m = (Done (Err e), m)) /\
  (forall kind ns name,
     parseObjectInCluster X objRef = Ok (kind, ns, name) ->
     kind = "ConfigMap" \/ kind = "configmaps" \/ kind = "cm" ->
     snd (GetConfigMapFromK8sObjectRef objRef m) =
       mkMachine (self m) (cache m) (trace m ++ [CallGetResource "" kind ns name])).
Proof.
  split; [|split].
  - intros e H. unfold GetConfigMapFromK8sObjectRef. now rewrite H.
  - intros kind ns name H H1 H2 H3. unfold GetConfigMapFromK8sObjectRef. rewrite H.
    apply String.eqb_neq in H1, H2, H3. rewrite H1, H2, H3. simpl. eexists. reflexivity.
  - intros kind ns name H Hkind. unfold GetConfigMapFromK8sObjectRef. rewrite H.
    assert (E : negb (kind =? "ConfigMap") && negb (kind =? "configmaps")
                  && negb (kind =? "cm") = false)
      by (destruct Hkind as [-> | [-> | ->]]; reflexivity).
    rewrite E. unfold bind, emit.
    destruct (GetResource X "" kind ns name) as [cmObj|e]; [|reflexivity].
    destruct (json_Marshal X cmObj) as [cmBytes|e]; [|reflexivity].
    destruct (json_Unmarshal_ConfigMap X cmBytes); reflexivity.
Qed.

Lemma X21_configmap_reference_is_validated_witness :
  let m := Demo.start (BlobManifestFetcher.mk Demo.cfg "" [] 0) [] in
  GetConfigMapFromK8sObjectRef "ConfigMap/ns1/sig-cm" m =
    (Done (Err "failed to parse a configmap reference: object in cluster must be in k8s://[KIND]/[NAMESPACE]/[NAME] format"),
     m) /\
  trace (snd (GetConfigMapFromK8sObjectRef "k8s://ConfigMap/ns1/sig-cm" m)) =
    [CallGetResource "" "ConfigMap" "ns1" "sig-cm"].
Proof.
  intros m. split.
  - destruct (X21_configmap_reference_is_validated Demo.X _ m "ConfigMap/ns1/sig-cm")
      as (H & _ & _).
    rewrite (H "object in cluster must be in k8s://[KIND]/[NAMESPACE]/[NAME] format");
      reflexivity.
  - destruct (X21_configmap_reference_is_validated Demo.X _ m "k8s://ConfigMap/ns1/sig-cm")
      as (_ & _ & H).
    rewrite (H "ConfigMap" "ns1" "sig-cm"); [reflexivity | reflexivity | now left].
Defined.

(** ** BlobManifestFetcher.Fetch from the annotations *)

(** X22: a blob fetcher without a resource reference works from the object
    alone.  [Fetch] calls no collaborator (cache and trace are as before),
    and it returns either no manifests with an empty reference (with or
    without an error) or, without an error, the embedded sentinel as the
    resolved reference. *)
Theorem X22_fetch_from_annotations (X : Externals) (objYAMLBytes : bytes)
    (m : Machine X BlobManifestFetcher.t) :
  BlobManifestFetcher.resourceRefString (self m) = "" ->
  exists ms ref err,
    BlobManifestFetcher.Fetch objYAMLBytes m = (Done (ms, ref, err), m) /\
    ((ms = None /\ ref = "") \/ (ref = SigRefEmbeddedInAnnotation /\ err = None)).
Proof.
  intros Href. unfold BlobManifestFetcher.Fetch, bind, getSelf. rewrite Href. simpl.
  destruct (GetAnnotationsInYAML X objYAMLBytes !! _) as [base64Msg|];
    [|repeat eexists; now left].
  destruct (base64_DecodeString X base64Msg) as [gzipMsg|e];
    [|repeat eexists; now left].
  destruct (GetYAMLsInArtifact X (GzipDecompress X gzipMsg)) as [yamls|e];
    [|repeat eexists; now left].
  destruct (FindManifestYAML X _ _ _ _) as [[|] ms]; simpl;
    repeat eexists; [now right | now left].
Qed.

Lemma X22_fetch_from_annotations_witness :
  exists ms ref err,
    BlobManifestFetcher.Fetch Demo.objEmptyMessage
      (Demo.start (BlobManifestFetcher.mk Demo.cfg "" [] 0) []) =
    (Done (ms, ref, err), Demo.start (BlobManifestFetcher.mk Demo.cfg "" [] 0) []).
Proof.
  destruct (X22_fetch_from_annotations Demo.X Demo.objEmptyMessage
              (Demo.start (BlobManifestFetcher.mk Demo.cfg "" [] 0) []) eq_refl)
    as (ms & ref & err & H & _).
  now exists ms, ref, err.
Defined.

Lemma X20_unknown_signature_type_witness :
  let v := BlobSignatureVerifier.mk
             {[ "cosign.sigstore.dev/message" := "H4sI";
                "cosign.sigstore.dev/signature" := "c2ln" ]} "" (Some "key.txt") Demo.cfg in
  BlobSignatureVerifier.Verify (DemoSchemes.start v []) =
    (Done (false, "", None,
           Some "failed to judge signature type from public key configuration"),
     DemoSchemes.start v []).
Proof.
  intros v.
  apply (X20_unknown_signature_type DemoSchemes.X (DemoSchemes.start v [])
           (DemoSchemes.start v []) (BlobSignatureVerifier.annotations v)
           "cosign.sigstore.dev/message" "cosign.sigstore.dev/signature"
           "cosign.sigstore.dev/certificate" "cosign.sigstore.dev/bundle" "H4sI" "c2ln").
  - exact (FromAnnotations (X := DemoSchemes.X) (DemoSchemes.start v []) eq_refl).
  - vm_compute. reflexivity.
  - vm_compute. reflexivity.
  - reflexivity.
Defined.

(** ** The assembled bundle *)

Lemma bytes_of_string_nonempty s : s <> "" -> bytes_of_string s <> [].
Proof. destruct s; [congruence|discriminate]. Qed.

Lemma lookup_insert_if (b : bool) (k q : string) (v x : bytes) (sigMap : gmap string bytes) :
  (if b then <[k := v]> sigMap else sigMap) !! q = Some x ->
  (b = true /\ q = k /\ x = v) \/ sigMap !! q = Some x.
Proof.
  destruct b; [|now right]. intros H. apply lookup_insert_Some in H.
  destruct H as [[-> ->] | [_ H]]; [now left | now right].
Qed.

(** X23: the bundle holds only what is there.  Every entry of the map
    [getSignatures] assembles is under one of the four field names and is a
    non-empty byte string: it is the bytes of the non-empty field of that
    name. *)
Theorem X23_bundle_entries (X : Externals) (msg sig cert bundle key : string) (b : bytes) :
  BlobSignatureVerifier.assemble (X := X) msg sig cert bundle !! key = Some b ->
  b <> [] /\
  ((key = MessageAnnotationBaseName X /\ b = bytes_of_string msg) \/
   (key = SignatureAnnotationBaseName X /\ b = bytes_of_string sig) \/
   (key = CertificateAnnotationBaseName X /\ b = bytes_of_string cert) \/
   (key = BundleAnnotationBaseName X /\ b = bytes_of_string bundle)).
Proof.
  unfold BlobSignatureVerifier.assemble. cbv zeta. intros H.
  apply lookup_insert_if in H as [(Hb & -> & ->) | H].
  { apply negb_true_iff, String.eqb_neq in Hb.
    split; [now apply bytes_of_string_nonempty|]. auto 10. }
  apply lookup_insert_if in H as [(Hb & -> & ->) | H].
  { apply negb_true_iff, String.eqb_neq in Hb.
    split; [now apply bytes_of_string_nonempty|]. auto 10. }
  apply lookup_insert_if in H as [(Hb & -> & ->) | H].
  { apply negb_true_iff, String.eqb_neq in Hb.
    split; [now apply bytes_of_string_nonempty|]. auto 10. }
  apply lookup_insert_if in H as [(Hb & -> & ->) | H].
  { apply negb_true_iff, String.eqb_neq in Hb.
    split; [now apply bytes_of_string_nonempty|]. auto 10. }
  now rewrite lookup_empty in H.
Qed.

Lemma X23_bundle_entries_witness : bytes_of_string "c2ln" <> [].
Proof.
  apply (X23_bundle_entries Demo.X "" "c2ln" "" "" "signature" (bytes_of_string "c2ln")).
  vm_compute. reflexivity.
Defined.
